(** * Trader behaviour insights: the alignment and statistics core

    A shallow embedding of [data_processor.py], [analysis.py] and
    [utils.py].  A pandas DataFrame is a list of rows (records, one field
    per column) together with the list of its column names.  Python
    exceptions are the left summand of [result].

    Numbers.  A float column is a list of [option Q], [None] being NaN,
    and a value that needs a square root (a standard deviation, a Pearson
    coefficient, the Sharpe ratio) lives in [R]: the cells are the numbers
    that the program computes when none of its float operations rounds.
    In binary64 a sum depends on the order of its additions.  Where that
    matters, in the conservation of the total PnL, the statement is made
    for amounts that binary64 adds without rounding, and the sums of the
    program are taken on binary64 cells, in the module [Binary64]. *)

From Stdlib Require Import PrimFloat.
From Stdlib Require Import String List ZArith QArith Qabs Qminmax Qreals Reals.
From Stdlib Require Import Lia Psatz Bool Permutation Sorted.
Import ListNotations.

Set Warnings "-inexact-float".

Local Open Scope string_scope.
Local Open Scope list_scope.
Local Open Scope Q_scope.

(** ** Calendar dates and timestamps *)

Module Calendar.

Record Date := mkDate { year : Z; month : Z; day : Z }.

Definition date_compare (a b : Date) : comparison :=
  match (year a ?= year b)%Z with
  | Eq => match (month a ?= month b)%Z with
          | Eq => (day a ?= day b)%Z
          | c => c
          end
  | c => c
  end.

Definition date_eqb (a b : Date) : bool :=
  match date_compare a b with Eq => true | _ => false end.

Definition date_ltb (a b : Date) : bool :=
  match date_compare a b with Lt => true | _ => false end.

Definition date_leb (a b : Date) : bool := negb (date_ltb b a).

(** A pandas [Timestamp]: a calendar date and the seconds past midnight. *)
Record DateTime := mkDateTime { dt_date : Date; dt_time : Q }.

Definition datetime_ltb (a b : DateTime) : bool :=
  match date_compare (dt_date a) (dt_date b) with
  | Lt => true
  | Eq => if Qlt_le_dec (dt_time a) (dt_time b) then true else false
  | Gt => false
  end.

(** [pd.to_datetime('2024-12-02')] *)
Definition default_timestamp : DateTime :=
  mkDateTime (mkDate 2024 12 2) 0.

(** A timestamp cell is kept as pandas reads it:
    [pd.to_datetime(col, ..., errors='coerce')] turns every cell, on its
    own, into a Timestamp or into NaT.  [Reads t] is a cell that parses
    (under [format='%d-%m-%Y %H:%M'] for the column ['Timestamp IST'],
    under [unit='s'] for the column ['Timestamp']), [Unreadable] one that
    does not. *)
Inductive TimestampCell := Reads (t : DateTime) | Unreadable.

Definition to_datetime (c : TimestampCell) : option DateTime :=
  match c with Reads t => Some t | Unreadable => None end.

(** [.dt.date] on a datetime column: NaT stays null. *)
Definition dt_date_of (t : option DateTime) : option Date :=
  option_map dt_date t.

End Calendar.
Export Calendar.

(** ** Python values and exceptions *)

Inductive exn :=
| AttributeError (msg : string)
| ValueError (msg : string)
| Exception (msg : string).

(** The outcome of a call: [inl e] when it raises [e]. *)
Definition result (A : Type) : Type := (exn + A)%type.

Definition raises {A} (r : result A) : bool :=
  match r with inl _ => true | inr _ => false end.

(** A number as a Python caller sees it: an [int], a float that the
    embedding computes exactly, a float that went through a square root,
    or NaN. *)
Inductive pyval :=
| VInt (z : Z)
| VFloat (q : Q)
| VReal (r : R)
| VNaN.

(** A [dict] with string keys, in insertion order; [[]] is [{}]. *)
Definition dict : Type := list (string * pyval).

(** ** The pandas operations the core calls *)

Module Pandas.

Definition notna {A} (x : option A) : bool :=
  match x with Some _ => true | None => false end.

Fixpoint dropna {A} (s : list (option A)) : list A :=
  match s with
  | [] => []
  | Some x :: r => x :: dropna r
  | None :: r => dropna r
  end.

Definition qsum (l : list Q) : Q := fold_right Qplus 0 l.

Definition qlen {A} (l : list A) : Q := inject_Z (Z.of_nat (List.length l)).

(** [Series.sum()]: NaN is skipped, the sum of nothing is 0. *)
Definition sum (s : list (option Q)) : Q := qsum (dropna s).

(** [Series.count()]: the cells that are not NaN. *)
Definition count {A} (s : list (option A)) : Z :=
  Z.of_nat (List.length (dropna s)).

(** [Series.mean()]: NaN when no cell is left. *)
Definition mean (s : list (option Q)) : option Q :=
  match dropna s with
  | [] => None
  | v => Some (qsum v / qlen v)
  end.

Definition sqdev (m : Q) (v : list Q) : Q :=
  qsum (map (fun x => (x - m) * (x - m)) v).

(** The sample variance ([ddof=1]): NaN with fewer than two cells. *)
Definition var (s : list (option Q)) : option Q :=
  match dropna s with
  | [] => None
  | [_] => None
  | v => Some (sqdev (qsum v / qlen v) v / (qlen v - 1))
  end.

(** [Series.std()] *)
Definition std (s : list (option Q)) : option R :=
  option_map (fun v => sqrt (Q2R v)) (var s).

(** [GroupBy.first()]: the first cell of the group that is not null. *)
Fixpoint first {A} (s : list (option A)) : option A :=
  match s with
  | [] => None
  | Some x :: _ => Some x
  | None :: r => first r
  end.

Fixpoint ffill_from {A} (last : option A) (s : list (option A))
  : list (option A) :=
  match s with
  | [] => []
  | Some x :: r => Some x :: ffill_from (Some x) r
  | None :: r => last :: ffill_from last r
  end.

(** [Series.ffill()] *)
Definition ffill {A} (s : list (option A)) : list (option A) :=
  ffill_from None s.

Fixpoint cumsum_from (acc : Q) (s : list Q) : list Q :=
  match s with
  | [] => []
  | x :: r => (acc + x) :: cumsum_from (acc + x) r
  end.

(** [Series.cumsum()] on a column without NaN. *)
Definition cumsum (s : list Q) : list Q :=
  match s with
  | [] => []
  | x :: r => x :: cumsum_from x r
  end.

Fixpoint cumsum_na_from (acc : option Q) (s : list (option Q))
  : list (option Q) :=
  match s with
  | [] => []
  | None :: r => None :: cumsum_na_from acc r
  | Some x :: r =>
      let acc' := match acc with Some a => a + x | None => x end in
      Some acc' :: cumsum_na_from (Some acc') r
  end.

(** [Series.cumsum()]: a NaN cell stays NaN and is skipped by the sum. *)
Definition cumsum_na (s : list (option Q)) : list (option Q) :=
  cumsum_na_from None s.

Fixpoint expanding_max_from (m : option Q) (s : list (option Q))
  : list (option Q) :=
  match s with
  | [] => []
  | x :: r =>
      let m' := match x, m with
                | Some v, Some w => Some (Qmax w v)
                | Some v, None => Some v
                | None, _ => m
                end in
      m' :: expanding_max_from m' r
  end.

(** [Series.expanding().max()]: the largest cell so far, NaN skipped. *)
Definition expanding_max (s : list (option Q)) : list (option Q) :=
  expanding_max_from None s.

(** [a - b] on two columns of one length, NaN when either cell is. *)
Fixpoint sub (a b : list (option Q)) : list (option Q) :=
  match a, b with
  | x :: a', y :: b' =>
      match x, y with
      | Some u, Some v => Some (u - v)
      | _, _ => None
      end :: sub a' b'
  | _, _ => []
  end.

Definition qmin_list (v : list Q) : option Q :=
  match v with
  | [] => None
  | x :: r => Some (fold_left Qmin r x)
  end.

(** [Series.min()]: NaN is skipped, NaN when no cell is left. *)
Definition min (s : list (option Q)) : option Q := qmin_list (dropna s).

Definition cov (xs ys : list Q) : Q :=
  let mx := qsum xs / qlen xs in
  let my := qsum ys / qlen ys in
  qsum (map (fun p => (fst p - mx) * (snd p - my)) (combine xs ys))
  / (qlen xs - 1).

Definition clip (r : R) : R := Rmax (-1) (Rmin 1 r).

(** [np.corrcoef(a, b)[0, 1]]: the covariances with [ddof=1] divided by
    both standard deviations and clipped to [-1, 1]; with one point, or
    with a constant column, the quotient is 0/0. *)
Definition corrcoef (xs ys : list Q) : option R :=
  match xs with
  | [] | [_] => None
  | _ =>
      let vx := cov xs xs in
      let vy := cov ys ys in
      if Qeq_bool vx 0 || Qeq_bool vy 0 then None
      else Some (clip (Q2R (cov xs ys) / sqrt (Q2R vx) / sqrt (Q2R vy)))
  end.

Fixpoint valid_pairs (a b : list (option Q)) : list (Q * Q) :=
  match a, b with
  | x :: a', y :: b' =>
      match x, y with
      | Some u, Some v => (u, v) :: valid_pairs a' b'
      | _, _ => valid_pairs a' b'
      end
  | _, _ => []
  end.

(** [Series.corr(other)] (Pearson, [min_periods] 1) on two columns of one
    frame: the rows where either cell is NaN are left out; NaN when no row
    is left. *)
Definition corr (a b : list (option Q)) : option R :=
  let ps := valid_pairs a b in
  match ps with
  | [] => None
  | _ => corrcoef (map fst ps) (map snd ps)
  end.

Definition of_option_real (r : option R) : pyval :=
  match r with Some x => VReal x | None => VNaN end.

Definition of_option_float (q : option Q) : pyval :=
  match q with Some x => VFloat x | None => VNaN end.

End Pandas.

(** ** The tables *)

(** The trade table.  The cells of a column that [columns] does not list
    are never read.  A numeric cell is what [pd.to_numeric(...,
    errors='coerce')] makes of it: a number or NaN. *)
Module Trade.

Record Row := mkRow {
  Account : string;
  Side : option string;
  Execution_Price : option Q;
  Size_Tokens : option Q;
  Size_USD : option Q;
  Closed_PnL : option Q;
  Fee : option Q;
  Timestamp_IST : TimestampCell;
  Timestamp : TimestampCell;
  datetime : option DateTime;
  date : option Date
}.

Record Frame := mkFrame { columns : list string; rows : list Row }.

Definition has_column (c : string) (df : Frame) : bool :=
  existsb (String.eqb c) (columns df).

(** [df[c] = ...] on the column names: a new name goes last. *)
Definition add_column (c : string) (cols : list string) : list string :=
  if existsb (String.eqb c) cols then cols else cols ++ [c].

Definition set_datetime (t : option DateTime) (r : Row) : Row :=
  mkRow (Account r) (Side r) (Execution_Price r) (Size_Tokens r)
    (Size_USD r) (Closed_PnL r) (Fee r) (Timestamp_IST r) (Timestamp r)
    t (date r).

Definition set_date (d : option Date) (r : Row) : Row :=
  mkRow (Account r) (Side r) (Execution_Price r) (Size_Tokens r)
    (Size_USD r) (Closed_PnL r) (Fee r) (Timestamp_IST r) (Timestamp r)
    (datetime r) d.

End Trade.

(** The Fear and Greed table as the loader leaves it: [dropna()] has
    removed every row with a missing cell. *)
Module Sentiment.

Record Row := mkRow {
  date : DateTime;
  value : Z;
  classification : string
}.

Definition Frame : Type := list Row.

End Sentiment.

(** The trade table joined with the sentiment of the day. *)
Module Merged.

Record Row := mkRow {
  trade : Trade.Row;
  sentiment_score : option Z;
  sentiment_category : option string
}.

Definition date (r : Row) : option Date := Trade.date (trade r).

Definition key_matches (k : option Date) (s : Date * (Z * string)) : bool :=
  match k with
  | Some d => date_eqb d (fst s)
  | None => false
  end.

Definition join_row (t : Trade.Row) (right : list (Date * (Z * string)))
  : list Row :=
  match filter (key_matches (Trade.date t)) right with
  | [] => [mkRow t None None]
  | ms => map (fun s => mkRow t (Some (fst (snd s))) (Some (snd (snd s)))) ms
  end.

(** The rows of a left join on [date], with [value] and
    [classification] renamed: the left rows in their order, each once per
    right row of its date, or once with null sentiment when there is
    none. *)
Definition merge_left (left : list Trade.Row)
  (right : list (Date * (Z * string))) : list Row :=
  flat_map (fun t => join_row t right) left.

(** Before it joins, [pd.merge] compares the dtypes of the two keys,
    unless one side has no row.  A column that [.dt.date] has made holds
    [date] objects and is an [object] column; but when it has rows and
    every one of its cells is NaT, pandas takes it for a
    [datetime64[ns]] column, and refuses to join it with the [object]
    column of the sentiment dates. *)
Definition keys_refused (left : list Trade.Row)
  (right : list (Date * (Z * string))) : bool :=
  match left, right with
  | _ :: _, _ :: _ =>
      negb (existsb (fun t => Pandas.notna (Trade.date t)) left)
  | _, _ => false
  end.

Definition merge_refused : exn :=
  ValueError
    "You are trying to merge on datetime64[ns] and object columns for key 'date'. If you wish to proceed you should use pd.concat".

(** [pd.merge(left, right[['date', 'value', 'classification']],
    on='date', how='left')] followed by the renaming. *)
Definition merge (left : list Trade.Row)
  (right : list (Date * (Z * string))) : result (list Row) :=
  if keys_refused left right then inl merge_refused
  else inr (merge_left left right).

End Merged.

(** ** Grouping by day *)

Module GroupBy.

Import Merged.

Fixpoint insert_key (d : Date) (ks : list Date) : list Date :=
  match ks with
  | [] => [d]
  | k :: r =>
      match date_compare d k with
      | Lt => d :: ks
      | Eq => ks
      | Gt => k :: insert_key d r
      end
  end.

(** The keys of [df.groupby('date')]: the distinct dates, ascending; a
    row whose date is null belongs to no group. *)
Definition group_keys (df : list Row) : list Date :=
  fold_right
    (fun r ks => match date r with Some d => insert_key d ks | None => ks end)
    [] df.

Definition in_group (d : Date) (r : Row) : bool :=
  match date r with
  | Some d' => date_eqb d' d
  | None => false
  end.

(** [df.groupby('date')]: each group keeps the frame's row order. *)
Definition groupby_date (df : list Row) : list (Date * list Row) :=
  map (fun d => (d, filter (in_group d) df)) (group_keys df).

Definition pnl (g : list Row) : list (option Q) :=
  map (fun r => Trade.Closed_PnL (trade r)) g.

Definition size_usd (g : list Row) : list (option Q) :=
  map (fun r => Trade.Size_USD (trade r)) g.

Definition fee (g : list Row) : list (option Q) :=
  map (fun r => Trade.Fee (trade r)) g.

Definition is_buy (r : Row) : bool :=
  match Trade.Side (trade r) with
  | Some s => String.eqb s "BUY"
  | None => false
  end.

(** [lambda x: (x == 'BUY').sum()] *)
Definition buy_rows (g : list Row) : Z :=
  Z.of_nat (List.length (filter is_buy g)).

Definition is_win (r : Row) : bool :=
  match Trade.Closed_PnL (trade r) with
  | Some p => if Qlt_le_dec 0 p then true else false
  | None => false
  end.

(** [lambda x: (x > 0).sum()] *)
Definition win_rows (g : list Row) : Z :=
  Z.of_nat (List.length (filter is_win g)).

(** Division of one count column by another: a float, except that a zero
    divisor gives [inf] or NaN, here [None]. *)
Definition div_counts (a b : Z) : option Q :=
  if (b =? 0)%Z then None else Some (inject_Z a / inject_Z b).

Definition times100 (x : option Q) : option Q :=
  option_map (fun q => q * 100) x.

End GroupBy.

(** ** [data_processor.py] *)

Module DataProcessor.

Import Pandas GroupBy.

Record t := mk {
  fear_greed_data : option Sentiment.Frame;
  trading_data : option Trade.Frame
}.

(** The order of [sort_values('datetime')]: NaT goes last.  The rows
    are sorted by insertion, which is what numpy's quicksort does with a
    column of at most 16 cells, and keeps rows of one timestamp in their
    order; on a longer column the order that pandas leaves among rows of
    one timestamp is not fixed, and nothing below is stated of it. *)
Definition datetime_before (a b : option DateTime) : bool :=
  match a, b with
  | Some x, Some y => datetime_ltb x y
  | Some _, None => true
  | None, _ => false
  end.

Fixpoint insert_by_datetime (r : Trade.Row) (l : list Trade.Row)
  : list Trade.Row :=
  match l with
  | [] => [r]
  | x :: l' =>
      if datetime_before (Trade.datetime x) (Trade.datetime r)
      then x :: insert_by_datetime r l'
      else r :: l
  end.

Definition sort_values_datetime (l : list Trade.Row) : list Trade.Row :=
  fold_right insert_by_datetime [] l.

Definition _clean_trading_data (df : Trade.Frame) : Trade.Frame :=
  let stamped :=
    if Trade.has_column "Timestamp IST" df then
      map (fun r => Trade.set_datetime (to_datetime (Trade.Timestamp_IST r)) r)
        (Trade.rows df)
    else if Trade.has_column "Timestamp" df then
      map (fun r => Trade.set_datetime (to_datetime (Trade.Timestamp r)) r)
        (Trade.rows df)
    else
      map (Trade.set_datetime (Some default_timestamp)) (Trade.rows df) in
  let kept := filter (fun r => notna (Trade.Side r)) stamped in
  let sorted := sort_values_datetime kept in
  Trade.mkFrame
    (Trade.add_column "date" (Trade.add_column "datetime" (Trade.columns df)))
    (map (fun r => Trade.set_date (dt_date_of (Trade.datetime r)) r) sorted).

(** The join of [merge_datasets].  Its left key has gone through
    [pd.to_datetime] and is a datetime64 column, its right key is a column
    of [date] objects; pandas joins two such keys only when one side has
    no row, and raises otherwise. *)
Definition merge_datetime_with_date (left : list Trade.Row)
  (right : list (Date * (Z * string))) : result (list Merged.Row) :=
  match left, right with
  | _ :: _, [] | [], _ :: _ => inr (map (fun t => Merged.mkRow t None None) left)
  | _, _ =>
      inl (ValueError
        "You are trying to merge on datetime64[ns] and object columns for key 'date'. If you wish to proceed you should use pd.concat")
  end.

Definition merge_datasets (self : t) : result (list Merged.Row) :=
  match fear_greed_data self, trading_data self with
  | Some fg, Some td =>
      let fg_daily :=
        map (fun s => (dt_date (Sentiment.date s),
                       (Sentiment.value s, Sentiment.classification s))) fg in
      merge_datetime_with_date (Trade.rows td) fg_daily
  | _, _ => inl (Exception "Both datasets must be loaded before merging")
  end.

Record DailyRow := mkDaily {
  date : Date;
  total_pnl : Q;
  avg_pnl : option Q;
  trade_count : Z;
  total_volume : Q;
  avg_volume : option Q;
  sentiment_score : option Z;
  sentiment_category : option string;
  buy_count : Z;
  total_fees : Q;
  sell_count : Z;
  buy_ratio : option Q;
  win_trades : Z;
  win_rate : option Q
}.

Definition aggregate (g : Date * list Merged.Row) : DailyRow :=
  let rs := snd g in
  let trade_count := count (pnl rs) in
  let buy_count := buy_rows rs in
  let win_trades := win_rows rs in
  mkDaily (fst g)
    (sum (pnl rs)) (mean (pnl rs)) trade_count
    (sum (size_usd rs)) (mean (size_usd rs))
    (first (map Merged.sentiment_score rs))
    (first (map Merged.sentiment_category rs))
    buy_count (sum (fee rs))
    (trade_count - buy_count)
    (div_counts buy_count trade_count)
    win_trades
    (times100 (div_counts win_trades trade_count)).

Definition get_daily_aggregates (merged_df : list Merged.Row)
  : list DailyRow :=
  map aggregate (groupby_date merged_df).

End DataProcessor.

(** ** [analysis.py] *)

Module Daily.

Record Row := mkRow {
  date : Date;
  total_pnl : Q;
  avg_pnl : option Q;
  trade_count : Z;
  pnl_std : option R;
  total_volume : Q;
  avg_volume : option Q;
  sentiment_score : option Z;
  sentiment_category : option string;
  buy_count : Z;
  total_fees : Q;
  sell_count : Z;
  buy_ratio : option Q;
  cumulative_pnl : Q;
  win_trades : Z;
  win_rate : option Q
}.

End Daily.

Module TradingAnalyzer.

Import Pandas GroupBy.

Record t := mk {
  fear_greed_data : option Sentiment.Frame;
  trading_data : option Trade.Frame;
  merged_data : option (list Merged.Row);
  daily_data : option (list Daily.Row)
}.

Definition no_copy : exn :=
  AttributeError "'NoneType' object has no attribute 'copy'".

(** The [date] column of the trade table as [_merge_by_date] takes it:
    the column itself when the table has one, the day of the timestamp
    otherwise. *)
Definition dated_rows (df : Trade.Frame) : list Trade.Row :=
  if Trade.has_column "date" df then Trade.rows df
  else
    let stamped :=
      if Trade.has_column "Timestamp IST" df then
        map (fun r =>
               Trade.set_datetime (to_datetime (Trade.Timestamp_IST r)) r)
          (Trade.rows df)
      else if Trade.has_column "Timestamp" df then
        map (fun r => Trade.set_datetime (to_datetime (Trade.Timestamp r)) r)
          (Trade.rows df)
      else
        map (Trade.set_datetime (Some default_timestamp)) (Trade.rows df) in
    map (fun r => Trade.set_date (dt_date_of (Trade.datetime r)) r) stamped.

Definition sentiment_by_date (fg : Sentiment.Frame)
  : list (Date * (Z * string)) :=
  map (fun s => (dt_date (Sentiment.date s),
                 (Sentiment.value s, Sentiment.classification s))) fg.

Definition _merge_by_date (fear_greed_data : option Sentiment.Frame)
  (trading_data : option Trade.Frame) : result (list Merged.Row) :=
  match fear_greed_data with
  | None => inl no_copy
  | Some fg =>
      match trading_data with
      | None => inl no_copy
      | Some td => Merged.merge (dated_rows td) (sentiment_by_date fg)
      end
  end.

(** One row of [daily_agg]: the aggregates of the group, then the columns
    computed from them; [cum], [score] and [cat] are the cells of the
    columns that run over the whole frame. *)
Definition daily_row (g : Date * list Merged.Row) (cum : Q)
  (score : option Z) (cat : option string) : Daily.Row :=
  let rs := snd g in
  let trade_count := count (pnl rs) in
  let buy_count := buy_rows rs in
  let win_trades := win_rows rs in
  Daily.mkRow (fst g)
    (sum (pnl rs)) (mean (pnl rs)) trade_count (std (pnl rs))
    (sum (size_usd rs)) (mean (size_usd rs))
    score cat
    buy_count (sum (fee rs))
    (trade_count - buy_count)
    (div_counts buy_count trade_count)
    cum
    win_trades
    (times100 (div_counts win_trades trade_count)).

Definition first_score (g : Date * list Merged.Row) : option Z :=
  first (map Merged.sentiment_score (snd g)).

Definition first_category (g : Date * list Merged.Row) : option string :=
  first (map Merged.sentiment_category (snd g)).

Definition daily_frame (merged : list Merged.Row) : list Daily.Row :=
  let groups := groupby_date merged in
  let cumulative := cumsum (map (fun g => sum (pnl (snd g))) groups) in
  let score := ffill (map first_score groups) in
  let cat := ffill (map first_category groups) in
  map (fun x => daily_row (fst x) (fst (snd x)) (fst (snd (snd x)))
                  (snd (snd (snd x))))
    (combine groups (combine cumulative (combine score cat))).

Definition _create_daily_aggregates (merged_data : option (list Merged.Row))
  : option (list Daily.Row) :=
  match merged_data with
  | None => None
  | Some merged => Some (daily_frame merged)
  end.

(** [TradingAnalyzer(fear_greed_data, trading_data)] *)
Definition __init__ (fear_greed_data : option Sentiment.Frame)
  (trading_data : option Trade.Frame) : result t :=
  match _merge_by_date fear_greed_data trading_data with
  | inl e => inl e
  | inr merged =>
      inr (mk fear_greed_data trading_data (Some merged)
             (_create_daily_aggregates (Some merged)))
  end.

Definition _calculate_sharpe_ratio (returns : list (option Q))
  (risk_free_rate : Q) : pyval :=
  match returns with
  | [] => VInt 0
  | _ =>
      match std returns with
      | None => VNaN
      | Some s =>
          if Req_dec_T s 0 then VInt 0
          else
            let excess_returns :=
              map (option_map (fun x => x - risk_free_rate / 252)) returns in
            match mean excess_returns with
            | Some m => VReal (Q2R m / s * sqrt 252)
            | None => VNaN
            end
      end
  end.

Definition default_risk_free_rate : Q := 2 # 100.

Definition _calculate_max_drawdown (cumulative_returns : list (option Q))
  : pyval :=
  match cumulative_returns with
  | [] => VInt 0
  | _ =>
      let running_max := expanding_max cumulative_returns in
      let drawdown := sub cumulative_returns running_max in
      of_option_float (min drawdown)
  end.

Definition calculate_trading_metrics (self : t) : dict :=
  match trading_data self with
  | None => []
  | Some td =>
      match Trade.rows td with
      | [] => []
      | rs =>
          let closed := map Trade.Closed_PnL rs in
          let total_trades := Z.of_nat (List.length rs) in
          let profitable_trades :=
            Z.of_nat (List.length
              (filter (fun p => if Qlt_le_dec 0 p then true else false)
                 (dropna closed))) in
          let win_rate :=
            inject_Z profitable_trades / inject_Z total_trades * 100 in
          let daily_returns :=
            match daily_data self with
            | Some d => map (fun r => Some (Daily.total_pnl r)) d
            | None => closed
            end in
          [ ("total_trades", VInt total_trades);
            ("win_rate", VFloat win_rate);
            ("total_pnl", VFloat (sum closed));
            ("avg_profit", of_option_float (mean closed));
            ("total_volume", VFloat (sum (map Trade.Size_USD rs)));
            ("sharpe_ratio",
              _calculate_sharpe_ratio daily_returns default_risk_free_rate);
            ("max_drawdown",
              _calculate_max_drawdown (cumsum_na daily_returns));
            ("profitable_trades", VInt profitable_trades);
            ("losing_trades", VInt (total_trades - profitable_trades)) ]
      end
  end.

(** [self.daily_data.dropna(subset=['sentiment_score'])] *)
Definition clean_data (daily : list Daily.Row) : list Daily.Row :=
  filter (fun r => notna (Daily.sentiment_score r)) daily.

Definition score_column (d : list Daily.Row) : list (option Q) :=
  map (fun r => option_map inject_Z (Daily.sentiment_score r)) d.

Definition calculate_sentiment_trading_correlations (self : t) : dict :=
  match daily_data self with
  | None => []
  | Some daily =>
      match clean_data daily with
      | [] =>
          [ ("sentiment_pnl", VInt 0);
            ("sentiment_volume", VInt 0);
            ("sentiment_trades", VInt 0);
            ("sentiment_winrate", VInt 0) ]
      | clean =>
          let score := score_column clean in
          [ ("sentiment_pnl", of_option_real
               (corr score (map (fun r => Some (Daily.total_pnl r)) clean)));
            ("sentiment_volume", of_option_real
               (corr score (map (fun r => Some (Daily.total_volume r)) clean)));
            ("sentiment_trades", of_option_real
               (corr score
                  (map (fun r => Some (inject_Z (Daily.trade_count r))) clean)));
            ("sentiment_winrate", of_option_real
               (corr score (map Daily.win_rate clean))) ]
      end
  end.

(** The rows of the table that [get_correlation_data] exports: with no
    daily data, the empty frame. *)
Definition get_correlation_data (self : t) : list Daily.Row :=
  match daily_data self with
  | None => []
  | Some daily => clean_data daily
  end.

Definition get_detailed_metrics (self : t) : list Daily.Row :=
  match daily_data self with
  | None => []
  | Some daily => daily
  end.

End TradingAnalyzer.

(** ** [utils.py] *)

Module Utils.

Import Pandas.

(** A pandas Series: its cells, each with its index label. *)
Definition Series : Type := list (Z * option Q).

Fixpoint windows_from {A} (w : nat) (seen : list A) (s : list A)
  : list (list A) :=
  match s with
  | [] => []
  | x :: r =>
      let seen' := seen ++ [x] in
      skipn (List.length seen' - w) seen' :: windows_from w seen' r
  end.

Section Rolling.

(** [rolling(...).corr(other)] first pairs the cells of the two series by
    index label, over the union of the two indexes; a label that one
    series lacks gives a NaN cell on that side.  Two series with one
    index are paired cell by cell; otherwise the labels of the outcome,
    their number and their order are the library's, [align]. *)
Variable align : Series -> Series -> list (Z * (option Q * option Q)).

(** [series1.rolling(window=window).corr(series2)]: a negative window is
    refused; the cell of a window with fewer than [window] complete rows
    is NaN. *)
Definition rolling_corr (series1 series2 : Series) (window : Z)
  : result (list (Z * pyval)) :=
  if (window <? 0)%Z then
    inl (ValueError "window must be an integer 0 or greater")
  else
    let aligned := align series1 series2 in
    inr (combine (map fst aligned)
           (map (fun win =>
                   let a := map fst win in
                   let b := map snd win in
                   if (List.length (valid_pairs a b) <? Z.to_nat window)%nat
                   then VNaN
                   else of_option_real (corr a b))
              (windows_from (Z.to_nat window) [] (map snd aligned)))).

Definition rolling_correlation (series1 series2 : Series) (window : Z)
  : result (list (Z * pyval)) :=
  if negb (List.length series1 =? List.length series2)%nat then
    inl (ValueError "Series must have the same length")
  else if (Z.of_nat (List.length series1) <? window)%Z then
    inr (map (fun c => (fst c, VNaN)) series1)
  else rolling_corr series1 series2 window.

End Rolling.

(** The pairing of two series that have one index. *)
Definition paired (series1 series2 : Series)
  : list (Z * (option Q * option Q)) :=
  combine (map fst series1) (combine (map snd series1) (map snd series2)).

Definition default_window : Z := 30.

End Utils.

(** ** The sums in binary64 *)

(** The total of a day and the sum of a column on binary64 cells, as
    pandas computes them; NaN is a float.  A table is given by the two
    columns that the daily totals depend on. *)
Module Binary64.

Definition notna (x : float) : bool := negb (PrimFloat.is_nan x).

(** One step of the compensated sum of pandas' [group_sum]: the running
    sum and the compensation. *)
Definition add_compensated (acc : float * float) (val : float)
  : float * float :=
  let y := PrimFloat.sub val (snd acc) in
  let t := PrimFloat.add (fst acc) y in
  let c := PrimFloat.sub (PrimFloat.sub t (fst acc)) y in
  (t, if PrimFloat.is_nan c then 0%float else c).

(** [groupby('date')['Closed PnL'].sum()] on the cells of one group: the
    NaN cells are skipped. *)
Definition group_sum (cells : list float) : float :=
  fst (fold_left add_compensated (filter notna cells) (0%float, 0%float)).

(** [Series.sum()]: a NaN cell counts as 0.  numpy adds a column of fewer
    than eight cells from left to right; a longer column is added in
    blocks, and is left out here. *)
Definition sum (s : list float) : option float :=
  if (List.length s <? 8)%nat then
    Some (fold_left PrimFloat.add
            (map (fun x => if PrimFloat.is_nan x then 0%float else x) s)
            0%float)
  else None.

Definition Table : Type := list (option Date * float).

Definition group_keys (df : Table) : list Date :=
  fold_right
    (fun r ks =>
       match fst r with Some d => GroupBy.insert_key d ks | None => ks end)
    [] df.

Definition in_group (d : Date) (r : option Date * float) : bool :=
  match fst r with
  | Some d' => date_eqb d' d
  | None => false
  end.

(** The column [total_pnl] of the daily aggregate. *)
Definition total_pnl (df : Table) : list float :=
  map (fun d => group_sum (map snd (filter (in_group d) df)))
    (group_keys df).

End Binary64.

(** ** Notions used to state the properties *)

Module Props.

Import Pandas GroupBy.

(** A NaN cell counts for nothing in a sum. *)
Definition nan0 (x : option Q) : Q :=
  match x with Some q => q | None => 0 end.

Definition before (a b : Date) : Prop := date_ltb a b = true.

Definition ascending (ks : list Date) : Prop := StronglySorted before ks.

(** The merged frame and the daily frame that
    [TradingAnalyzer(fear_greed_data, trading_data)] holds when both
    tables are there and the join is not refused. *)
Definition merged_of (fg : Sentiment.Frame) (td : Trade.Frame)
  : list Merged.Row :=
  Merged.merge_left (TradingAnalyzer.dated_rows td)
    (TradingAnalyzer.sentiment_by_date fg).

Definition daily_of (fg : Sentiment.Frame) (td : Trade.Frame)
  : list Daily.Row :=
  TradingAnalyzer.daily_frame (merged_of fg td).

(** A valid table: every row has a day. *)
Definition every_day_known (df : list Merged.Row) : bool :=
  forallb (fun r => notna (Merged.date r)) df.

Definition every_row_dated (td : Trade.Frame) : bool :=
  forallb (fun r => notna (Trade.date r)) (TradingAnalyzer.dated_rows td).

(** The invariant of the sentiment table: one record per day. *)
Definition one_record_per_day (fg : Sentiment.Frame) : Prop :=
  NoDup (map fst (TradingAnalyzer.sentiment_by_date fg)).

(** The column [total_pnl] before it is put in the frame. *)
Definition total_column (df : list Merged.Row) : list Q :=
  map (fun g => sum (pnl (snd g))) (groupby_date df).

(** The sentiment table has a record of day [d]. *)
Definition has_record (fg : Sentiment.Frame) (d : Date) : bool :=
  existsb (Merged.key_matches (Some d)) (TradingAnalyzer.sentiment_by_date fg).

(** The trade table has a row on day [d]. *)
Definition trades_on (td : Trade.Frame) (d : Date) : Prop :=
  exists t, In t (TradingAnalyzer.dated_rows td) /\ Trade.date t = Some d.


(** The sentiment of the group of day [d] before the forward fill. *)
Definition score_of_day (df : list Merged.Row) (d : Date) : option Z :=
  first (map Merged.sentiment_score (filter (in_group d) df)).


(** The analyzer that the constructor returns for two tables, when it
    returns one. *)
Definition analyzer_of (fg : Sentiment.Frame) (td : Trade.Frame)
  : TradingAnalyzer.t :=
  TradingAnalyzer.mk (Some fg) (Some td) (Some (merged_of fg td))
    (Some (daily_of fg td)).

Definition all_zero : dict :=
  [ ("sentiment_pnl", VInt 0); ("sentiment_volume", VInt 0);
    ("sentiment_trades", VInt 0); ("sentiment_winrate", VInt 0) ].

Definition all_nan : dict :=
  [ ("sentiment_pnl", VNaN); ("sentiment_volume", VNaN);
    ("sentiment_trades", VNaN); ("sentiment_winrate", VNaN) ].

Definition both_needed : exn :=
  Exception "Both datasets must be loaded before merging".

(** [d[k]] *)
Fixpoint lookup (k : string) (d : dict) : option pyval :=
  match d with
  | [] => None
  | (k', v) :: r => if String.eqb k k' then Some v else lookup k r
  end.

Definition same_length_needed : exn :=
  ValueError "Series must have the same length".

Definition window_refused : exn :=
  ValueError "window must be an integer 0 or greater".

(** The running maximum of a series at the cell [i]: the largest of the
    cells up to [i]. *)
Definition running_max_at (c : list Q) (i : nat) : Q :=
  fold_right Qmax (nth i c 0) (firstn i c).

(** How far the cell [i] is below the running maximum. *)
Definition drawdown_at (c : list Q) (i : nat) : Q :=
  nth i c 0 - running_max_at c i.

(** The running maxima of [l], from a first maximum [w]. *)
Fixpoint run_from (w : Q) (l : list Q) : list Q :=
  match l with
  | [] => []
  | v :: r => Qmax w v :: run_from (Qmax w v) r
  end.

Fixpoint zipminus (a b : list Q) : list Q :=
  match a, b with
  | u :: a', v :: b' => (u - v) :: zipminus a' b'
  | _, _ => []
  end.

(** The timestamp of a trade row by the precedence of the
    specification: the column ['Timestamp IST'] when the table has it,
    else the column ['Timestamp'] when the table has it, else the fixed
    date; a cell that does not parse gives null. *)
Definition timestamp_by_precedence (df : Trade.Frame) (r : Trade.Row)
  : option DateTime :=
  if Trade.has_column "Timestamp IST" df then
    to_datetime (Trade.Timestamp_IST r)
  else if Trade.has_column "Timestamp" df then
    to_datetime (Trade.Timestamp r)
  else Some default_timestamp.

Definition day_by_precedence (df : Trade.Frame) (r : Trade.Row)
  : option Date :=
  dt_date_of (timestamp_by_precedence df r).

(** The row with its columns [datetime] and [date] set by that rule. *)
Definition with_day (df : Trade.Frame) (r : Trade.Row) : Trade.Row :=
  Trade.set_date (day_by_precedence df r)
    (Trade.set_datetime (timestamp_by_precedence df r) r).

Definition has_side (r : Trade.Row) : bool := notna (Trade.Side r).

(** A series whose cells are all the same number. *)
Definition constant (l : list Q) : Prop :=
  forall x y, In x l -> In y l -> x == y.

(** The sum of a list of numbers, as the specification takes it. *)
Definition added_up (l : list Q) : Q := fold_right Qplus 0 l.




(** The column [Closed PnL] of a table, a NaN cell counting as 0. *)
Definition closed_pnl (df : list Merged.Row) : list Q :=
  map (fun r => nan0 (Trade.Closed_PnL (Merged.trade r))) df.

(** [mean(returns - risk_free_rate / 252)] *)
Definition mean_excess (l : list Q) (risk_free_rate : Q) : Q :=
  qsum (map (fun x => x - risk_free_rate / 252) l) / qlen l.

(** The sample variance of a series of at least two cells. *)
Definition sample_variance (l : list Q) : Q :=
  sqdev (qsum l / qlen l) l / (qlen l - 1).

End Props.

(** ** Sample tables *)

Module Samples.

Definition D1 : Date := mkDate 2024 1 1.
Definition D2 : Date := mkDate 2024 1 2.

(** A ['Timestamp IST'] cell that reads as nine in the morning of [d]. *)
Definition on (d : Date) : TimestampCell :=
  Reads (mkDateTime d 32400).

(** A row of the trade table as it is read from the file. *)
Definition trade (ts : TimestampCell) (side : string) (closed : option Q)
  : Trade.Row :=
  Trade.mkRow "0xacc" (Some side) (Some 100) (Some 1) (Some 100) closed
    (Some (1 # 10)) ts Unreadable None None.

(** The table that [load_trading_data] returns for these rows. *)
Definition loaded (rs : list Trade.Row) : Trade.Frame :=
  DataProcessor._clean_trading_data
    (Trade.mkFrame
       ["Account"; "Side"; "Execution Price"; "Size Tokens"; "Size USD";
        "Closed PnL"; "Fee"; "Timestamp IST"] rs).

Definition extreme_fear (d : Date) : Sentiment.Row :=
  Sentiment.mkRow (mkDateTime d 0) 15 "Extreme Fear".

(** Two BUY rows and one SELL row on one day, one BUY row the day after;
    sentiment is known on the first day only. *)
Definition two_days : Trade.Frame :=
  loaded [trade (on D1) "BUY" (Some 10); trade (on D1) "BUY" (Some 5);
          trade (on D1) "SELL" (Some (-20)); trade (on D2) "BUY" (Some 7)].

Definition first_day_only : Sentiment.Frame := [extreme_fear D1].


(** One trade on the only day that has a sentiment record. *)
Definition one_trade : Trade.Frame :=
  loaded [trade (on D1) "BUY" (Some 5)].

(** Two BUY rows on one day; the first has no readable [Closed PnL]. *)
Definition unpriced_buy : Trade.Frame :=
  loaded [trade (on D1) "BUY" None; trade (on D1) "BUY" (Some 5)].

(** One row whose timestamp does not parse. *)
Definition one_undated : Trade.Frame :=
  loaded [trade (on D1) "BUY" (Some 10); trade Unreadable "SELL" (Some 4)].

(** A table whose only row has a timestamp that does not parse. *)
Definition unreadable_only : Trade.Frame :=
  loaded [trade Unreadable "BUY" (Some 10)].

(** The same row as the file has it, before the loader. *)
Definition unreadable_raw : Trade.Frame :=
  Trade.mkFrame
    ["Account"; "Side"; "Execution Price"; "Size Tokens"; "Size USD";
     "Closed PnL"; "Fee"; "Timestamp IST"]
    [trade Unreadable "BUY" (Some 10)].

(** A trade table with no timestamp column at all. *)
Definition no_timestamps : Trade.Frame :=
  DataProcessor._clean_trading_data
    (Trade.mkFrame
       ["Account"; "Side"; "Execution Price"; "Size Tokens"; "Size USD";
        "Closed PnL"; "Fee"]
       [trade Unreadable "BUY" (Some 10); trade Unreadable "SELL" (Some (-4));
        trade Unreadable "BUY" (Some 3)]).


(** Two series on the index 0, 1. *)
Definition rising : Utils.Series := [(0%Z, Some 1); (1%Z, Some 2)].
Definition falling : Utils.Series := [(0%Z, Some 5); (1%Z, Some 3)].

End Samples.

(** ** Sorting a column *)

Module SortBy.

Section Sort.

Context {A : Type}.
Variable before : A -> A -> bool.

Fixpoint insert_by (r : A) (l : list A) : list A :=
  match l with
  | [] => [r]
  | x :: l' => if before x r then x :: insert_by r l' else r :: l
  end.

(** [sort_values]: ascending.  Rows of one key are kept in their order,
    as by the insertion that numpy's quicksort does on a column of at
    most 16 cells; nothing is stated of their order. *)
Definition sort_by (l : list A) : list A := fold_right insert_by [] l.

End Sort.

End SortBy.

(** ** [DataProcessor._clean_fear_greed_data] *)

(** The Fear and Greed table as it is read from the file.  A cell of the
    columns [timestamp] and [date] goes through [pd.to_datetime] without
    [errors='coerce']: it parses, or it is empty and becomes NaT, or it
    is malformed and the call raises.  A cell of [value] is what
    [pd.to_numeric(..., errors='coerce')] makes of it.  The cells of a
    column that [columns] does not list are never read; the file has no
    column besides these four. *)
Module FearGreed.

Import Pandas.

Inductive StrictCell := Parsed (t : DateTime) | Blank | Malformed.

Record Row := mkRow {
  timestamp : StrictCell;
  date : StrictCell;
  value : option Z;
  classification : option string
}.

Record Frame := mkFrame { columns : list string; rows : list Row }.

Inductive error :=
| KeyError (key : string)
| ParseError (column : string).

Definition has_column (c : string) (df : Frame) : bool :=
  existsb (String.eqb c) (columns df).

Definition malformed (c : StrictCell) : bool :=
  match c with Malformed => true | _ => false end.

Definition parsed (c : StrictCell) : bool :=
  match c with Parsed _ => true | _ => false end.

(** [df.dropna()] keeps the rows that have no null cell in any column of
    the frame; the column [datetime] is there when [timestamp] is and has
    a null cell where [timestamp] has one. *)
Definition complete (df : Frame) (r : Row) : bool :=
  (negb (has_column "timestamp" df) || parsed (timestamp r))
  && (negb (has_column "date" df) || parsed (date r))
  && notna (value r)
  && (negb (has_column "classification" df) || notna (classification r)).

(** The order of [sort_values('date')]: NaT goes last. *)
Definition date_before (a b : Row) : bool :=
  match date a, date b with
  | Parsed x, Parsed y => datetime_ltb x y
  | Parsed _, _ => true
  | _, _ => false
  end.

Definition _clean_fear_greed_data (df : Frame) : error + Frame :=
  if has_column "timestamp" df
     && existsb (fun r => malformed (timestamp r)) (rows df)
  then inl (ParseError "timestamp")
  else if has_column "date" df
          && existsb (fun r => malformed (date r)) (rows df)
  then inl (ParseError "date")
  else if negb (has_column "value" df) then inl (KeyError "value")
  else if negb (has_column "date" df) then inl (KeyError "date")
  else
    inr (mkFrame
           (if has_column "timestamp" df
            then Trade.add_column "datetime" (columns df)
            else columns df)
           (SortBy.sort_by date_before (filter (complete df) (rows df)))).

(** The rows as the analyzer reads them, for a cleaned frame that has
    the three columns it needs. *)
Definition to_sentiment (r : Row) : option Sentiment.Row :=
  match date r, value r, classification r with
  | Parsed t, Some v, Some c => Some (Sentiment.mkRow t v c)
  | _, _, _ => None
  end.

End FearGreed.

(** ** [visualizations.py]: the table behind the correlation charts *)

Module DashboardVisualizer.

Import Pandas GroupBy.

Record Row := mkRow {
  date : Date;
  total_pnl : Q;
  avg_pnl : option Q;
  trade_count : Z;
  total_volume : Q;
  buy_count : Z;
  win_count : Z;
  win_rate : option Q;
  sentiment_score : Z;
  sentiment_category : string
}.





End DashboardVisualizer.

(** ** [DataProcessor.validate_data] *)

Module Validation.

Import Pandas.

(** [f"{names}"] for a list of plain column names. *)
Definition repr_names (names : list string) : string :=
  ("[" ++ String.concat ", " (map (fun c => "'" ++ c ++ "'") names)
   ++ "]")%string.

Definition missing_from (cols required : list string) : list string :=
  filter (fun c => negb (existsb (String.eqb c) cols)) required.

Definition zmin_list (v : list Z) : option Z :=
  match v with [] => None | x :: r => Some (fold_left Z.min r x) end.

Definition zmax_list (v : list Z) : option Z :=
  match v with [] => None | x :: r => Some (fold_left Z.max r x) end.

(** [0 <= column.min() <= column.max() <= 100]: false when the column
    has no number, its minimum being NaN. *)
Definition in_range (values : list (option Z)) : bool :=
  match zmin_list (dropna values), zmax_list (dropna values) with
  | Some lo, Some hi => (0 <=? lo)%Z && (lo <=? hi)%Z && (hi <=? 100)%Z
  | _, _ => false
  end.

Definition fear_greed_issues (fg : FearGreed.Frame) : list string :=
  let missing_cols :=
    missing_from (FearGreed.columns fg) ["date"; "value"; "classification"] in
  (match missing_cols with
   | [] => []
   | _ => [("Fear/Greed data missing columns: "
            ++ repr_names missing_cols)%string]
   end)
  ++ (if FearGreed.has_column "value" fg then
        if in_range (map FearGreed.value (FearGreed.rows fg)) then []
        else ["Fear/Greed values should be between 0 and 100"]
      else []).

Definition trading_issues (td : Trade.Frame) : list string :=
  let missing_cols :=
    missing_from (Trade.columns td)
      ["Account"; "Side"; "Execution Price"; "Size USD"] in
  match missing_cols with
  | [] => []
  | _ => [("Trading data missing columns: "
           ++ repr_names missing_cols)%string]
  end.

Definition validate_data (fear_greed_data : option FearGreed.Frame)
  (trading_data : option Trade.Frame) : list string :=
  (match fear_greed_data with Some fg => fear_greed_issues fg | None => [] end)
  ++ (match trading_data with Some td => trading_issues td | None => [] end).

End Validation.

(** ** More of [utils.py] *)

Module MoreUtils.

Import Pandas.

(** One cell of [(a - b) / b * 100]; a zero divisor gives an infinity or
    NaN, here [None]. *)
Definition percent_of (a b : option Q) : option Q :=
  match a, b with
  | Some x, Some y => if Qeq_bool y 0 then None else Some (x / y * 100)
  | _, _ => None
  end.

Fixpoint percent_cells (a b : list (option Q)) : list (option Q) :=
  match a, b with
  | x :: a', y :: b' => percent_of x y :: percent_cells a' b'
  | _, _ => []
  end.

Definition calculate_drawdown (cumulative_returns : list (option Q))
  : list (option Q) :=
  let running_max := expanding_max cumulative_returns in
  percent_cells (sub cumulative_returns running_max) running_max.

(** A frame of any shape, as [validate_csv_structure] looks at it: the
    number of rows, and for each column its name and, row by row, whether
    the cell is null. *)
Record AnyFrame := mkAnyFrame {
  nrows : nat;
  columns : list (string * list bool)
}.

Definition column_names (df : AnyFrame) : list string :=
  map fst (columns df).

Section Structure.

(** Python's [repr] of a list of strings. *)
Variable repr : list string -> string.

Definition validate_csv_structure (df : AnyFrame)
  (required_columns : list string) (dataset_name : string) : list string :=
  let missing_columns :=
    filter (fun c => negb (existsb (String.eqb c) (column_names df)))
      required_columns in
  let all_nan_columns :=
    map fst (filter (fun c => forallb (fun b => b) (snd c)) (columns df)) in
  (match missing_columns with
   | [] => []
   | _ => [("Missing required columns in " ++ dataset_name ++ ": "
            ++ repr missing_columns)%string]
   end)
  ++ (match nrows df with
      | O => [(dataset_name ++ " is empty")%string]
      | S _ => []
      end)
  ++ (match all_nan_columns with
      | [] => []
      | _ => [("Columns with all NaN values in " ++ dataset_name ++ ": "
               ++ repr all_nan_columns)%string]
      end).

End Structure.

End MoreUtils.

(** ** More of [analysis.py] *)

Module MoreAnalysis.

Import Pandas.

Definition count_of (name : string) (fg : Sentiment.Frame) : Z :=
  Z.of_nat (List.length
    (filter (fun r => String.eqb (Sentiment.classification r) name) fg)).

(** [Series.median()] of a column of integers. *)
Definition median (v : list Z) : option Q :=
  let s := SortBy.sort_by Z.ltb v in
  let n := List.length s in
  match n with
  | O => None
  | _ =>
      if Nat.odd n then Some (inject_Z (nth (n / 2) s 0%Z))
      else Some ((inject_Z (nth (n / 2 - 1) s 0%Z)
                  + inject_Z (nth (n / 2) s 0%Z)) / 2)
  end.

(** [calculate_sentiment_statistics], for an analyzer that holds the
    sentiment table [fg]. *)
Definition calculate_sentiment_statistics (fg : Sentiment.Frame) : dict :=
  let values := map (fun r => Some (inject_Z (Sentiment.value r))) fg in
  [ ("extreme_fear_days", VInt (count_of "Extreme Fear" fg));
    ("fear_days", VInt (count_of "Fear" fg));
    ("neutral_days", VInt (count_of "Neutral" fg));
    ("greed_days", VInt (count_of "Greed" fg));
    ("extreme_greed_days", VInt (count_of "Extreme Greed" fg));
    ("avg_score", of_option_float (mean values));
    ("median_score", of_option_float (median (map Sentiment.value fg)));
    ("std_score", of_option_real (std values)) ].

(** [Series.unique()]: the values in the order of their first
    occurrence. *)
Fixpoint unique (seen l : list string) : list string :=
  match l with
  | [] => []
  | x :: r =>
      if existsb (String.eqb x) seen then unique seen r
      else x :: unique (x :: seen) r
  end.

Record TestResult := mkTest {
  mean_pnl : option Q;
  t_statistic : pyval;
  p_value : pyval;
  sample_size : Z
}.

Definition has_category (c : string) (r : Daily.Row) : bool :=
  match Daily.sentiment_category r with
  | Some c' => String.eqb c' c
  | None => false
  end.

Section Tests.

(** [scipy.stats.ttest_ind]: the statistic and the p-value. *)
Variable ttest_ind : list Q -> list Q -> pyval * pyval.

Definition test_category (clean_data : list Daily.Row) (category : string)
  : list (string * TestResult) :=
  let category_data :=
    map Daily.total_pnl (filter (has_category category) clean_data) in
  let other_data :=
    map Daily.total_pnl
      (filter (fun r => negb (has_category category r)) clean_data) in
  if (1 <? List.length category_data)%nat
     && (1 <? List.length other_data)%nat
  then
    let t := ttest_ind category_data other_data in
    [(category,
      mkTest (mean (map Some category_data)) (fst t) (snd t)
        (Z.of_nat (List.length category_data)))]
  else [].

(** [perform_statistical_tests]: the results by category, in the order
    in which the categories first occur.  The column [total_pnl] has no
    null cell, so that [dropna] keeps the rows that have a category. *)
Definition perform_statistical_tests (self : TradingAnalyzer.t)
  : list (string * TestResult) :=
  match TradingAnalyzer.daily_data self with
  | None => []
  | Some daily =>
      let clean_data :=
        filter (fun r => notna (Daily.sentiment_category r)) daily in
      let sentiment_categories :=
        unique [] (dropna (map Daily.sentiment_category clean_data)) in
      flat_map (test_category clean_data) sentiment_categories
  end.

End Tests.

End MoreAnalysis.

(** ** Notions used to state further properties *)

Module MoreProps.

Import Pandas GroupBy Props.

(** The trade row is of day [d]. *)
Definition on_day (d : Date) (t : Trade.Row) : bool :=
  match Trade.date t with
  | Some d' => date_eqb d' d
  | None => false
  end.

(** The value of the first sentiment row of day [d]. *)
Definition first_match (d : Date) (right : list (Date * (Z * string)))
  : option Z :=
  match filter (Merged.key_matches (Some d)) right with
  | [] => None
  | s :: _ => Some (fst (snd s))
  end.

(** The value of the sentiment record of day [d]: of the first one in the
    table when the day has several. *)
Definition record_value (fg : Sentiment.Frame) (d : Date) : option Z :=
  first_match d (TradingAnalyzer.sentiment_by_date fg).

(** What a row of the daily aggregate says about wins. *)
Definition win_columns_ok (trade_count win_trades : Z) (win_rate : option Q)
  : Prop :=
  (0 <= win_trades <= trade_count)%Z
  /\ match win_rate with
     | Some q => (0 < trade_count)%Z /\ 0 <= q <= 100
     | None => trade_count = 0%Z
     end.

(** In the order of [sort_values]: [a] is not after [b]. *)
Definition not_after (a b : option DateTime) : Prop :=
  DataProcessor.datetime_before b a = false.

Definition row_before (x y : Trade.Row) : bool :=
  DataProcessor.datetime_before (Trade.datetime x) (Trade.datetime y).

(** The rows are in ascending order of their timestamp, NaT last. *)
Definition by_datetime (l : list Trade.Row) : Prop :=
  StronglySorted
    (fun x y => not_after (Trade.datetime x) (Trade.datetime y)) l.

(** The rows are in ascending order of their date. *)
Definition by_date (l : list FearGreed.Row) : Prop :=
  StronglySorted (fun x y => FearGreed.date_before y x = false) l.

(** Some cell of the column [c] of the Fear and Greed file is
    malformed. *)
Definition malformed_in (c : string) (df : FearGreed.Frame) : bool :=
  if String.eqb c "timestamp" then
    existsb (fun r => FearGreed.malformed (FearGreed.timestamp r))
      (FearGreed.rows df)
  else if String.eqb c "date" then
    existsb (fun r => FearGreed.malformed (FearGreed.date r))
      (FearGreed.rows df)
  else false.

(** What is true of the frame that [_clean_fear_greed_data] returns for
    [df]. *)
Definition cleaned_from (df out : FearGreed.Frame) : Prop :=
  by_date (FearGreed.rows out)
  /\ Permutation (FearGreed.rows out)
       (filter (FearGreed.complete df) (FearGreed.rows df))
  /\ Forall (fun r => exists t v, FearGreed.date r = FearGreed.Parsed t
                                  /\ FearGreed.value r = Some v)
       (FearGreed.rows out)
  /\ (FearGreed.has_column "classification" df = true ->
      Forall (fun r => exists s, FearGreed.to_sentiment r = Some s)
        (FearGreed.rows out)).



(** The Fear and Greed table passes [validate_data]: it has the three
    columns, and its values, of which there is at least one, are all
    between 0 and 100. *)
Definition fear_greed_valid (fg : FearGreed.Frame) : Prop :=
  (forall c, In c ["date"; "value"; "classification"] ->
             FearGreed.has_column c fg = true)
  /\ dropna (map FearGreed.value (FearGreed.rows fg)) <> []
  /\ forall v, In (Some v) (map FearGreed.value (FearGreed.rows fg)) ->
               (0 <= v <= 100)%Z.

Definition trading_valid (td : Trade.Frame) : Prop :=
  forall c, In c ["Account"; "Side"; "Execution Price"; "Size USD"] ->
            Trade.has_column c td = true.

(** Every column of the frame has a cell for every row. *)
Definition well_formed (df : MoreUtils.AnyFrame) : Prop :=
  Forall (fun c => List.length (snd c) = MoreUtils.nrows df)
    (MoreUtils.columns df).

(** The column has a cell that is not null. *)
Definition has_a_value (c : string * list bool) : Prop :=
  exists b, In b (snd c) /\ b = false.


(** The days of the daily frame whose sentiment category is [c], and the
    days that have another category. *)
Definition days_of (c : string) (daily : list Daily.Row) : list Daily.Row :=
  filter (MoreAnalysis.has_category c) daily.

Definition days_of_others (c : string) (daily : list Daily.Row)
  : list Daily.Row :=
  filter (fun r => notna (Daily.sentiment_category r)
                   && negb (MoreAnalysis.has_category c r)) daily.

Definition days_with_category (daily : list Daily.Row) : list Daily.Row :=
  filter (fun r => notna (Daily.sentiment_category r)) daily.

Definition five_classes : list string :=
  ["Extreme Fear"; "Fear"; "Neutral"; "Greed"; "Extreme Greed"].

Definition known_class (r : Sentiment.Row) : bool :=
  existsb (String.eqb (Sentiment.classification r)) five_classes.

Definition indicator (b : bool) : Z := if b then 1%Z else 0%Z.

(** The sum of a column of counts. *)
Definition zsum (l : list Z) : Z := fold_right Z.add 0%Z l.

(** The row has a day; the row has a [Closed PnL] that is a number. *)
Definition dated (r : Merged.Row) : bool := notna (Merged.date r).

Definition priced (r : Merged.Row) : bool :=
  notna (Trade.Closed_PnL (Merged.trade r)).

(** How many rows of the table have a day and satisfy [p]. *)
Definition dated_rows_with (p : Merged.Row -> bool) (df : list Merged.Row)
  : Z :=
  Z.of_nat (List.length (filter (fun r => dated r && p r) df)).

End MoreProps.

(** ** More sample inputs *)

Module MoreSamples.

(** A cumulative PnL that starts below zero and stays there. *)
Definition losses : list Q := [-10; -30; -20].

End MoreSamples.
(** * Facts *)

(** ** The order of dates *)

Module CalendarFacts.

Lemma date_compare_eq a b : date_compare a b = Eq <-> a = b.
Proof.
  unfold date_compare. destruct a as [y m d], b as [y' m' d']; simpl.
  destruct (Z.compare_spec y y'); destruct (Z.compare_spec m m');
    destruct (Z.compare_spec d d'); subst;
    split; intro Heq; try discriminate; try reflexivity;
    injection Heq; intros; lia.
Qed.

Lemma date_compare_lt a b :
  date_compare a b = Lt <->
  (year a < year b \/ (year a = year b /\
     (month a < month b \/ (month a = month b /\ day a < day b))))%Z.
Proof.
  unfold date_compare.
  destruct (Z.compare_spec (year a) (year b));
    destruct (Z.compare_spec (month a) (month b));
    destruct (Z.compare_spec (day a) (day b));
    split; intro Hlt; try discriminate; try reflexivity; lia.
Qed.

Lemma date_compare_lt_trans a b c :
  date_compare a b = Lt -> date_compare b c = Lt -> date_compare a c = Lt.
Proof. rewrite !date_compare_lt. lia. Qed.

Lemma date_compare_antisym a b :
  date_compare b a = CompOpp (date_compare a b).
Proof.
  unfold date_compare. destruct a as [y m d], b as [y' m' d']; simpl.
  rewrite (Z.compare_antisym y y'), (Z.compare_antisym m m'),
    (Z.compare_antisym d d').
  destruct (y ?= y')%Z, (m ?= m')%Z, (d ?= d')%Z; reflexivity.
Qed.

Lemma date_eqb_eq a b : date_eqb a b = true <-> a = b.
Proof.
  unfold date_eqb. rewrite <- date_compare_eq.
  destruct (date_compare a b); split; congruence.
Qed.

Lemma date_eqb_refl a : date_eqb a a = true.
Proof. apply date_eqb_eq; reflexivity. Qed.

Lemma date_ltb_irrefl a : date_ltb a a = false.
Proof.
  unfold date_ltb. replace (date_compare a a) with Eq; [reflexivity|].
  symmetry; apply date_compare_eq; reflexivity.
Qed.

Lemma date_ltb_trans a b c :
  date_ltb a b = true -> date_ltb b c = true -> date_ltb a c = true.
Proof.
  unfold date_ltb. intros H1 H2.
  destruct (date_compare a b) eqn:E1; try discriminate.
  destruct (date_compare b c) eqn:E2; try discriminate.
  rewrite (date_compare_lt_trans _ _ _ E1 E2). reflexivity.
Qed.

Lemma date_leb_refl a : date_leb a a = true.
Proof. unfold date_leb. rewrite date_ltb_irrefl. reflexivity. Qed.

Lemma date_ltb_leb a b : date_ltb a b = true -> date_leb a b = true.
Proof.
  unfold date_leb, date_ltb. rewrite (date_compare_antisym a b).
  destruct (date_compare a b); simpl; congruence.
Qed.

Lemma date_leb_ltb_trans a b c :
  date_leb a b = true -> date_ltb b c = true -> date_ltb a c = true.
Proof.
  unfold date_leb. intros H1 H2.
  destruct (date_eqb a b) eqn:E.
  - apply date_eqb_eq in E. subst. exact H2.
  - apply date_ltb_trans with b; [|exact H2].
    unfold date_ltb, date_eqb in *. rewrite (date_compare_antisym a b) in H1.
    destruct (date_compare a b); simpl in *; congruence.
Qed.

End CalendarFacts.
Export CalendarFacts.

(** ** Sums of rationals *)

Module SumFacts.

Import Pandas Props.

Lemma qsum_app (a b : list Q) : qsum (a ++ b) == qsum a + qsum b.
Proof.
  induction a as [|x a IH]; simpl.
  - ring.
  - rewrite IH. ring.
Qed.






End SumFacts.

(** ** Columns put side by side *)

Module ColumnFacts.

Import Pandas Props.

Lemma map_fst_combine {A B} (a : list A) (b : list B) :
  List.length a = List.length b -> map fst (combine a b) = a.
Proof.
  revert b. induction a as [|x a IH]; intros [|y b] H; simpl in *;
    try discriminate; try reflexivity.
  f_equal. apply IH. lia.
Qed.

Lemma map_snd_combine {A B} (a : list A) (b : list B) :
  List.length a = List.length b -> map snd (combine a b) = b.
Proof.
  revert b. induction a as [|x a IH]; intros [|y b] H; simpl in *;
    try discriminate; try reflexivity.
  f_equal. apply IH. lia.
Qed.

Lemma length_combine_eq {A B} (a : list A) (b : list B) :
  List.length a = List.length b ->
  List.length (combine a b) = List.length a.
Proof. intros H. rewrite length_combine, <- H. apply Nat.min_id. Qed.

Lemma length_cumsum_from (acc : Q) (s : list Q) :
  List.length (cumsum_from acc s) = List.length s.
Proof.
  revert acc. induction s as [|x s IH]; intros acc; simpl; [|rewrite IH];
    reflexivity.
Qed.

Lemma length_cumsum (s : list Q) : List.length (cumsum s) = List.length s.
Proof.
  destruct s as [|x s]; simpl; [|rewrite length_cumsum_from]; reflexivity.
Qed.

Lemma length_ffill_from {A} (last : option A) (s : list (option A)) :
  List.length (ffill_from last s) = List.length s.
Proof.
  revert last. induction s as [|[x|] s IH]; intros last; simpl;
    [|rewrite IH..]; reflexivity.
Qed.

Lemma length_ffill {A} (s : list (option A)) :
  List.length (ffill s) = List.length s.
Proof. apply length_ffill_from. Qed.

End ColumnFacts.

(** ** The groups of [groupby('date')] *)

Module GroupFacts.

Import Pandas GroupBy Props SumFacts.

Lemma insert_key_in (d x : Date) (ks : list Date) :
  In x (insert_key d ks) <-> x = d \/ In x ks.
Proof.
  induction ks as [|k ks IH]; simpl.
  - intuition.
  - destruct (date_compare d k) eqn:E; simpl.
    + apply date_compare_eq in E. subst k. intuition.
    + intuition.
    + rewrite IH. intuition.
Qed.

Lemma insert_key_ascending (d : Date) (ks : list Date) :
  ascending ks -> ascending (insert_key d ks).
Proof.
  unfold ascending. induction ks as [|k ks IH]; simpl; intros H.
  - constructor; constructor.
  - destruct (date_compare d k) eqn:E.
    + exact H.
    + constructor; [exact H|].
      inversion H as [|? ? Hs Hall]; subst.
      constructor.
      * unfold before, date_ltb. rewrite E. reflexivity.
      * eapply Forall_impl; [|exact Hall].
        intros a Ha. unfold before in *.
        apply date_ltb_trans with k; [|exact Ha].
        unfold date_ltb. rewrite E. reflexivity.
    + inversion H as [|? ? Hs Hall]; subst.
      constructor; [apply IH; exact Hs|].
      apply Forall_forall. intros x Hx.
      apply insert_key_in in Hx. destruct Hx as [->|Hx].
      * unfold before, date_ltb. rewrite (date_compare_antisym d k), E.
        reflexivity.
      * rewrite Forall_forall in Hall. apply Hall. exact Hx.
Qed.

Lemma group_keys_ascending (df : list Merged.Row) :
  ascending (group_keys df).
Proof.
  induction df as [|r df IH]; simpl.
  - constructor.
  - destruct (Merged.date r); [apply insert_key_ascending|]; exact IH.
Qed.

Lemma group_keys_in (d : Date) (df : list Merged.Row) :
  In d (group_keys df) <-> exists r, In r df /\ Merged.date r = Some d.
Proof.
  induction df as [|r df IH]; simpl.
  - split; [contradiction|intros [r [[] _]]].
  - destruct (Merged.date r) as [d'|] eqn:E.
    + rewrite insert_key_in, IH. split.
      * intros [->|[r' [Hin Hd]]]; [exists r|exists r']; auto.
      * intros [r' [[<-|Hin] Hd]].
        -- left. congruence.
        -- right. exists r'. auto.
    + rewrite IH. split.
      * intros [r' [Hin Hd]]. exists r'. auto.
      * intros [r' [[<-|Hin] Hd]]; [congruence|]. exists r'. auto.
Qed.

Lemma ascending_NoDup (ks : list Date) : ascending ks -> NoDup ks.
Proof.
  induction 1 as [|k ks Hs IH Hall]; constructor; [|exact IH].
  intros Hin. rewrite Forall_forall in Hall. specialize (Hall k Hin).
  unfold before in Hall. rewrite date_ltb_irrefl in Hall. discriminate.
Qed.

Lemma group_keys_NoDup (df : list Merged.Row) : NoDup (group_keys df).
Proof. apply ascending_NoDup, group_keys_ascending. Qed.

Lemma length_groupby (df : list Merged.Row) :
  List.length (groupby_date df) = List.length (group_keys df).
Proof. unfold groupby_date. apply length_map. Qed.

Lemma map_fst_groupby (df : list Merged.Row) :
  map fst (groupby_date df) = group_keys df.
Proof.
  unfold groupby_date. rewrite map_map. simpl. apply map_id.
Qed.

(** Every group has a row: its key is the date of some row. *)
Lemma group_nonempty (df : list Merged.Row) (g : Date * list Merged.Row) :
  In g (groupby_date df) -> snd g <> [].
Proof.
  unfold groupby_date. rewrite in_map_iff.
  intros [d [<- Hd]]. simpl.
  apply group_keys_in in Hd. destruct Hd as [r [Hin Hd]].
  intros Hnil.
  assert (Hr : In r (filter (in_group d) df)).
  { apply filter_In. split; [exact Hin|].
    unfold in_group. rewrite Hd. apply date_eqb_refl. }
  rewrite Hnil in Hr. contradiction.
Qed.

Lemma group_rows (df : list Merged.Row) (g : Date * list Merged.Row) :
  In g (groupby_date df) -> snd g = filter (in_group (fst g)) df.
Proof.
  unfold groupby_date. rewrite in_map_iff.
  intros [d [<- _]]. reflexivity.
Qed.


End GroupFacts.

(** ** The columns of the daily frame *)

Module DailyFacts.

Import Pandas GroupBy Props SumFacts ColumnFacts GroupFacts TradingAnalyzer.

Lemma map_combine_fst {A B C} (f : A -> C) (a : list A) (b : list B) :
  List.length a = List.length b ->
  map (fun x => f (fst x)) (combine a b) = map f a.
Proof.
  intros H. rewrite <- (map_map fst f), map_fst_combine by exact H.
  reflexivity.
Qed.

Lemma map_combine_snd {A B C} (f : B -> C) (a : list A) (b : list B) :
  List.length a = List.length b ->
  map (fun x => f (snd x)) (combine a b) = map f b.
Proof.
  intros H. rewrite <- (map_map snd f), map_snd_combine by exact H.
  reflexivity.
Qed.

Section Columns.

Variable merged : list Merged.Row.

Let groups := groupby_date merged.
Let cumulative := cumsum (map (fun g => sum (pnl (snd g))) groups).
Let score := ffill (map first_score groups).
Let cat := ffill (map first_category groups).

Lemma length_score_cat : List.length score = List.length cat.
Proof.
  unfold score, cat. rewrite !length_ffill, !length_map. reflexivity.
Qed.

Lemma length_cumulative_rest :
  List.length cumulative = List.length (combine score cat).
Proof.
  rewrite length_combine_eq by apply length_score_cat.
  unfold cumulative, score.
  rewrite length_cumsum, length_ffill, !length_map. reflexivity.
Qed.

Lemma length_groups_rest :
  List.length groups
  = List.length (combine cumulative (combine score cat)).
Proof.
  rewrite length_combine_eq by apply length_cumulative_rest.
  unfold cumulative. rewrite length_cumsum, length_map. reflexivity.
Qed.

Lemma daily_frame_date :
  map Daily.date (daily_frame merged) = group_keys merged.
Proof.
  unfold daily_frame. fold groups cumulative score cat.
  rewrite map_map. simpl.
  rewrite (map_combine_fst fst) by apply length_groups_rest.
  apply map_fst_groupby.
Qed.

Lemma daily_frame_total_pnl :
  map Daily.total_pnl (daily_frame merged) = total_column merged.
Proof.
  unfold daily_frame, total_column. fold groups cumulative score cat.
  rewrite map_map. simpl.
  apply (map_combine_fst (fun g => sum (pnl (snd g)))), length_groups_rest.
Qed.

Lemma daily_frame_cumulative_pnl :
  map Daily.cumulative_pnl (daily_frame merged)
  = cumsum (total_column merged).
Proof.
  unfold daily_frame, total_column. fold groups cumulative score cat.
  rewrite map_map. simpl.
  rewrite (map_combine_snd (fun x => fst x)) by apply length_groups_rest.
  apply (map_fst_combine cumulative), length_cumulative_rest.
Qed.

Lemma daily_frame_sentiment_score :
  map Daily.sentiment_score (daily_frame merged)
  = ffill (map first_score (groupby_date merged)).
Proof.
  unfold daily_frame. fold groups cumulative score cat.
  rewrite map_map. simpl.
  rewrite (map_combine_snd (fun x => fst (snd x)))
    by apply length_groups_rest.
  rewrite (map_combine_snd (fun x => fst x))
    by apply length_cumulative_rest.
  apply (map_fst_combine score), length_score_cat.
Qed.

Lemma length_daily_frame :
  List.length (daily_frame merged) = List.length (group_keys merged).
Proof. rewrite <- daily_frame_date. symmetry. apply length_map. Qed.

End Columns.


End DailyFacts.

(** ** The left join on the day *)

Module MergeFacts.

Import Pandas GroupBy Props TradingAnalyzer.

Lemma filter_none {A} (f : A -> bool) (l : list A) :
  (forall x, In x l -> f x = false) -> filter f l = [].
Proof.
  induction l as [|x l IH]; simpl; intros H; [reflexivity|].
  rewrite (H x) by (left; reflexivity).
  apply IH. intros y Hy. apply H. right. exact Hy.
Qed.

Lemma unique_key_match (k : option Date) (right : list (Date * (Z * string))) :
  NoDup (map fst right) ->
  (List.length (filter (Merged.key_matches k) right) <= 1)%nat.
Proof.
  induction right as [|s right IH]; simpl; intros Hnd.
  - lia.
  - inversion Hnd as [|? ? Hs Hnd']; subst.
    destruct (Merged.key_matches k s) eqn:E; [|apply IH; exact Hnd'].
    simpl. replace (filter (Merged.key_matches k) right) with
      (@nil (Date * (Z * string))); [simpl; lia|].
    symmetry. apply filter_none.
    intros s' Hs'. destruct (Merged.key_matches k s') eqn:E'; [|reflexivity].
    exfalso. apply Hs. destruct k as [d|]; simpl in *; [|discriminate].
    apply date_eqb_eq in E, E'. rewrite <- E, E'.
    apply in_map. exact Hs'.
Qed.

Lemma join_row_trade (t : Trade.Row) (right : list (Date * (Z * string))) :
  NoDup (map fst right) ->
  map Merged.trade (Merged.join_row t right) = [t].
Proof.
  intros Hnd. unfold Merged.join_row.
  pose proof (unique_key_match (Trade.date t) right Hnd) as Hlen.
  destruct (filter (Merged.key_matches (Trade.date t)) right) as [|s [|s' l]];
    simpl in *; try reflexivity; lia.
Qed.

(** With one sentiment record per day the join keeps the trade rows as
    they are. *)
Lemma merge_left_trade (left : list Trade.Row)
  (right : list (Date * (Z * string))) :
  NoDup (map fst right) ->
  map Merged.trade (Merged.merge_left left right) = left.
Proof.
  intros Hnd. unfold Merged.merge_left.
  induction left as [|t left IH]; simpl.
  - reflexivity.
  - rewrite map_app, join_row_trade, IH by exact Hnd. reflexivity.
Qed.

Lemma join_row_date (t : Trade.Row) (right : list (Date * (Z * string)))
  (r : Merged.Row) :
  In r (Merged.join_row t right) -> Merged.trade r = t.
Proof.
  unfold Merged.join_row.
  destruct (filter (Merged.key_matches (Trade.date t)) right) as [|s l].
  - intros [<-|[]]. reflexivity.
  - intros Hin. apply in_map_iff in Hin. destruct Hin as [s' [<- _]].
    reflexivity.
Qed.

(** Every merged row carries a trade row of the table. *)
Lemma merge_left_row (left : list Trade.Row)
  (right : list (Date * (Z * string))) (r : Merged.Row) :
  In r (Merged.merge_left left right) <->
  exists t, In t left /\ In r (Merged.join_row t right).
Proof. unfold Merged.merge_left. apply in_flat_map. Qed.

Lemma dated_rows_closed_pnl (td : Trade.Frame) :
  map Trade.Closed_PnL (dated_rows td) = map Trade.Closed_PnL (Trade.rows td).
Proof.
  unfold dated_rows.
  destruct (Trade.has_column "date" td); [reflexivity|].
  destruct (Trade.has_column "Timestamp IST" td);
    [|destruct (Trade.has_column "Timestamp" td)];
    rewrite !map_map; reflexivity.
Qed.

(** The join of [_merge_by_date] is refused exactly when the trade table
    has rows, none of them has a day, and the sentiment table has a
    record. *)
Lemma keys_refused_iff (left : list Trade.Row)
  (right : list (Date * (Z * string))) :
  Merged.keys_refused left right = true <->
  left <> [] /\ right <> []
  /\ forall t, In t left -> Trade.date t = None.
Proof.
  unfold Merged.keys_refused.
  destruct left as [|t left]; [split; [discriminate|intros [H _]; congruence]|].
  destruct right as [|s right];
    [split; [discriminate|intros [_ [H _]]; congruence]|].
  rewrite negb_true_iff. split.
  - intros H. split; [discriminate|]. split; [discriminate|].
    intros t' Ht'. destruct (Trade.date t') eqn:E; [|reflexivity].
    assert (Hex : existsb (fun t => notna (Trade.date t)) (t :: left) = true).
    { apply existsb_exists. exists t'. rewrite E. auto. }
    congruence.
  - intros [_ [_ H]].
    destruct (existsb (fun t => notna (Trade.date t)) (t :: left)) eqn:E;
      [|reflexivity].
    apply existsb_exists in E. destruct E as [t' [Ht' Hn]].
    rewrite (H t' Ht') in Hn. discriminate.
Qed.

Lemma merge_by_date_outcome (fg : Sentiment.Frame) (td : Trade.Frame) :
  _merge_by_date (Some fg) (Some td)
  = if Merged.keys_refused (dated_rows td) (sentiment_by_date fg)
    then inl Merged.merge_refused
    else inr (merged_of fg td).
Proof. reflexivity. Qed.

Lemma init_ok (fg : Sentiment.Frame) (td : Trade.Frame) :
  Merged.keys_refused (dated_rows td) (sentiment_by_date fg) = false ->
  __init__ (Some fg) (Some td) = inr (analyzer_of fg td).
Proof.
  intros H. unfold __init__. rewrite merge_by_date_outcome, H. reflexivity.
Qed.

Lemma init_refused (fg : Sentiment.Frame) (td : Trade.Frame) :
  Merged.keys_refused (dated_rows td) (sentiment_by_date fg) = true ->
  __init__ (Some fg) (Some td) = inl Merged.merge_refused.
Proof.
  intros H. unfold __init__. rewrite merge_by_date_outcome, H. reflexivity.
Qed.

End MergeFacts.

(** ** Running sums *)

Module CumsumFacts.

Import Pandas Props SumFacts.

Lemma qsum_firstn_S (l : list Q) (i : nat) :
  (i < List.length l)%nat ->
  qsum (firstn (S i) l) == qsum (firstn i l) + nth i l 0.
Proof.
  revert i. induction l as [|x l IH]; intros i Hi; simpl in Hi; [lia|].
  destruct i as [|i].
  - unfold qsum. cbn [firstn fold_right nth]. ring.
  - change (firstn (S (S i)) (x :: l)) with (x :: firstn (S i) l).
    change (firstn (S i) (x :: l)) with (x :: firstn i l).
    change (nth (S i) (x :: l) 0) with (nth i l 0).
    change (qsum (x :: firstn (S i) l)) with (x + qsum (firstn (S i) l)).
    change (qsum (x :: firstn i l)) with (x + qsum (firstn i l)).
    rewrite IH by lia. ring.
Qed.

Lemma nth_cumsum_from (acc : Q) (l : list Q) (i : nat) :
  (i < List.length l)%nat ->
  nth i (cumsum_from acc l) 0 == acc + qsum (firstn (S i) l).
Proof.
  revert acc i. induction l as [|x l IH]; intros acc i Hi; simpl in Hi;
    [lia|].
  destruct i as [|i].
  - unfold qsum. cbn [cumsum_from firstn fold_right nth]. ring.
  - change (nth (S i) (cumsum_from acc (x :: l)) 0)
      with (nth i (cumsum_from (acc + x) l) 0).
    rewrite IH by lia.
    change (firstn (S (S i)) (x :: l)) with (x :: firstn (S i) l).
    change (qsum (x :: firstn (S i) l)) with (x + qsum (firstn (S i) l)).
    ring.
Qed.

(** The cell [i] of [cumsum] is the sum of the cells up to [i]. *)
Lemma nth_cumsum (l : list Q) (i : nat) :
  (i < List.length l)%nat ->
  nth i (cumsum l) 0 == qsum (firstn (S i) l).
Proof.
  destruct l as [|x l]; intros Hi; [simpl in Hi; lia|].
  destruct i as [|i].
  - unfold qsum. cbn [cumsum firstn fold_right nth]. ring.
  - change (nth (S i) (cumsum (x :: l)) 0)
      with (nth i (cumsum_from x l) 0).
    rewrite nth_cumsum_from by (simpl in Hi; lia).
    change (firstn (S (S i)) (x :: l)) with (x :: firstn (S i) l).
    reflexivity.
Qed.



End CumsumFacts.

(** ** Forward fill and the rows it leaves null *)

Module FillFacts.

Import Pandas GroupBy Props GroupFacts ColumnFacts DailyFacts MergeFacts
  TradingAnalyzer.

Lemma first_notna {A} (s : list (option A)) :
  notna (first s) = existsb notna s.
Proof.
  induction s as [|[x|] s IH]; simpl; [reflexivity|reflexivity|exact IH].
Qed.

Lemma existsb_const {A} (f : A -> bool) (b : bool) (l : list A) :
  l <> [] -> (forall x, In x l -> f x = b) -> existsb f l = b.
Proof.
  induction l as [|x l IH]; intros Hne H; [congruence|].
  simpl. rewrite (H x) by (left; reflexivity).
  destruct b; [reflexivity|]. simpl.
  destruct l as [|y l]; [reflexivity|].
  apply IH; [discriminate|]. intros z Hz. apply H. right. exact Hz.
Qed.

Lemma existsb_map {A B} (f : A -> B) (p : B -> bool) (l : list A) :
  existsb p (map f l) = existsb (fun x => p (f x)) l.
Proof.
  induction l as [|x l IH]; simpl; [|rewrite IH]; reflexivity.
Qed.

Lemma in_cns {A} (x y : A) (l : list A) : In x (y :: l) <-> y = x \/ In x l.
Proof. reflexivity. Qed.

Lemma join_row_score (t : Trade.Row) (right : list (Date * (Z * string)))
  (r : Merged.Row) :
  In r (Merged.join_row t right) ->
  notna (Merged.sentiment_score r)
  = existsb (Merged.key_matches (Trade.date t)) right.
Proof.
  unfold Merged.join_row.
  destruct (filter (Merged.key_matches (Trade.date t)) right) as [|s l] eqn:E.
  - intros [<-|[]]. simpl. symmetry.
    destruct (existsb (Merged.key_matches (Trade.date t)) right) eqn:Ex;
      [|reflexivity].
    apply existsb_exists in Ex. destruct Ex as [s [Hs Hk]].
    assert (Hin : In s (filter (Merged.key_matches (Trade.date t)) right))
      by (apply filter_In; auto).
    rewrite E in Hin. contradiction.
  - intros Hin. apply in_map_iff in Hin. destruct Hin as [s' [<- _]].
    simpl. symmetry. apply existsb_exists. exists s.
    assert (Hin : In s (filter (Merged.key_matches (Trade.date t)) right))
      by (rewrite E; left; reflexivity).
    apply filter_In in Hin. exact Hin.
Qed.

Lemma join_row_nonempty (t : Trade.Row) (right : list (Date * (Z * string))) :
  exists r, In r (Merged.join_row t right).
Proof.
  unfold Merged.join_row.
  destruct (filter (Merged.key_matches (Trade.date t)) right) as [|s l].
  - eexists. left. reflexivity.
  - eexists. left. reflexivity.
Qed.

(** The groups of the merged frame are the days of the trade table. *)
Lemma merged_keys (fg : Sentiment.Frame) (td : Trade.Frame) (d : Date) :
  In d (group_keys (merged_of fg td)) <-> trades_on td d.
Proof.
  rewrite group_keys_in. unfold trades_on, merged_of. split.
  - intros [r [Hr Hd]]. apply merge_left_row in Hr.
    destruct Hr as [t [Ht Hr]]. exists t. split; [exact Ht|].
    apply join_row_date in Hr. unfold Merged.date in Hd. congruence.
  - intros [t [Ht Hd]].
    destruct (join_row_nonempty t (sentiment_by_date fg)) as [r Hr].
    exists r. split.
    + apply merge_left_row. exists t. auto.
    + unfold Merged.date. rewrite (join_row_date _ _ _ Hr). exact Hd.
Qed.

(** Before the fill, the group of a day has a sentiment exactly when the
    sentiment table has a record of that day. *)
Lemma score_of_day_notna (fg : Sentiment.Frame) (td : Trade.Frame) (d : Date) :
  In d (group_keys (merged_of fg td)) ->
  notna (score_of_day (merged_of fg td) d) = has_record fg d.
Proof.
  intros Hd. unfold score_of_day. rewrite first_notna, existsb_map.
  apply existsb_const.
  - apply (group_nonempty (merged_of fg td)
             (d, filter (in_group d) (merged_of fg td))).
    unfold groupby_date. apply in_map_iff. exists d. auto.
  - intros r Hr. apply filter_In in Hr. destruct Hr as [Hr Hg].
    unfold merged_of in Hr. apply merge_left_row in Hr.
    destruct Hr as [t [Ht Hr]].
    rewrite (join_row_score _ _ _ Hr).
    unfold in_group, Merged.date in Hg.
    rewrite (join_row_date _ _ _ Hr) in Hg.
    destruct (Trade.date t) as [d'|]; [|discriminate].
    apply date_eqb_eq in Hg. subst d'. reflexivity.
Qed.

Lemma first_score_column (df : list Merged.Row) :
  map first_score (groupby_date df) = map (score_of_day df) (group_keys df).
Proof. unfold groupby_date. rewrite map_map. reflexivity. Qed.




End FillFacts.

(** ** Running maxima and the smallest cell *)

Module DrawdownFacts.

Import Pandas Props.

Lemma dropna_some {A} (l : list A) : dropna (map Some l) = l.
Proof. induction l as [|x l IH]; simpl; [|rewrite IH]; reflexivity. Qed.

Lemma expanding_max_from_some (w : Q) (l : list Q) :
  expanding_max_from (Some w) (map Some l) = map Some (run_from w l).
Proof.
  revert w. induction l as [|v l IH]; intros w; simpl; [reflexivity|].
  rewrite IH. reflexivity.
Qed.

Lemma expanding_max_some (x : Q) (r : list Q) :
  expanding_max (map Some (x :: r)) = map Some (x :: run_from x r).
Proof.
  unfold expanding_max. simpl. rewrite expanding_max_from_some. reflexivity.
Qed.

Lemma sub_some (a b : list Q) :
  sub (map Some a) (map Some b) = map Some (zipminus a b).
Proof.
  revert b. induction a as [|u a IH]; intros [|v b]; simpl;
    try reflexivity.
  rewrite IH. reflexivity.
Qed.

Lemma length_run_from (w : Q) (l : list Q) :
  List.length (run_from w l) = List.length l.
Proof.
  revert w. induction l as [|v l IH]; intros w; simpl; [|rewrite IH];
    reflexivity.
Qed.

Lemma length_zipminus (a b : list Q) :
  List.length a = List.length b ->
  List.length (zipminus a b) = List.length a.
Proof.
  revert b. induction a as [|u a IH]; intros [|v b] H; simpl in *;
    try reflexivity; try discriminate.
  rewrite IH by lia. reflexivity.
Qed.

Lemma nth_zipminus (a b : list Q) (i : nat) :
  List.length a = List.length b -> (i < List.length a)%nat ->
  nth i (zipminus a b) 0 = nth i a 0 - nth i b 0.
Proof.
  revert b i. induction a as [|u a IH]; intros [|v b] i H Hi; simpl in *;
    try lia; try discriminate.
  destruct i as [|i]; [reflexivity|]. apply IH; lia.
Qed.

Lemma running_max_at_cons (x : Q) (r : list Q) (i : nat) :
  running_max_at (x :: r) (S i) = Qmax x (running_max_at r i).
Proof. reflexivity. Qed.

Lemma nth_run_from (w : Q) (l : list Q) (i : nat) :
  (i < List.length l)%nat ->
  nth i (run_from w l) 0 == Qmax w (running_max_at l i).
Proof.
  revert w i. induction l as [|v l IH]; intros w i Hi; simpl in Hi; [lia|].
  destruct i as [|i].
  - reflexivity.
  - change (nth (S i) (run_from w (v :: l)) 0)
      with (nth i (run_from (Qmax w v) l) 0).
    rewrite IH by lia. rewrite running_max_at_cons.
    symmetry. apply Q.max_assoc.
Qed.

(** The scan that pandas runs computes the running maximum. *)
Lemma nth_running_max (x : Q) (r : list Q) (i : nat) :
  (i < List.length (x :: r))%nat ->
  nth i (x :: run_from x r) 0 == running_max_at (x :: r) i.
Proof.
  destruct i as [|i]; intros Hi.
  - reflexivity.
  - change (nth (S i) (x :: run_from x r) 0) with (nth i (run_from x r) 0).
    rewrite nth_run_from by (simpl in Hi; lia).
    rewrite running_max_at_cons. reflexivity.
Qed.

Lemma fold_min_lower (l : list Q) (a : Q) (i : nat) :
  (i < S (List.length l))%nat ->
  fold_left Qmin l a <= nth i (a :: l) 0.
Proof.
  revert a i. induction l as [|y l IH]; intros a i Hi; simpl in Hi.
  - destruct i; [apply Qle_refl|lia].
  - change (fold_left Qmin (y :: l) a) with (fold_left Qmin l (Qmin a y)).
    destruct i as [|[|i]].
    + apply Qle_trans with (Qmin a y); [apply (IH _ 0%nat); lia|].
      apply Q.le_min_l.
    + apply Qle_trans with (Qmin a y); [apply (IH _ 0%nat); lia|].
      apply Q.le_min_r.
    + apply (IH (Qmin a y) (S i)). lia.
Qed.

Lemma fold_min_attained (l : list Q) (a : Q) :
  exists i, (i < S (List.length l))%nat
            /\ fold_left Qmin l a == nth i (a :: l) 0.
Proof.
  revert a. induction l as [|y l IH]; intros a.
  - exists 0%nat. split; [simpl; lia|reflexivity].
  - change (fold_left Qmin (y :: l) a) with (fold_left Qmin l (Qmin a y)).
    destruct (IH (Qmin a y)) as [[|i] [Hi He]].
    + simpl in He. destruct (Q.min_dec a y) as [Hm|Hm].
      * exists 0%nat. split; [simpl; lia|]. rewrite He, Hm. reflexivity.
      * exists 1%nat. split; [simpl; lia|]. rewrite He, Hm. reflexivity.
    + exists (S (S i)). split; [simpl in *; lia|]. exact He.
Qed.

(** The cells that [_calculate_max_drawdown] takes the minimum of. *)
Lemma drawdown_cells (x : Q) (r : list Q) :
  min (sub (map Some (x :: r)) (expanding_max (map Some (x :: r))))
  = Some (fold_left Qmin (zipminus r (run_from x r)) (x - x)).
Proof.
  rewrite expanding_max_some, sub_some. unfold min.
  rewrite dropna_some. reflexivity.
Qed.

Lemma nth_drawdown (x : Q) (r : list Q) (i : nat) :
  (i < List.length (x :: r))%nat ->
  nth i ((x - x) :: zipminus r (run_from x r)) 0 == drawdown_at (x :: r) i.
Proof.
  intros Hi.
  change ((x - x) :: zipminus r (run_from x r))
    with (zipminus (x :: r) (x :: run_from x r)).
  rewrite nth_zipminus;
    [|simpl; rewrite length_run_from; reflexivity|exact Hi].
  unfold drawdown_at. rewrite nth_running_max by exact Hi. reflexivity.
Qed.

End DrawdownFacts.

(** ** Sorting by timestamp *)

Module SortFacts.

Import Pandas Props DataProcessor.

Lemma insert_by_datetime_perm (r : Trade.Row) (l : list Trade.Row) :
  Permutation (insert_by_datetime r l) (r :: l).
Proof.
  induction l as [|x l IH]; simpl.
  - apply Permutation_refl.
  - destruct (datetime_before (Trade.datetime x) (Trade.datetime r)).
    + apply perm_trans with (x :: r :: l).
      * apply perm_skip. exact IH.
      * apply perm_swap.
    + apply Permutation_refl.
Qed.

Lemma sort_values_datetime_perm (l : list Trade.Row) :
  Permutation (sort_values_datetime l) l.
Proof.
  induction l as [|r l IH]; simpl.
  - apply Permutation_refl.
  - apply perm_trans with (r :: sort_values_datetime l).
    + apply insert_by_datetime_perm.
    + apply perm_skip. exact IH.
Qed.

Lemma filter_map_commute {A B} (f : A -> B) (p : B -> bool) (l : list A) :
  filter p (map f l) = map f (filter (fun x => p (f x)) l).
Proof.
  induction l as [|x l IH]; simpl; [reflexivity|].
  destruct (p (f x)); simpl; rewrite IH; reflexivity.
Qed.

End SortFacts.

(** ** The sample variance *)

Module VarianceFacts.

Import Pandas Props SumFacts DrawdownFacts.

Lemma qlen_cons {A} (x : A) (l : list A) : qlen (x :: l) == qlen l + 1.
Proof.
  unfold qlen. cbn [List.length]. rewrite Nat2Z.inj_succ.
  unfold Z.succ. rewrite inject_Z_plus. reflexivity.
Qed.

Lemma qlen_nonneg {A} (l : list A) : 0 <= qlen l.
Proof. unfold qlen, Qle. simpl. lia. Qed.

Lemma qsum_constant (c : Q) (l : list Q) :
  (forall x, In x l -> x == c) -> qsum l == qlen l * c.
Proof.
  induction l as [|x l IH]; intros H.
  - unfold qlen. simpl. ring.
  - rewrite qlen_cons. change (qsum (x :: l)) with (x + qsum l).
    rewrite (H x) by (left; reflexivity).
    rewrite IH by (intros y Hy; apply H; right; exact Hy). ring.
Qed.

Lemma sqdev_nonneg (m : Q) (l : list Q) : 0 <= sqdev m l.
Proof.
  unfold sqdev. induction l as [|x l IH].
  - apply Qle_refl.
  - change (0 <= (x - m) * (x - m)
                 + qsum (map (fun x => (x - m) * (x - m)) l)).
    set (t := qsum (map (fun x => (x - m) * (x - m)) l)) in *.
    set (u := x - m). nra.
Qed.

Lemma sqdev_zero (m : Q) (l : list Q) :
  sqdev m l == 0 <-> forall x, In x l -> x == m.
Proof.
  unfold sqdev. induction l as [|x l IH].
  - split; [intros _ y []|reflexivity].
  - change (qsum (map (fun x => (x - m) * (x - m)) (x :: l)))
      with ((x - m) * (x - m) + qsum (map (fun x => (x - m) * (x - m)) l)).
    pose proof (sqdev_nonneg m l) as Hn. unfold sqdev in Hn.
    set (t := qsum (map (fun x => (x - m) * (x - m)) l)) in *.
    split.
    + intros Hz.
      assert (Hsq : 0 <= (x - m) * (x - m))
        by (set (u := x - m); nra).
      intros y [<-|Hy].
      * assert (Hu : (x - m) * (x - m) == 0) by lra.
        apply Qmult_integral in Hu. destruct Hu; lra.
      * apply IH; [|exact Hy]. lra.
    + intros Hall.
      assert (Hx : x == m) by (apply Hall; left; reflexivity).
      assert (Hl : t == 0)
        by (apply IH; intros y Hy; apply Hall; right; exact Hy).
      rewrite Hl, Hx. ring.
Qed.

Lemma var_some (x y : Q) (r : list Q) :
  var (map Some (x :: y :: r)) = Some (sample_variance (x :: y :: r)).
Proof.
  unfold var. rewrite dropna_some. reflexivity.
Qed.

Lemma qlen_two {A} (x y : A) (r : list A) : 2 <= qlen (x :: y :: r).
Proof.
  rewrite !qlen_cons. pose proof (qlen_nonneg r). lra.
Qed.

(** The sample variance of at least two cells is 0 exactly when the
    series is constant. *)
Lemma sample_variance_zero (x y : Q) (r : list Q) :
  sample_variance (x :: y :: r) == 0 <-> constant (x :: y :: r).
Proof.
  set (l := x :: y :: r).
  pose proof (qlen_two x y r) as Hn. fold l in Hn.
  unfold sample_variance. split.
  - intros Hz.
    assert (Hs : sqdev (qsum l / qlen l) l == 0).
    { apply (Qmult_inj_r _ _ (/ (qlen l - 1))).
      - intros Hi. assert (Hp : 0 < / (qlen l - 1))
          by (apply Qinv_lt_0_compat; lra). lra.
      - rewrite Qmult_0_l. exact Hz. }
    intros a b Ha Hb.
    rewrite (proj1 (sqdev_zero _ _) Hs a Ha).
    rewrite (proj1 (sqdev_zero _ _) Hs b Hb). reflexivity.
  - intros Hc.
    assert (Hall : forall a, In a l -> a == x)
      by (intros a Ha; apply Hc; [exact Ha|left; reflexivity]).
    assert (Hm : qsum l / qlen l == x).
    { rewrite (qsum_constant x l Hall). field. lra. }
    assert (Hs : sqdev (qsum l / qlen l) l == 0).
    { apply sqdev_zero. intros a Ha. rewrite Hm. apply Hall, Ha. }
    rewrite Hs. field. lra.
Qed.

Lemma sample_variance_nonneg (x y : Q) (r : list Q) :
  0 <= sample_variance (x :: y :: r).
Proof.
  set (l := x :: y :: r).
  pose proof (qlen_two x y r) as Hn. fold l in Hn.
  unfold sample_variance.
  apply Qle_shift_div_l; [lra|]. rewrite Qmult_0_l. apply sqdev_nonneg.
Qed.

Lemma dropna_map_some {A B} (f : A -> B) (l : list A) :
  dropna (map (option_map f) (map Some l)) = map f l.
Proof. induction l as [|x l IH]; simpl; [|rewrite IH]; reflexivity. Qed.

Lemma mean_some (x : Q) (r : list Q) (f : Q -> Q) :
  mean (map (option_map f) (map Some (x :: r)))
  = Some (qsum (map f (x :: r)) / qlen (x :: r)).
Proof.
  unfold mean. rewrite dropna_map_some. cbn [map]. unfold qlen.
  cbn [List.length]. rewrite length_map. reflexivity.
Qed.

End VarianceFacts.

(** * The properties of the specification *)

Import Pandas GroupBy Props.
Import SumFacts ColumnFacts GroupFacts DailyFacts MergeFacts CumsumFacts FillFacts.

(** ** Conservation of the total PnL *)

Lemma merged_rows_dated (fg : Sentiment.Frame) (td : Trade.Frame) :
  every_row_dated td = true ->
  forall r, In r (merged_of fg td) -> Merged.date r <> None.
Proof.
  unfold every_row_dated, merged_of. intros Hall r Hr.
  apply merge_left_row in Hr. destruct Hr as [t [Ht Hr]].
  apply join_row_date in Hr. unfold Merged.date. rewrite Hr.
  rewrite forallb_forall in Hall. specialize (Hall t Ht).
  destruct (Trade.date t); [discriminate|discriminate Hall].
Qed.

Lemma merged_pnl (fg : Sentiment.Frame) (td : Trade.Frame) :
  one_record_per_day fg ->
  pnl (merged_of fg td) = map Trade.Closed_PnL (Trade.rows td).
Proof.
  intros Hone. unfold pnl, merged_of.
  rewrite <- (map_map Merged.trade Trade.Closed_PnL).
  rewrite merge_left_trade by exact Hone.
  apply dated_rows_closed_pnl.
Qed.


Lemma every_day_known_merged (fg : Sentiment.Frame) (td : Trade.Frame) :
  every_row_dated td = true -> every_day_known (merged_of fg td) = true.
Proof.
  intros Hd. apply forallb_forall. intros r Hr.
  pose proof (merged_rows_dated fg td Hd r Hr) as Hn.
  destruct (Merged.date r); [reflexivity|congruence].
Qed.

(** *** Amounts that are added without rounding *)



Lemma added_up_abs_nonneg (l : list Q) : 0 <= added_up (map Qabs l).
Proof.
  induction l as [|x l IH]; [apply Qle_refl|].
  change (added_up (map Qabs (x :: l)))
    with (Qabs x + added_up (map Qabs l)).
  pose proof (Qabs_nonneg x). lra.
Qed.









(** The table that the analyzer aggregates is the trade table joined
    with the sentiment of the day: with one sentiment record per day it
    has the rows of the trade table, one for one. *)
Lemma analyzer_aggregates_the_trades (fg : Sentiment.Frame)
  (td : Trade.Frame) :
  one_record_per_day fg ->
  closed_pnl (merged_of fg td)
  = map (fun t => nan0 (Trade.Closed_PnL t)) (Trade.rows td).
Proof.
  intros Hone. unfold closed_pnl.
  rewrite <- (map_map (fun r => Trade.Closed_PnL (Merged.trade r)) nan0).
  fold (pnl (merged_of fg td)). rewrite merged_pnl by exact Hone.
  apply map_map.
Qed.

(** A row without a day is in no group: its PnL is missing from the
    daily totals. *)
Example undated_row_is_not_aggregated :
  let td := Samples.one_undated in
  added_up (map Daily.total_pnl (daily_of Samples.first_day_only td)) == 10
  /\ added_up (closed_pnl (merged_of Samples.first_day_only td)) == 14.
Proof. split; reflexivity. Qed.

(** Two sentiment records on one day make the join repeat the trades of
    that day. *)
Example repeated_sentiment_day_repeats_trades :
  let td := Samples.loaded [Samples.trade (Samples.on Samples.D1) "BUY" (Some 10)] in
  let fg := [Samples.extreme_fear Samples.D1; Samples.extreme_fear Samples.D1] in
  added_up (map Daily.total_pnl (daily_of fg td)) == 20
  /\ added_up (map (fun t => nan0 (Trade.Closed_PnL t)) (Trade.rows td))
     == 10.
Proof. split; reflexivity. Qed.

(** ** The running sum of the daily PnL *)

(** C8: in the daily aggregate the rows are in ascending order of their
    day, the first cell of [cumulative_pnl] is the first cell of
    [total_pnl], and every later cell is the cell before it plus the
    [total_pnl] of its row; so the cell of row [i] is the sum of
    [total_pnl] over the rows up to [i]. *)
Theorem cumulative_pnl_is_running_sum
  (fg : Sentiment.Frame) (td : Trade.Frame) :
  let daily := daily_of fg td in
  let total := map Daily.total_pnl daily in
  let cumulative := map Daily.cumulative_pnl daily in
  ascending (map Daily.date daily)
  /\ nth 0 cumulative 0 == nth 0 total 0
  /\ (forall i, (S i < List.length daily)%nat ->
        nth (S i) cumulative 0 == nth i cumulative 0 + nth (S i) total 0)
  /\ (forall i, (i < List.length daily)%nat ->
        nth i cumulative 0 == qsum (firstn (S i) total)).
Proof.
  intros daily total cumulative.
  assert (Hc : cumulative = cumsum total).
  { unfold cumulative, total, daily, daily_of.
    rewrite daily_frame_cumulative_pnl, daily_frame_total_pnl. reflexivity. }
  assert (Hlen : List.length total = List.length daily)
    by apply length_map.
  assert (Hsum : forall i, (i < List.length daily)%nat ->
            nth i cumulative 0 == qsum (firstn (S i) total)).
  { intros i Hi. rewrite Hc. apply nth_cumsum. lia. }
  split; [|split; [|split]].
  - unfold daily, daily_of. rewrite daily_frame_date.
    apply group_keys_ascending.
  - rewrite Hc. destruct total; reflexivity.
  - intros i Hi. rewrite !Hsum by lia.
    apply qsum_firstn_S. lia.
  - exact Hsum.
Qed.

(** ** The days that enter the correlations *)



(** ** Operations on a missing table *)

(** The statement of C2 fails: merging while the trade table is not
    loaded raises. *)
Lemma merge_without_trades_raises :
  DataProcessor.merge_datasets
    (DataProcessor.mk (Some Samples.first_day_only) None)
  = inl both_needed.
Proof. reflexivity. Qed.

(** C2 (amended): with a table missing, [merge_datasets] raises
    "Both datasets must be loaded before merging", and it raises that
    only then; [validate_data] does not raise: it leaves out the table
    that is missing, reports what it finds in the other, and reports
    nothing when both are missing. *)
Theorem missing_table_outcomes :
  (forall fg td, fg = None \/ td = None ->
     DataProcessor.merge_datasets (DataProcessor.mk fg td)
     = inl both_needed)
  /\ (forall fg td,
        DataProcessor.merge_datasets (DataProcessor.mk (Some fg) (Some td))
        = inl both_needed -> False)
  /\ Validation.validate_data None None = []
  /\ (forall fg, Validation.validate_data (Some fg) None
                 = Validation.fear_greed_issues fg)
  /\ (forall td, Validation.validate_data None (Some td)
                 = Validation.trading_issues td).
Proof.
  split; [|split; [|split; [|split]]].
  - intros [fg|] [td|] [H|H]; try discriminate H; reflexivity.
  - intros fg td. unfold DataProcessor.merge_datasets.
    cbn [DataProcessor.fear_greed_data DataProcessor.trading_data].
    unfold DataProcessor.merge_datetime_with_date.
    destruct (Trade.rows td), (map _ fg); discriminate.
  - reflexivity.
  - intros fg. unfold Validation.validate_data. apply app_nil_r.
  - reflexivity.
Qed.

(** ** Correlations over too few rows *)

Lemma corr_one_row (a b : option Q) : corr [a] [b] = None.
Proof. destruct a, b; reflexivity. Qed.

(** With no row of known sentiment the four correlations are the
    integer 0. *)
Lemma correlations_of_no_row (self : TradingAnalyzer.t)
  (daily : list Daily.Row) :
  TradingAnalyzer.daily_data self = Some daily ->
  TradingAnalyzer.clean_data daily = [] ->
  TradingAnalyzer.calculate_sentiment_trading_correlations self = all_zero.
Proof.
  intros Hd Hc. unfold TradingAnalyzer.calculate_sentiment_trading_correlations.
  rewrite Hd, Hc. reflexivity.
Qed.

(** With one row of known sentiment the four correlations are NaN. *)
Lemma correlations_of_one_row (self : TradingAnalyzer.t)
  (daily : list Daily.Row) (r : Daily.Row) :
  TradingAnalyzer.daily_data self = Some daily ->
  TradingAnalyzer.clean_data daily = [r] ->
  TradingAnalyzer.calculate_sentiment_trading_correlations self = all_nan.
Proof.
  intros Hd Hc. unfold TradingAnalyzer.calculate_sentiment_trading_correlations.
  rewrite Hd, Hc. unfold TradingAnalyzer.score_column. simpl map.
  rewrite !corr_one_row. reflexivity.
Qed.

(** C3: where the code leaves the statement.  One sentiment record
    (day D1, value 15, Extreme Fear) and one trade on D1: the call
    returns, and each of the four correlations is NaN, not 0.  With no
    sentiment record at all the four are the integer 0, as stated. *)
Theorem single_point_correlations :
  let td := Samples.one_trade in
  TradingAnalyzer.__init__ (Some Samples.first_day_only) (Some td)
  = inr (analyzer_of Samples.first_day_only td)
  /\ TradingAnalyzer.calculate_sentiment_trading_correlations
       (analyzer_of Samples.first_day_only td) = all_nan
  /\ TradingAnalyzer.calculate_sentiment_trading_correlations
       (analyzer_of [] td) = all_zero.
Proof. repeat split. Qed.

(** ** The counts of a day *)

Lemma daily_frame_row (merged : list Merged.Row) (r : Daily.Row) :
  In r (TradingAnalyzer.daily_frame merged) ->
  exists g cum score cat,
    In g (groupby_date merged)
    /\ r = TradingAnalyzer.daily_row g cum score cat.
Proof.
  unfold TradingAnalyzer.daily_frame. intros Hr.
  apply in_map_iff in Hr. destruct Hr as [[g [c [s k]]] [<- Hin]].
  apply in_combine_l in Hin. exists g, c, s, k. auto.
Qed.

(** In every row of the daily aggregate the buys and the sells add up to
    the trade count. *)
Lemma buy_and_sell_counts (merged : list Merged.Row) (r : Daily.Row) :
  In r (TradingAnalyzer.daily_frame merged) ->
  (Daily.buy_count r + Daily.sell_count r = Daily.trade_count r)%Z.
Proof.
  intros Hr. apply daily_frame_row in Hr.
  destruct Hr as [g [c [s [k [_ ->]]]]]. simpl. lia.
Qed.

Lemma count_all_notna {A} (s : list (option A)) :
  forallb notna s = true -> count s = Z.of_nat (List.length s).
Proof.
  unfold count. induction s as [|[x|] s IH]; simpl; intros H;
    [reflexivity| |discriminate].
  f_equal. f_equal. apply Nat2Z.inj. apply IH. exact H.
Qed.

Lemma div_counts_bounds (a b : Z) :
  (0 <= a <= b)%Z -> (0 < b)%Z ->
  exists q, div_counts a b = Some q /\ 0 <= q <= 1.
Proof.
  intros Ha Hb. unfold div_counts.
  destruct (Z.eqb_spec b 0); [lia|].
  eexists. split; [reflexivity|].
  assert (Hb' : 0 < inject_Z b) by (unfold Qlt; simpl; lia).
  split.
  - apply Qle_shift_div_l; [exact Hb'|].
    rewrite Qmult_0_l. unfold Qle; simpl; lia.
  - apply Qle_shift_div_r; [exact Hb'|].
    rewrite Qmult_1_l. unfold Qle; simpl; lia.
Qed.

(** When no cell of [Closed PnL] is NaN, the buy ratio of every day is a
    number between 0 and 1. *)
Lemma buy_ratio_bounds (merged : list Merged.Row) (r : Daily.Row) :
  forallb notna (pnl merged) = true ->
  In r (TradingAnalyzer.daily_frame merged) ->
  exists q, Daily.buy_ratio r = Some q /\ 0 <= q <= 1.
Proof.
  intros Hall Hr. apply daily_frame_row in Hr.
  destruct Hr as [g [c [s [k [Hg ->]]]]]. simpl.
  pose proof (group_nonempty _ _ Hg) as Hne.
  pose proof (group_rows _ _ Hg) as Hrows.
  assert (Hcount : count (pnl (snd g)) = Z.of_nat (List.length (snd g))).
  { rewrite count_all_notna; [unfold pnl; rewrite length_map; reflexivity|].
    rewrite Hrows. unfold pnl in *. rewrite forallb_forall in *.
    intros x Hx. apply in_map_iff in Hx. destruct Hx as [y [<- Hy]].
    apply filter_In in Hy. apply Hall.
    apply (in_map (fun r => Trade.Closed_PnL (Merged.trade r))), Hy. }
  rewrite Hcount. apply div_counts_bounds.
  - unfold buy_rows. split; [lia|].
    apply inj_le, filter_length_le.
  - destruct (snd g); [congruence|simpl; lia].
Qed.

(** C5: where the code leaves the statement.  Two BUY rows on one day,
    the first with a NaN [Closed PnL]: [trade_count] counts the cells
    that are not NaN and is 1, [buy_count] is 2, so [sell_count] is -1
    and [buy_ratio] is 2.  The two counts still add up to the trade
    count.  [DataProcessor.get_daily_aggregates] does the same. *)
Theorem buy_ratio_of_unpriced_buy :
  let daily := daily_of Samples.first_day_only Samples.unpriced_buy in
  let daily' :=
    DataProcessor.get_daily_aggregates
      (merged_of Samples.first_day_only Samples.unpriced_buy) in
  map Daily.trade_count daily = [1%Z]
  /\ map Daily.buy_count daily = [2%Z]
  /\ map Daily.sell_count daily = [(-1)%Z]
  /\ map Daily.buy_ratio daily = [Some (2 # 1)]
  /\ map DataProcessor.trade_count daily' = [1%Z]
  /\ map DataProcessor.buy_count daily' = [2%Z]
  /\ map DataProcessor.buy_ratio daily' = [Some (2 # 1)].
Proof. repeat split. Qed.

(** ** The Sharpe ratio *)

(** C6: where the code leaves the statement.  A series of one cell is
    constant, its sample standard deviation is NaN and not 0, and the
    ratio is NaN.  A trade table without timestamps puts every trade on
    the fallback day, so the analyzer reports such a ratio. *)
Theorem sharpe_ratio_of_one_day :
  TradingAnalyzer._calculate_sharpe_ratio [Some 5]
    TradingAnalyzer.default_risk_free_rate = VNaN
  /\ map Daily.date
       (daily_of Samples.first_day_only Samples.no_timestamps)
     = [mkDate 2024 12 2]
  /\ lookup "sharpe_ratio"
       (TradingAnalyzer.calculate_trading_metrics
          (analyzer_of Samples.first_day_only Samples.no_timestamps))
     = Some VNaN.
Proof. repeat split. Qed.

(** ** Rolling correlation *)

Lemma length_windows_from {A} (w : nat) (seen s : list A) :
  List.length (Utils.windows_from w seen s) = List.length s.
Proof.
  revert seen. induction s as [|x s IH]; intros seen; simpl;
    [|rewrite IH]; reflexivity.
Qed.

(** The statement of C10 fails: two series of one length, on one index,
    and a negative window. *)
Lemma equal_lengths_negative_window_raises :
  List.length Samples.rising = List.length Samples.falling
  /\ Utils.rolling_correlation Utils.paired Samples.rising Samples.falling
       (-1)
     = inl window_refused.
Proof. split; reflexivity. Qed.

(** C10 (amended): [rolling_correlation] raises a [ValueError] whenever
    the two series differ in length, whatever the window; for two series
    of one length and a window that is not negative it raises nothing;
    for two series of one length and a negative window the rolling window
    itself is refused with a [ValueError].  This holds however pandas
    pairs the cells of the two series. *)
Theorem rolling_correlation_raises
  (align : Utils.Series -> Utils.Series
           -> list (Z * (option Q * option Q))) :
  (forall s1 s2 w, List.length s1 <> List.length s2 ->
     Utils.rolling_correlation align s1 s2 w = inl same_length_needed)
  /\ (forall s1 s2 w, List.length s1 = List.length s2 -> (0 <= w)%Z ->
        exists out, Utils.rolling_correlation align s1 s2 w = inr out)
  /\ (forall s1 s2 w, List.length s1 = List.length s2 -> (w < 0)%Z ->
        Utils.rolling_correlation align s1 s2 w = inl window_refused).
Proof.
  unfold Utils.rolling_correlation, Utils.rolling_corr.
  split; [|split]; intros s1 s2 w Hlen; [|intros Hw..].
  - destruct (Nat.eqb_spec (List.length s1) (List.length s2)); [lia|].
    reflexivity.
  - destruct (Nat.eqb_spec (List.length s1) (List.length s2)); [|lia].
    simpl negb. cbv iota.
    destruct (Z.ltb_spec (Z.of_nat (List.length s1)) w).
    + eexists. reflexivity.
    + destruct (Z.ltb_spec w 0); [lia|].
      eexists. reflexivity.
  - destruct (Nat.eqb_spec (List.length s1) (List.length s2)); [|lia].
    simpl negb. cbv iota.
    destruct (Z.ltb_spec (Z.of_nat (List.length s1)) w); [lia|].
    destruct (Z.ltb_spec w 0); [reflexivity|lia].
Qed.

(** ** The maximum drawdown *)

Import DrawdownFacts.

(** C7: [_calculate_max_drawdown] returns 0 for the empty series.  For a
    series [c] with at least one cell it returns the smallest of the
    cells of [c - running_max(c)]: a number [m] that is below every
    drawdown and is one of them.  That number is never positive, and it
    is 0 exactly when no cell of [c] is below the running maximum. *)
Theorem max_drawdown_is_least_drawdown :
  TradingAnalyzer._calculate_max_drawdown [] = VInt 0
  /\ forall (x : Q) (r : list Q),
       let c := x :: r in
       exists m,
         TradingAnalyzer._calculate_max_drawdown (map Some c) = VFloat m
         /\ (forall i, (i < List.length c)%nat -> m <= drawdown_at c i)
         /\ (exists i, (i < List.length c)%nat /\ m == drawdown_at c i)
         /\ m <= 0
         /\ (m == 0 <->
             forall i, (i < List.length c)%nat ->
                       running_max_at c i <= nth i c 0).
Proof.
  split; [reflexivity|]. intros x r c.
  set (cells := zipminus r (run_from x r)).
  assert (Hcells : List.length cells = List.length r).
  { unfold cells. apply length_zipminus. symmetry. apply length_run_from. }
  exists (fold_left Qmin cells (x - x)).
  assert (Hlow : forall i, (i < List.length c)%nat ->
            fold_left Qmin cells (x - x) <= drawdown_at c i).
  { intros i Hi.
    apply Qle_trans with (nth i ((x - x) :: cells) 0).
    - apply fold_min_lower. simpl in Hi. lia.
    - apply Qle_lteq. right. apply nth_drawdown. exact Hi. }
  assert (Hatt : exists i, (i < List.length c)%nat
            /\ fold_left Qmin cells (x - x) == drawdown_at c i).
  { destruct (fold_min_attained cells (x - x)) as [i [Hi He]].
    assert (Hi' : (i < List.length c)%nat) by (simpl; lia).
    exists i. split; [exact Hi'|].
    rewrite He. apply nth_drawdown. exact Hi'. }
  assert (Hneg : fold_left Qmin cells (x - x) <= 0).
  { apply Qle_trans with (drawdown_at c 0); [apply Hlow; simpl; lia|].
    unfold drawdown_at, running_max_at. simpl. lra. }
  split; [|split; [exact Hlow|split; [exact Hatt|split; [exact Hneg|]]]].
  - unfold TradingAnalyzer._calculate_max_drawdown.
    change (map Some c) with (Some x :: map Some r).
    cbv iota. change (Some x :: map Some r) with (map Some (x :: r)).
    rewrite drawdown_cells. reflexivity.
  - split.
    + intros Hz i Hi. specialize (Hlow i Hi). rewrite Hz in Hlow.
      unfold drawdown_at in Hlow. lra.
    + intros Hall. destruct Hatt as [i [Hi He]].
      specialize (Hall i Hi). unfold drawdown_at in He.
      apply Qle_antisym; [exact Hneg|]. rewrite He. lra.
Qed.


(** ** The day of a trade *)

Import SortFacts.

Lemma clean_rows_stamped (df : Trade.Frame) :
  Trade.rows (DataProcessor._clean_trading_data df)
  = map (fun r => Trade.set_date (dt_date_of (Trade.datetime r)) r)
      (DataProcessor.sort_values_datetime
         (map (fun r => Trade.set_datetime (timestamp_by_precedence df r) r)
            (filter has_side (Trade.rows df)))).
Proof.
  unfold DataProcessor._clean_trading_data, timestamp_by_precedence.
  cbn [Trade.rows].
  destruct (Trade.has_column "Timestamp IST" df);
    [|destruct (Trade.has_column "Timestamp" df)];
    rewrite filter_map_commute; reflexivity.
Qed.

Lemma dated_rows_stamped (df : Trade.Frame) :
  Trade.has_column "date" df = false ->
  TradingAnalyzer.dated_rows df = map (with_day df) (Trade.rows df).
Proof.
  intros Hno. unfold TradingAnalyzer.dated_rows, with_day, day_by_precedence,
    timestamp_by_precedence.
  rewrite Hno.
  destruct (Trade.has_column "Timestamp IST" df);
    [|destruct (Trade.has_column "Timestamp" df)];
    rewrite map_map; reflexivity.
Qed.

Lemma has_added_column (c : string) (cols : list string) :
  existsb (String.eqb c) (Trade.add_column c cols) = true.
Proof.
  unfold Trade.add_column.
  destruct (existsb (String.eqb c) cols) eqn:E; [exact E|].
  rewrite existsb_app. simpl. rewrite String.eqb_refl.
  rewrite orb_true_r. reflexivity.
Qed.

(** The day of a trade row follows one precedence wherever the core
    derives it.  The loader ([_clean_trading_data]) keeps the rows that
    have a side and gives each the day of [day_by_precedence]; the
    analyzer ([_merge_by_date]), for a table without a [date] column,
    joins the rows with that same day, and for a table that the loader
    has cleaned it takes the loader's days as they are. *)
Lemma days_by_precedence (df : Trade.Frame) :
  Permutation (Trade.rows (DataProcessor._clean_trading_data df))
    (map (with_day df) (filter has_side (Trade.rows df)))
  /\ (Trade.has_column "date" df = false ->
      forall fg,
        TradingAnalyzer._merge_by_date (Some fg) (Some df)
        = Merged.merge (map (with_day df) (Trade.rows df))
            (TradingAnalyzer.sentiment_by_date fg))
  /\ TradingAnalyzer.dated_rows (DataProcessor._clean_trading_data df)
     = Trade.rows (DataProcessor._clean_trading_data df).
Proof.
  split; [|split].
  - rewrite clean_rows_stamped.
    apply perm_trans with
      (map (fun r => Trade.set_date (dt_date_of (Trade.datetime r)) r)
         (map (fun r => Trade.set_datetime (timestamp_by_precedence df r) r)
            (filter has_side (Trade.rows df)))).
    + apply Permutation_map, sort_values_datetime_perm.
    + rewrite map_map. apply Permutation_refl.
  - intros Hno fg. unfold TradingAnalyzer._merge_by_date.
    rewrite dated_rows_stamped by exact Hno. reflexivity.
  - unfold TradingAnalyzer.dated_rows, Trade.has_column.
    cbn [DataProcessor._clean_trading_data Trade.columns].
    rewrite has_added_column. reflexivity.
Qed.

(** What the precedence gives a row: under ['Timestamp IST'] a cell that
    reads as [t] gives the row the timestamp [t] and the day of [t], and
    a cell that does not parse gives it a null timestamp and a null day;
    so under ['Timestamp'] when that is the column there is; and with
    neither column every row is of 2024-12-02. *)
Lemma loader_day_of_a_row (df : Trade.Frame) (r : Trade.Row) :
  In r (Trade.rows df) -> has_side r = true ->
  (Trade.has_column "Timestamp IST" df = true ->
   (forall t, Trade.Timestamp_IST r = Reads t ->
      In (Trade.set_date (Some (dt_date t))
            (Trade.set_datetime (Some t) r))
         (Trade.rows (DataProcessor._clean_trading_data df)))
   /\ (Trade.Timestamp_IST r = Unreadable ->
       In (Trade.set_date None (Trade.set_datetime None r))
          (Trade.rows (DataProcessor._clean_trading_data df))))
  /\ (Trade.has_column "Timestamp IST" df = false ->
      Trade.has_column "Timestamp" df = true ->
      (forall t, Trade.Timestamp r = Reads t ->
         In (Trade.set_date (Some (dt_date t))
               (Trade.set_datetime (Some t) r))
            (Trade.rows (DataProcessor._clean_trading_data df)))
      /\ (Trade.Timestamp r = Unreadable ->
          In (Trade.set_date None (Trade.set_datetime None r))
             (Trade.rows (DataProcessor._clean_trading_data df))))
  /\ (Trade.has_column "Timestamp IST" df = false ->
      Trade.has_column "Timestamp" df = false ->
      In (Trade.set_date (Some (mkDate 2024 12 2))
            (Trade.set_datetime (Some default_timestamp) r))
         (Trade.rows (DataProcessor._clean_trading_data df))).
Proof.
  intros Hr Hs.
  assert (Hin : In (with_day df r)
                  (Trade.rows (DataProcessor._clean_trading_data df))).
  { apply (Permutation_in _
             (Permutation_sym (proj1 (days_by_precedence df)))).
    apply in_map, filter_In. auto. }
  unfold with_day, day_by_precedence, timestamp_by_precedence in Hin.
  split; [|split].
  - intros H1. rewrite H1 in Hin.
    split; [intros t Ht|intros Ht]; rewrite Ht in Hin; exact Hin.
  - intros H1 H2. rewrite H1, H2 in Hin.
    split; [intros t Ht|intros Ht]; rewrite Ht in Hin; exact Hin.
  - intros H1 H2. rewrite H1, H2 in Hin. exact Hin.
Qed.

(** The analyzer raises instead of keeping a null day exactly when the
    trade table has rows, none of them has a day, and the sentiment
    table has a record; in every other case it returns the joined rows,
    null days included. *)
Lemma undated_table_is_refused (fg : Sentiment.Frame) (td : Trade.Frame) :
  (TradingAnalyzer.dated_rows td <> [] /\ fg <> []
   /\ (forall t, In t (TradingAnalyzer.dated_rows td) -> Trade.date t = None)
   -> TradingAnalyzer._merge_by_date (Some fg) (Some td)
      = inl Merged.merge_refused)
  /\ (~ (TradingAnalyzer.dated_rows td <> [] /\ fg <> []
         /\ (forall t, In t (TradingAnalyzer.dated_rows td) ->
                       Trade.date t = None))
      -> TradingAnalyzer._merge_by_date (Some fg) (Some td)
         = inr (merged_of fg td)).
Proof.
  rewrite merge_by_date_outcome.
  assert (Hfg : fg <> [] <-> TradingAnalyzer.sentiment_by_date fg <> []).
  { unfold TradingAnalyzer.sentiment_by_date.
    destruct fg; simpl; split; congruence. }
  destruct (Merged.keys_refused (TradingAnalyzer.dated_rows td)
              (TradingAnalyzer.sentiment_by_date fg)) eqn:E.
  - split; [reflexivity|]. intros Hn. exfalso. apply Hn.
    apply keys_refused_iff in E. tauto.
  - split; [|reflexivity]. intros H.
    assert (E' : Merged.keys_refused (TradingAnalyzer.dated_rows td)
                   (TradingAnalyzer.sentiment_by_date fg) = true)
      by (apply keys_refused_iff; tauto).
    congruence.
Qed.

(** C9: where the code leaves the statement.  The loader gives a row
    whose timestamp does not parse a null day and raises nothing, and a
    row whose timestamp reads its own day.  But when no row of the trade
    table has a day, as for a table of one row with a timestamp that does
    not parse, and the sentiment table has a record, the analyzer does
    not keep the null day: the join of [_merge_by_date] raises a
    [ValueError], for the loader's table and for the table as the file
    has it, and no analyzer is built.  With one readable row beside it
    the null day is kept. *)
Theorem unreadable_timestamps_refuse_the_join :
  map Trade.date (Trade.rows Samples.unreadable_only) = [None]
  /\ map Trade.date (Trade.rows Samples.one_undated)
     = [Some Samples.D1; None]
  /\ TradingAnalyzer._merge_by_date (Some Samples.first_day_only)
       (Some Samples.unreadable_only)
     = inl Merged.merge_refused
  /\ TradingAnalyzer._merge_by_date (Some Samples.first_day_only)
       (Some Samples.unreadable_raw)
     = inl Merged.merge_refused
  /\ TradingAnalyzer.__init__ (Some Samples.first_day_only)
       (Some Samples.unreadable_only)
     = inl Merged.merge_refused
  /\ map Merged.date
       (merged_of Samples.first_day_only Samples.one_undated)
     = [Some Samples.D1; None]
  /\ TradingAnalyzer._merge_by_date (Some Samples.first_day_only)
       (Some Samples.one_undated)
     = inr (merged_of Samples.first_day_only Samples.one_undated).
Proof. repeat split. Qed.

(** ** The Sharpe ratio of two days or more *)

Import VarianceFacts.

Lemma sharpe_ratio_of_nothing (rf : Q) :
  TradingAnalyzer._calculate_sharpe_ratio [] rf = VInt 0.
Proof. reflexivity. Qed.

(** A constant series of at least two cells has standard deviation 0 and
    the ratio is the integer 0. *)
Lemma sharpe_ratio_of_constant (x y : Q) (r : list Q) (rf : Q) :
  constant (x :: y :: r) ->
  TradingAnalyzer._calculate_sharpe_ratio (map Some (x :: y :: r)) rf
  = VInt 0.
Proof.
  intros Hc. apply sample_variance_zero in Hc.
  unfold TradingAnalyzer._calculate_sharpe_ratio, std.
  rewrite var_some. cbn [map option_map].
  apply Qeq_eqR in Hc. rewrite Hc, RMicromega.Q2R_0, sqrt_0.
  destruct (Req_dec_T 0 0) as [_|Hne]; [reflexivity|].
  exfalso. apply Hne. reflexivity.
Qed.

(** Every other series of at least two cells has a positive standard
    deviation and the ratio is
    [mean(returns - rf / 252) / std(returns) * sqrt(252)]. *)
Lemma sharpe_ratio_formula (x y : Q) (r : list Q) (rf : Q) :
  ~ constant (x :: y :: r) ->
  TradingAnalyzer._calculate_sharpe_ratio (map Some (x :: y :: r)) rf
  = VReal (Q2R (mean_excess (x :: y :: r) rf)
           / sqrt (Q2R (sample_variance (x :: y :: r))) * sqrt 252)%R.
Proof.
  intros Hc.
  assert (Hv : 0 < sample_variance (x :: y :: r)).
  { pose proof (sample_variance_nonneg x y r) as Hn.
    apply Qle_lteq in Hn. destruct Hn as [Hn|Hn]; [exact Hn|].
    exfalso. apply Hc, sample_variance_zero. symmetry. exact Hn. }
  apply Qlt_Rlt in Hv. rewrite RMicromega.Q2R_0 in Hv.
  apply sqrt_lt_R0 in Hv.
  unfold TradingAnalyzer._calculate_sharpe_ratio, std.
  rewrite var_some. cbn [option_map].
  change (map Some (x :: y :: r)) with (Some x :: map Some (y :: r)) at 1.
  cbv iota.
  destruct (Req_dec_T (sqrt (Q2R (sample_variance (x :: y :: r)))) 0)
    as [He|_]; [lra|].
  change (Some x :: map Some (y :: r)) with (map Some (x :: y :: r)).
  rewrite mean_some. reflexivity.
Qed.

(** * Further properties of the code *)

Import MoreProps.

(** ** The rows of the daily aggregate *)

Module DayFacts.

Import Pandas GroupBy Props MoreProps SumFacts ColumnFacts GroupFacts
  DailyFacts VarianceFacts DrawdownFacts.

Lemma get_daily_aggregates_date (merged_df : list Merged.Row) :
  map DataProcessor.date (DataProcessor.get_daily_aggregates merged_df)
  = group_keys merged_df.
Proof.
  unfold DataProcessor.get_daily_aggregates. rewrite map_map. simpl.
  apply map_fst_groupby.
Qed.

Lemma wins_are_counted (g : list Merged.Row) :
  (0 <= win_rows g <= count (pnl g))%Z.
Proof.
  unfold win_rows, count, pnl. split; [lia|]. apply inj_le.
  induction g as [|r g IH]; simpl; [lia|].
  unfold is_win at 1.
  destruct (Trade.Closed_PnL (Merged.trade r)) as [p|]; simpl; [|exact IH].
  destruct (Qlt_le_dec 0 p); simpl; lia.
Qed.

Lemma win_columns (g : list Merged.Row) :
  win_columns_ok (count (pnl g)) (win_rows g)
    (times100 (div_counts (win_rows g) (count (pnl g)))).
Proof.
  pose proof (wins_are_counted g) as Hw. split; [exact Hw|].
  unfold div_counts.
  destruct (Z.eqb_spec (count (pnl g)) 0) as [Hz|Hz]; simpl; [exact Hz|].
  assert (Hpos : (0 < count (pnl g))%Z) by lia.
  split; [exact Hpos|].
  assert (Hc : 0 < inject_Z (count (pnl g))) by (unfold Qlt; simpl; lia).
  assert (H0 : 0 <= inject_Z (win_rows g)) by (unfold Qle; simpl; lia).
  assert (H1 : inject_Z (win_rows g) <= inject_Z (count (pnl g)))
    by (unfold Qle; simpl; lia).
  assert (Hq : 0 <= inject_Z (win_rows g) / inject_Z (count (pnl g)) <= 1).
  { split.
    - apply Qle_shift_div_l; [exact Hc|]. rewrite Qmult_0_l. exact H0.
    - apply Qle_shift_div_r; [exact Hc|]. rewrite Qmult_1_l. exact H1. }
  lra.
Qed.

End DayFacts.

Import DayFacts.

(** X1: both daily aggregates have one row per day on which the table
    has a row, and no other: the days are in ascending order, none is
    repeated, and a day without a trade has no row. *)
Theorem daily_rows_are_the_trading_days (merged_df : list Merged.Row) :
  let days := map Daily.date (TradingAnalyzer.daily_frame merged_df) in
  map DataProcessor.date (DataProcessor.get_daily_aggregates merged_df) = days
  /\ ascending days
  /\ NoDup days
  /\ forall d, In d days <->
               exists r, In r merged_df /\ Merged.date r = Some d.
Proof.
  intros days. unfold days.
  rewrite daily_frame_date, get_daily_aggregates_date.
  split; [reflexivity|]. split; [apply group_keys_ascending|].
  split; [apply group_keys_NoDup|]. intros d. apply group_keys_in.
Qed.

(** X2: in every row of the daily aggregate, whatever the table, the
    winning trades are between 0 and the trade count, and the win rate
    is a percentage between 0 and 100, or NaN exactly when the day has no
    trade with a readable PnL. *)
Theorem win_rate_is_a_percentage (merged_df : list Merged.Row) :
  Forall (fun r => win_columns_ok (Daily.trade_count r) (Daily.win_trades r)
                     (Daily.win_rate r))
    (TradingAnalyzer.daily_frame merged_df)
  /\ Forall (fun r => win_columns_ok (DataProcessor.trade_count r)
                        (DataProcessor.win_trades r)
                        (DataProcessor.win_rate r))
       (DataProcessor.get_daily_aggregates merged_df).
Proof.
  split; apply Forall_forall; intros r Hr.
  - apply daily_frame_row in Hr. destruct Hr as [g [c [s [k [_ ->]]]]].
    apply win_columns.
  - unfold DataProcessor.get_daily_aggregates in Hr.
    apply in_map_iff in Hr. destruct Hr as [g [<- _]]. apply win_columns.
Qed.

(** ** The left join *)

Lemma join_row_length (t : Trade.Row) (right : list (Date * (Z * string))) :
  (1 <= List.length (Merged.join_row t right))%nat.
Proof.
  unfold Merged.join_row.
  destruct (filter (Merged.key_matches (Trade.date t)) right);
    cbn [List.length map]; lia.
Qed.

Lemma join_row_sentiment (t : Trade.Row) (right : list (Date * (Z * string)))
  (r : Merged.Row) :
  In r (Merged.join_row t right) ->
  match Merged.sentiment_score r with
  | Some v =>
      exists d c, Trade.date t = Some d /\ In (d, (v, c)) right
                  /\ Merged.sentiment_category r = Some c
  | None =>
      Merged.sentiment_category r = None
      /\ forall s, In s right -> Merged.key_matches (Trade.date t) s = false
  end.
Proof.
  unfold Merged.join_row.
  destruct (filter (Merged.key_matches (Trade.date t)) right) as [|s l] eqn:E.
  - intros [<-|[]]. simpl. split; [reflexivity|].
    intros s Hs. destruct (Merged.key_matches (Trade.date t) s) eqn:Ek;
      [|reflexivity].
    assert (Hin : In s (filter (Merged.key_matches (Trade.date t)) right))
      by (apply filter_In; auto).
    rewrite E in Hin. contradiction.
  - intros Hin. apply in_map_iff in Hin. destruct Hin as [s' [<- Hs']].
    simpl. rewrite <- E in Hs'. apply filter_In in Hs'.
    destruct Hs' as [Hs' Hk]. unfold Merged.key_matches in Hk.
    destruct (Trade.date t) as [d|]; [|discriminate].
    apply date_eqb_eq in Hk. exists d, (snd (snd s')).
    split; [reflexivity|]. split; [|reflexivity].
    destruct s' as [d' [v c]]. simpl in *. subst d'. exact Hs'.
Qed.

(** X5: the join of [_merge_by_date], for two tables that are there.
    It raises a [ValueError] exactly when the trade table has rows, none
    of them has a day, and the sentiment table has a record.  When it
    returns, it has lost no trade and invented none: every merged row
    carries a row of the trade table and every row of the trade table is
    carried at least once; a merged row has the value and the category
    of a sentiment record of its own day, or null for both when no record
    has that day; and with one record per day the merged rows carry the
    trade rows one for one, in their order. *)
Theorem left_join_keeps_every_trade
  (fg : Sentiment.Frame) (td : Trade.Frame) :
  let left := TradingAnalyzer.dated_rows td in
  let right := TradingAnalyzer.sentiment_by_date fg in
  match TradingAnalyzer._merge_by_date (Some fg) (Some td) with
  | inl e =>
      e = Merged.merge_refused
      /\ left <> [] /\ fg <> []
      /\ forall t, In t left -> Trade.date t = None
  | inr merged =>
      (left = [] \/ fg = [] \/ exists t d, In t left /\ Trade.date t = Some d)
      /\ (forall t, In t left <-> exists r, In r merged /\ Merged.trade r = t)
      /\ (List.length left <= List.length merged)%nat
      /\ Forall (fun r =>
           match Merged.sentiment_score r with
           | Some v =>
               exists d c, Merged.date r = Some d /\ In (d, (v, c)) right
                           /\ Merged.sentiment_category r = Some c
           | None =>
               Merged.sentiment_category r = None
               /\ forall s, In s right ->
                            Merged.key_matches (Merged.date r) s = false
           end) merged
      /\ (one_record_per_day fg -> map Merged.trade merged = left)
  end.
Proof.
  intros left right. rewrite MergeFacts.merge_by_date_outcome.
  fold left right.
  assert (Hfg : fg = [] <-> right = []).
  { unfold right, TradingAnalyzer.sentiment_by_date.
    destruct fg; simpl; split; congruence. }
  destruct (Merged.keys_refused left right) eqn:E.
  - apply MergeFacts.keys_refused_iff in E.
    destruct E as [Hl [Hr Hn]].
    split; [reflexivity|]. split; [exact Hl|]. split; [|exact Hn].
    intros H. apply Hr, Hfg, H.
  - unfold merged_of. fold left right.
    split; [|split; [|split; [|split]]].
    + destruct left as [|t l]; [left; reflexivity|].
      destruct right as [|s r] eqn:Er;
        [right; left; apply Hfg; reflexivity|].
      right. right. cbn [Merged.keys_refused] in E.
      apply negb_false_iff, existsb_exists in E.
      destruct E as [t' [Ht' Hn]].
      destruct (Trade.date t') as [d|] eqn:Ed; [|discriminate].
      exists t', d. auto.
    + intros t. split.
      * intros Ht. destruct (join_row_nonempty t right) as [r Hr].
        exists r. split; [apply merge_left_row; exists t; auto|].
        apply (join_row_date _ _ _ Hr).
      * intros [r [Hr <-]]. apply merge_left_row in Hr.
        destruct Hr as [t [Ht Hr]]. rewrite (join_row_date _ _ _ Hr).
        exact Ht.
    + unfold Merged.merge_left. clear E Hfg.
      induction left as [|t l IH]; simpl; [lia|].
      rewrite length_app. pose proof (join_row_length t right). lia.
    + apply Forall_forall. intros r Hr. apply merge_left_row in Hr.
      destruct Hr as [t [_ Hr]].
      pose proof (join_row_sentiment _ _ _ Hr) as Hs.
      unfold Merged.date. rewrite (join_row_date _ _ _ Hr). exact Hs.
    + apply merge_left_trade.
Qed.

(** ** What the forward fill carries *)

Module CarryFacts.

Import Pandas GroupBy Props MoreProps GroupFacts ColumnFacts DailyFacts
  MergeFacts FillFacts TradingAnalyzer.

Lemma first_app {A} (a b : list (option A)) :
  first (a ++ b) = match first a with Some v => Some v | None => first b end.
Proof.
  induction a as [|[x|] a IH]; simpl; [reflexivity|reflexivity|exact IH].
Qed.

Lemma filter_join_row (d : Date) (t : Trade.Row)
  (right : list (Date * (Z * string))) :
  filter (in_group d) (Merged.join_row t right)
  = if on_day d t then Merged.join_row t right else [].
Proof.
  assert (H : forall r, In r (Merged.join_row t right) ->
                        in_group d r = on_day d t).
  { intros r Hr. unfold in_group, Merged.date, on_day.
    rewrite (join_row_date _ _ _ Hr). reflexivity. }
  destruct (on_day d t).
  - induction (Merged.join_row t right) as [|r l IH]; [reflexivity|].
    simpl. rewrite (H r) by (left; reflexivity).
    f_equal. apply IH. intros r' Hr'. apply H. right. exact Hr'.
  - apply filter_none. exact H.
Qed.

Lemma first_score_join_row (d : Date) (t : Trade.Row)
  (right : list (Date * (Z * string))) :
  on_day d t = true ->
  first (map Merged.sentiment_score (Merged.join_row t right))
  = first_match d right.
Proof.
  unfold on_day, Merged.join_row, first_match.
  destruct (Trade.date t) as [d'|]; [|discriminate].
  intros H. apply date_eqb_eq in H. subst d'.
  destruct (filter (Merged.key_matches (Some d)) right); reflexivity.
Qed.

Lemma score_of_group (d : Date) (left : list Trade.Row)
  (right : list (Date * (Z * string))) :
  score_of_day (Merged.merge_left left right) d
  = if existsb (on_day d) left then first_match d right else None.
Proof.
  unfold score_of_day, Merged.merge_left.
  induction left as [|t left IH]; [reflexivity|].
  cbn [flat_map existsb]. rewrite filter_app, map_app, first_app, IH.
  rewrite filter_join_row.
  destruct (on_day d t) eqn:E; cbn [orb].
  - rewrite (first_score_join_row d) by exact E.
    destruct (first_match d right); [reflexivity|].
    destruct (existsb (on_day d) left); reflexivity.
  - reflexivity.
Qed.

(** Before the fill, the sentiment of a day of trading is the value of
    its first record. *)
Lemma score_of_day_value (fg : Sentiment.Frame) (td : Trade.Frame) (d : Date) :
  In d (group_keys (merged_of fg td)) ->
  score_of_day (merged_of fg td) d = record_value fg d.
Proof.
  intros Hd. unfold merged_of. rewrite score_of_group.
  apply merged_keys in Hd. destruct Hd as [t [Ht Hd]].
  replace (existsb (on_day d) (dated_rows td)) with true; [reflexivity|].
  symmetry. apply existsb_exists. exists t. split; [exact Ht|].
  unfold on_day. rewrite Hd. apply date_eqb_refl.
Qed.

Lemma before_not_back (a b : Date) :
  date_ltb a b = true -> date_leb b a = false.
Proof. unfold date_leb. intros ->. reflexivity. Qed.

(** The cell that the fill leaves on a day: the cell of the latest day,
    that day included, whose own cell is not null, or the value carried
    from before the column when there is no such day. *)
Lemma filled_cell {A} (F : Date -> option A) (d : Date) (v : A)
  (ks : list Date) :
  ascending ks ->
  forall last,
  In (d, Some v) (combine ks (ffill_from last (map F ks))) <->
  In d ks
  /\ ((exists d', In d' ks /\ date_leb d' d = true /\ F d' = Some v
         /\ forall d'', In d'' ks -> date_ltb d' d'' = true ->
                        date_leb d'' d = true -> F d'' = None)
      \/ (last = Some v
          /\ forall d'', In d'' ks -> date_leb d'' d = true -> F d'' = None)).
Proof.
  induction 1 as [|k ks Hs IH Hall]; intros last.
  - simpl. intuition.
  - rewrite Forall_forall in Hall. unfold before in Hall.
    assert (Hk : forall x, In x ks -> date_leb x k = false)
      by (intros x Hx; apply before_not_back, Hall, Hx).
    assert (Hkk : ~ In k ks).
    { intros Hin. specialize (Hall k Hin).
      rewrite date_ltb_irrefl in Hall. discriminate. }
    cbn [map]. destruct (F k) as [x|] eqn:EF.
    + cbn [ffill_from combine]. rewrite in_cns, IH. split.
      * intros [Heq|[Hd [[d' [Hd' [Hle [HF Hno]]]]|[Hl Hno]]]].
        -- injection Heq as <- <-. split; [left; reflexivity|]. left.
           exists k. split; [left; reflexivity|].
           split; [apply date_leb_refl|]. split; [exact EF|].
           intros d'' [<-|Hd''] Hlt Hle.
           ++ rewrite date_ltb_irrefl in Hlt. discriminate.
           ++ rewrite (Hk d'' Hd'') in Hle. discriminate.
        -- split; [right; exact Hd|]. left. exists d'.
           split; [right; exact Hd'|]. split; [exact Hle|].
           split; [exact HF|]. intros d'' [<-|Hd''] Hlt Hle'.
           ++ apply date_ltb_leb in Hlt.
              rewrite (Hk d' Hd') in Hlt. discriminate.
           ++ apply Hno; assumption.
        -- split; [right; exact Hd|]. left. exists k.
           split; [left; reflexivity|].
           split; [apply date_ltb_leb, Hall, Hd|].
           injection Hl as ->. split; [exact EF|].
           intros d'' [<-|Hd''] Hlt Hle.
           ++ rewrite date_ltb_irrefl in Hlt. discriminate.
           ++ apply Hno; assumption.
      * intros [[<-|Hd] Hcase].
        -- left. f_equal. destruct Hcase as [[d' [Hd' [Hle [HF Hno]]]]|[_ Hno]].
           ++ destruct Hd' as [<-|Hd'].
              ** congruence.
              ** rewrite (Hk d' Hd') in Hle. discriminate.
           ++ specialize (Hno k (or_introl eq_refl) (date_leb_refl k)).
              congruence.
        -- right. split; [exact Hd|].
           destruct Hcase as [[d' [Hd' [Hle [HF Hno]]]]|[_ Hno]].
           ++ destruct Hd' as [<-|Hd'].
              ** right. split; [congruence|].
                 intros d'' Hd'' Hle'. apply Hno; [right; exact Hd''| |exact Hle'].
                 apply Hall, Hd''.
              ** left. exists d'. repeat split; try assumption.
                 intros d'' Hd'' Hlt Hle'. apply Hno; [right|..]; assumption.
           ++ specialize (Hno k (or_introl eq_refl)
                            (date_ltb_leb _ _ (Hall d Hd))).
              congruence.
    + cbn [ffill_from combine]. rewrite in_cns, IH. split.
      * intros [Heq|[Hd [[d' [Hd' [Hle [HF Hno]]]]|[Hl Hno]]]].
        -- injection Heq as <- ->. split; [left; reflexivity|]. right.
           split; [reflexivity|]. intros d'' [<-|Hd''] Hle; [exact EF|].
           rewrite (Hk d'' Hd'') in Hle. discriminate.
        -- split; [right; exact Hd|]. left. exists d'.
           split; [right; exact Hd'|]. split; [exact Hle|].
           split; [exact HF|]. intros d'' [<-|Hd''] Hlt Hle'; [exact EF|].
           apply Hno; assumption.
        -- split; [right; exact Hd|]. right. split; [exact Hl|].
           intros d'' [<-|Hd''] Hle; [exact EF|]. apply Hno; assumption.
      * intros [[<-|Hd] Hcase].
        -- left. f_equal. destruct Hcase as [[d' [Hd' [Hle [HF Hno]]]]|[Hl _]].
           ++ destruct Hd' as [<-|Hd'].
              ** congruence.
              ** rewrite (Hk d' Hd') in Hle. discriminate.
           ++ congruence.
        -- right. split; [exact Hd|].
           destruct Hcase as [[d' [Hd' [Hle [HF Hno]]]]|[Hl Hno]].
           ++ destruct Hd' as [<-|Hd']; [congruence|].
              left. exists d'. repeat split; try assumption.
              intros d'' Hd'' Hlt Hle'. apply Hno; [right|..]; assumption.
           ++ right. split; [exact Hl|].
              intros d'' Hd'' Hle. apply Hno; [right|]; assumption.
Qed.

End CarryFacts.

Import CarryFacts.

(** X6: the sentiment that the daily aggregate shows on a day is the one
    of the most recent day of trading, that day included, that has a
    sentiment record: the cell of day [d] is [v] exactly when some day of
    trading [d'] not after [d] has a record whose value is [v] (the first
    one of that day) and no day of trading after [d'] and up to [d] has a
    record. *)
Theorem filled_sentiment_is_latest_record
  (fg : Sentiment.Frame) (td : Trade.Frame) (d : Date) (v : Z) :
  In (d, Some v)
    (combine (map Daily.date (daily_of fg td))
       (map Daily.sentiment_score (daily_of fg td))) <->
  trades_on td d
  /\ exists d', trades_on td d' /\ date_leb d' d = true
       /\ record_value fg d' = Some v
       /\ forall d'', trades_on td d'' -> date_ltb d' d'' = true ->
                      date_leb d'' d = true -> has_record fg d'' = false.
Proof.
  unfold daily_of.
  rewrite daily_frame_date, daily_frame_sentiment_score, first_score_column.
  unfold ffill.
  rewrite filled_cell by apply group_keys_ascending.
  split.
  - intros [Hd [[d' [Hd' [Hle [HF Hno]]]]|[Hl _]]]; [|discriminate].
    split; [apply (proj1 (merged_keys fg td d)); exact Hd|]. exists d'.
    rewrite score_of_day_value in HF by exact Hd'.
    split; [apply (proj1 (merged_keys fg td d')); exact Hd'|].
    split; [exact Hle|]. split; [exact HF|].
    intros d'' Hd'' Hlt Hle'.
    apply (proj2 (merged_keys fg td d'')) in Hd''.
    rewrite <- (score_of_day_notna fg td d'' Hd'').
    rewrite (Hno d'' Hd'' Hlt Hle'). reflexivity.
  - intros [Hd [d' [Hd' [Hle [HF Hno]]]]].
    apply (proj2 (merged_keys fg td d)) in Hd.
    apply (proj2 (merged_keys fg td d')) in Hd'.
    split; [exact Hd|]. left. exists d'.
    rewrite score_of_day_value by exact Hd'.
    repeat split; try assumption.
    intros d'' Hd'' Hlt Hle'.
    pose proof (score_of_day_notna fg td d'' Hd'') as Hn.
    rewrite (Hno d'') in Hn;
      [|apply (proj1 (merged_keys fg td d'')); exact Hd''|assumption..].
    destruct (score_of_day (merged_of fg td) d''); [discriminate|reflexivity].
Qed.

(** ** Score and category go together *)

Lemma daily_frame_sentiment_category (merged : list Merged.Row) :
  map Daily.sentiment_category (TradingAnalyzer.daily_frame merged)
  = ffill (map TradingAnalyzer.first_category (groupby_date merged)).
Proof.
  unfold TradingAnalyzer.daily_frame. rewrite map_map. simpl.
  rewrite (map_combine_snd (fun x => snd (snd x)))
    by apply length_groups_rest.
  rewrite (map_combine_snd (fun x => snd x))
    by apply length_cumulative_rest.
  apply map_snd_combine, length_score_cat.
Qed.

Lemma notna_ffill_from {A B} (l1 : option A) (l2 : option B)
  (a : list (option A)) (b : list (option B)) :
  notna l1 = notna l2 -> map notna a = map notna b ->
  map notna (ffill_from l1 a) = map notna (ffill_from l2 b).
Proof.
  revert l1 l2 b. induction a as [|x a IH]; intros l1 l2 [|y b] Hl Hab;
    try discriminate; [reflexivity|].
  simpl in Hab. injection Hab as Hxy Hab.
  destruct x, y; try discriminate; simpl; f_equal; auto.
Qed.

Lemma maps_agree {A B} (f g : A -> B) (l : list A) :
  map f l = map g l -> Forall (fun x => f x = g x) l.
Proof.
  induction l as [|x l IH]; simpl; intros H; constructor.
  - congruence.
  - apply IH. congruence.
Qed.

Lemma existsb_agree {A} (f g : A -> bool) (l : list A) :
  (forall x, In x l -> f x = g x) -> existsb f l = existsb g l.
Proof.
  induction l as [|x l IH]; simpl; intros H; [reflexivity|].
  rewrite (H x) by (left; reflexivity).
  rewrite IH by (intros y Hy; apply H; right; exact Hy). reflexivity.
Qed.

Lemma merged_row_score_category (left : list Trade.Row)
  (right : list (Date * (Z * string))) (r : Merged.Row) :
  In r (Merged.merge_left left right) ->
  notna (Merged.sentiment_score r) = notna (Merged.sentiment_category r).
Proof.
  intros Hr. apply merge_left_row in Hr. destruct Hr as [t [_ Hr]].
  apply join_row_sentiment in Hr.
  destruct (Merged.sentiment_score r).
  - destruct Hr as [d [c [_ [_ ->]]]]. reflexivity.
  - destruct Hr as [-> _]. reflexivity.
Qed.

(** X7: in the analyzer's daily aggregate the sentiment score and the
    sentiment category are null on the same rows: the fill never leaves
    a day with one of the two and without the other. *)
Theorem score_and_category_filled_together (left : list Trade.Row)
  (right : list (Date * (Z * string))) :
  Forall (fun r => notna (Daily.sentiment_score r)
                   = notna (Daily.sentiment_category r))
    (TradingAnalyzer.daily_frame (Merged.merge_left left right)).
Proof.
  apply (maps_agree (fun r => notna (Daily.sentiment_score r))
           (fun r => notna (Daily.sentiment_category r))).
  rewrite <- (map_map Daily.sentiment_score notna).
  rewrite <- (map_map Daily.sentiment_category notna).
  rewrite daily_frame_sentiment_score, daily_frame_sentiment_category.
  apply notna_ffill_from; [reflexivity|].
  rewrite !map_map. apply map_ext_in. intros g Hg.
  unfold TradingAnalyzer.first_score, TradingAnalyzer.first_category.
  rewrite !first_notna, !existsb_map.
  apply existsb_agree. intros r Hr.
  rewrite (group_rows _ _ Hg) in Hr. apply filter_In in Hr.
  apply (merged_row_score_category left right), Hr.
Qed.

(** ** Sorted tables *)

Module OrderFacts.

Import Pandas Props MoreProps SortBy.

Section Sorting.

Context {A : Type}.
Variable before : A -> A -> bool.
Hypothesis before_asym : forall a b, before a b = true -> before b a = false.
Hypothesis before_negtrans :
  forall a b c, before b a = false -> before c b = false ->
                before c a = false.

Let le (x y : A) : Prop := before y x = false.

Lemma insert_by_perm (r : A) (l : list A) :
  Permutation (insert_by before r l) (r :: l).
Proof.
  induction l as [|x l IH]; simpl.
  - apply Permutation_refl.
  - destruct (before x r).
    + apply perm_trans with (x :: r :: l);
        [apply perm_skip, IH|apply perm_swap].
    + apply Permutation_refl.
Qed.

Lemma sort_by_perm (l : list A) : Permutation (sort_by before l) l.
Proof.
  induction l as [|r l IH]; simpl.
  - apply Permutation_refl.
  - apply perm_trans with (r :: sort_by before l);
      [apply insert_by_perm|apply perm_skip, IH].
Qed.

Lemma insert_by_sorted (r : A) (l : list A) :
  StronglySorted le l -> StronglySorted le (insert_by before r l).
Proof.
  induction 1 as [|x l Hs IH Hall]; simpl.
  - constructor; constructor.
  - destruct (before x r) eqn:E.
    + constructor; [exact IH|].
      apply Forall_forall. intros y Hy.
      apply (Permutation_in _ (insert_by_perm r l)) in Hy.
      destruct Hy as [<-|Hy].
      * apply before_asym. exact E.
      * rewrite Forall_forall in Hall. apply Hall, Hy.
    + constructor; [constructor; assumption|].
      constructor; [exact E|].
      eapply Forall_impl; [|exact Hall].
      intros y Hy. unfold le in *. apply before_negtrans with x; assumption.
Qed.

Lemma sort_by_sorted (l : list A) : StronglySorted le (sort_by before l).
Proof.
  induction l as [|r l IH]; simpl; [constructor|].
  apply insert_by_sorted, IH.
Qed.

(** Sorting a sorted list changes nothing. *)
End Sorting.

(** The order of timestamps. *)

Lemma datetime_ltb_asym (a b : DateTime) :
  datetime_ltb a b = true -> datetime_ltb b a = false.
Proof.
  unfold datetime_ltb.
  rewrite (date_compare_antisym (dt_date a) (dt_date b)).
  destruct (date_compare (dt_date a) (dt_date b)); simpl;
    try discriminate; try reflexivity.
  destruct (Qlt_le_dec (dt_time a) (dt_time b)) as [H|H]; [|discriminate].
  intros _. destruct (Qlt_le_dec (dt_time b) (dt_time a)); [lra|reflexivity].
Qed.

Lemma date_compare_gt_trans (a b c : Date) :
  date_compare b a = Gt -> date_compare c b <> Lt -> date_compare c a = Gt.
Proof.
  intros H1 H2.
  assert (Hab : date_compare a b = Lt).
  { rewrite (date_compare_antisym b a), H1. reflexivity. }
  assert (Hac : date_compare a c = Lt).
  { destruct (date_compare c b) eqn:E.
    - apply date_compare_eq in E. subst c. exact Hab.
    - congruence.
    - apply date_compare_lt_trans with b; [exact Hab|].
      rewrite (date_compare_antisym c b), E. reflexivity. }
  rewrite (date_compare_antisym a c), Hac. reflexivity.
Qed.

Lemma datetime_ltb_negtrans (a b c : DateTime) :
  datetime_ltb b a = false -> datetime_ltb c b = false ->
  datetime_ltb c a = false.
Proof.
  unfold datetime_ltb. intros H1 H2.
  destruct (date_compare (dt_date b) (dt_date a)) eqn:E1; [| discriminate |].
  - apply date_compare_eq in E1. rewrite <- E1.
    destruct (date_compare (dt_date c) (dt_date b)); try discriminate;
      [|reflexivity].
    destruct (Qlt_le_dec (dt_time b) (dt_time a)); [discriminate|].
    destruct (Qlt_le_dec (dt_time c) (dt_time b)); [discriminate|].
    destruct (Qlt_le_dec (dt_time c) (dt_time a)); [lra|reflexivity].
  - rewrite (date_compare_gt_trans _ _ _ E1); [reflexivity|].
    intros E2. rewrite E2 in H2. discriminate.
Qed.

Lemma datetime_before_asym (a b : option DateTime) :
  DataProcessor.datetime_before a b = true ->
  DataProcessor.datetime_before b a = false.
Proof.
  destruct a as [x|], b as [y|]; simpl; try discriminate; try reflexivity.
  apply datetime_ltb_asym.
Qed.

Lemma datetime_before_negtrans (a b c : option DateTime) :
  DataProcessor.datetime_before b a = false ->
  DataProcessor.datetime_before c b = false ->
  DataProcessor.datetime_before c a = false.
Proof.
  destruct a as [x|], b as [y|], c as [z|]; simpl; try discriminate;
    try reflexivity.
  apply datetime_ltb_negtrans.
Qed.

End OrderFacts.

(** ** The cleaned trade table *)

Module CleanFacts.

Import Pandas Props MoreProps SortBy OrderFacts SortFacts.

Lemma insert_by_datetime_generic (r : Trade.Row) (l : list Trade.Row) :
  DataProcessor.insert_by_datetime r l = insert_by row_before r l.
Proof.
  induction l as [|x l IH]; simpl; [reflexivity|].
  unfold row_before at 1. rewrite IH. reflexivity.
Qed.

Lemma sort_values_datetime_generic (l : list Trade.Row) :
  DataProcessor.sort_values_datetime l = sort_by row_before l.
Proof.
  induction l as [|r l IH]; simpl; [reflexivity|].
  rewrite insert_by_datetime_generic, IH. reflexivity.
Qed.

Lemma row_before_asym (a b : Trade.Row) :
  row_before a b = true -> row_before b a = false.
Proof. apply datetime_before_asym. Qed.

Lemma row_before_negtrans (a b c : Trade.Row) :
  row_before b a = false -> row_before c b = false -> row_before c a = false.
Proof. apply datetime_before_negtrans. Qed.

Lemma sort_values_datetime_sorted (l : list Trade.Row) :
  by_datetime (DataProcessor.sort_values_datetime l).
Proof.
  rewrite sort_values_datetime_generic.
  apply (sort_by_sorted row_before row_before_asym row_before_negtrans).
Qed.

Lemma by_datetime_map (f : Trade.Row -> Trade.Row) (l : list Trade.Row) :
  (forall r, Trade.datetime (f r) = Trade.datetime r) ->
  by_datetime l -> by_datetime (map f l).
Proof.
  intros Hf. unfold by_datetime. induction 1 as [|x l Hs IH Hall]; simpl.
  - constructor.
  - constructor; [exact IH|].
    apply Forall_forall. intros y Hy. apply in_map_iff in Hy.
    destruct Hy as [z [<- Hz]]. rewrite !Hf.
    rewrite Forall_forall in Hall. apply Hall, Hz.
Qed.

Lemma has_column_added (c c' : string) (cols : list string) :
  existsb (String.eqb c) (Trade.add_column c' cols)
  = existsb (String.eqb c) cols || String.eqb c c'.
Proof.
  unfold Trade.add_column.
  destruct (existsb (String.eqb c') cols) eqn:E.
  - destruct (String.eqb_spec c c') as [->|_].
    + rewrite E. reflexivity.
    + rewrite orb_false_r. reflexivity.
  - rewrite existsb_app. simpl. rewrite orb_false_r. reflexivity.
Qed.

Lemma clean_has_column (c : string) (df : Trade.Frame) :
  Trade.has_column c (DataProcessor._clean_trading_data df)
  = Trade.has_column c df || String.eqb c "datetime" || String.eqb c "date".
Proof.
  unfold Trade.has_column. cbn [DataProcessor._clean_trading_data Trade.columns].
  rewrite !has_column_added. reflexivity.
Qed.

Lemma clean_timestamp (df : Trade.Frame) (r : Trade.Row) :
  timestamp_by_precedence (DataProcessor._clean_trading_data df) r
  = timestamp_by_precedence df r.
Proof.
  unfold timestamp_by_precedence. rewrite !clean_has_column.
  simpl. rewrite !orb_false_r. reflexivity.
Qed.

Lemma with_day_fields (df : Trade.Frame) (r : Trade.Row) :
  Trade.datetime (with_day df r) = timestamp_by_precedence df r
  /\ Trade.date (with_day df r) = day_by_precedence df r
  /\ Trade.Side (with_day df r) = Trade.Side r
  /\ Trade.Timestamp_IST (with_day df r) = Trade.Timestamp_IST r
  /\ Trade.Timestamp (with_day df r) = Trade.Timestamp r.
Proof. repeat split. Qed.

Lemma insert_by_datetime_map (f : Trade.Row -> Trade.Row) (r : Trade.Row)
  (l : list Trade.Row) :
  (forall x, Trade.datetime (f x) = Trade.datetime x) ->
  DataProcessor.insert_by_datetime (f r) (map f l)
  = map f (DataProcessor.insert_by_datetime r l).
Proof.
  intros Hf. induction l as [|x l IH]; simpl; [reflexivity|].
  rewrite !Hf.
  destruct (DataProcessor.datetime_before (Trade.datetime x) (Trade.datetime r));
    simpl; [rewrite IH|]; reflexivity.
Qed.

Lemma sort_values_datetime_map (f : Trade.Row -> Trade.Row)
  (l : list Trade.Row) :
  (forall x, Trade.datetime (f x) = Trade.datetime x) ->
  DataProcessor.sort_values_datetime (map f l)
  = map f (DataProcessor.sort_values_datetime l).
Proof.
  intros Hf. induction l as [|r l IH]; simpl; [reflexivity|].
  rewrite IH. apply insert_by_datetime_map, Hf.
Qed.

(** The rows of the cleaned table, the sort written last. *)
Lemma clean_rows (df : Trade.Frame) :
  Trade.rows (DataProcessor._clean_trading_data df)
  = DataProcessor.sort_values_datetime
      (map (with_day df) (filter has_side (Trade.rows df))).
Proof.
  rewrite clean_rows_stamped.
  rewrite <- sort_values_datetime_map by reflexivity.
  rewrite map_map. reflexivity.
Qed.

Lemma clean_row_origin (df : Trade.Frame) (r : Trade.Row) :
  In r (Trade.rows (DataProcessor._clean_trading_data df)) ->
  exists r0, In r0 (Trade.rows df) /\ has_side r0 = true
             /\ r = with_day df r0.
Proof.
  rewrite clean_rows. intros Hr.
  apply (Permutation_in _ (sort_values_datetime_perm _)) in Hr.
  apply in_map_iff in Hr. destruct Hr as [r0 [<- Hr0]].
  apply filter_In in Hr0. exists r0. intuition.
Qed.

Lemma filter_all {A} (f : A -> bool) (l : list A) :
  (forall x, In x l -> f x = true) -> filter f l = l.
Proof.
  induction l as [|x l IH]; simpl; intros H; [reflexivity|].
  rewrite (H x) by (left; reflexivity).
  f_equal. apply IH. intros y Hy. apply H. right. exact Hy.
Qed.

End CleanFacts.

Import OrderFacts CleanFacts.

(** X8: the table that [_clean_trading_data] returns is in ascending
    order of the timestamp, the rows whose timestamp did not parse last;
    every row has a side, and its day is the day of its timestamp. *)
Theorem cleaned_trades_are_sorted (df : Trade.Frame) :
  let out := Trade.rows (DataProcessor._clean_trading_data df) in
  by_datetime out
  /\ Forall (fun r => has_side r = true) out
  /\ Forall (fun r => Trade.date r = dt_date_of (Trade.datetime r)) out.
Proof.
  intros out. subst out. split; [|split].
  - rewrite clean_rows. apply sort_values_datetime_sorted.
  - apply Forall_forall. intros r Hr. apply clean_row_origin in Hr.
    destruct Hr as [r0 [_ [Hs ->]]]. exact Hs.
  - apply Forall_forall. intros r Hr. apply clean_row_origin in Hr.
    destruct Hr as [r0 [_ [_ ->]]]. reflexivity.
Qed.

(** ** The cleaned Fear and Greed table *)

Module FearGreedFacts.

Import Pandas Props MoreProps SortBy OrderFacts FearGreed.

Lemma date_before_asym (a b : Row) :
  date_before a b = true -> date_before b a = false.
Proof.
  unfold date_before. destruct (date a), (date b); try discriminate;
    try reflexivity.
  apply datetime_ltb_asym.
Qed.

Lemma date_before_negtrans (a b c : Row) :
  date_before b a = false -> date_before c b = false ->
  date_before c a = false.
Proof.
  unfold date_before. destruct (date a), (date b), (date c);
    try discriminate; try reflexivity.
  apply datetime_ltb_negtrans.
Qed.

Lemma complete_row (df : Frame) (r : Row) :
  has_column "date" df = true -> complete df r = true ->
  (exists t v, date r = Parsed t /\ value r = Some v)
  /\ (has_column "classification" df = true ->
      exists s, to_sentiment r = Some s).
Proof.
  unfold complete, to_sentiment. intros Hd Hc. rewrite Hd in Hc.
  simpl in Hc.
  destruct (date r) as [t| |]; simpl in Hc;
    try (rewrite andb_false_r in Hc; discriminate).
  destruct (value r) as [v|]; simpl in Hc;
    try (rewrite andb_false_r in Hc; discriminate).
  split; [eauto|]. intros Hcl. rewrite Hcl in Hc. simpl in Hc.
  destruct (classification r) as [c|]; [eauto|].
  rewrite andb_false_r in Hc. discriminate.
Qed.

End FearGreedFacts.

Import FearGreedFacts.

(** X10: what [_clean_fear_greed_data] does with a file.  It raises a
    parse error when a cell of [timestamp] or of [date] is malformed and
    a [KeyError] when the file has no [value] or no [date] column, and
    only then.  Otherwise it returns the rows that have no missing cell,
    all of them and no other, in ascending order of the date; each has a
    date and a value, and, when the file has the column
    [classification], all that the analyzer reads. *)
Theorem clean_fear_greed_outcome (df : FearGreed.Frame) :
  match FearGreed._clean_fear_greed_data df with
  | inr out => cleaned_from df out
               /\ FearGreed.has_column "value" df = true
               /\ FearGreed.has_column "date" df = true
               /\ malformed_in "timestamp" df
                  && FearGreed.has_column "timestamp" df = false
               /\ malformed_in "date" df = false
  | inl (FearGreed.KeyError k) => FearGreed.has_column k df = false
  | inl (FearGreed.ParseError c) =>
      FearGreed.has_column c df = true /\ malformed_in c df = true
  end.
Proof.
  assert (Et : malformed_in "timestamp" df
               = existsb (fun r => FearGreed.malformed (FearGreed.timestamp r))
                   (FearGreed.rows df)) by reflexivity.
  assert (Ed : malformed_in "date" df
               = existsb (fun r => FearGreed.malformed (FearGreed.date r))
                   (FearGreed.rows df)) by reflexivity.
  unfold FearGreed._clean_fear_greed_data. rewrite <- Et, <- Ed.
  destruct (FearGreed.has_column "timestamp" df
            && malformed_in "timestamp" df) eqn:Ct.
  { apply andb_true_iff in Ct. exact Ct. }
  destruct (FearGreed.has_column "date" df && malformed_in "date" df) eqn:Cd.
  { apply andb_true_iff in Cd. exact Cd. }
  destruct (FearGreed.has_column "value" df) eqn:Hv; [|exact Hv].
  destruct (FearGreed.has_column "date" df) eqn:Hd; [|exact Hd].
  cbn [negb]. simpl in Cd.
  split; [|repeat split; try assumption;
           rewrite andb_comm; exact Ct].
  unfold cleaned_from. cbn [FearGreed.rows].
  assert (Hp : Permutation
         (SortBy.sort_by FearGreed.date_before
            (filter (FearGreed.complete df) (FearGreed.rows df)))
         (filter (FearGreed.complete df) (FearGreed.rows df)))
    by apply sort_by_perm.
  assert (Hrow : forall r,
         In r (SortBy.sort_by FearGreed.date_before
                 (filter (FearGreed.complete df) (FearGreed.rows df))) ->
         FearGreed.complete df r = true).
  { intros r Hr. apply (Permutation_in _ Hp) in Hr.
    apply filter_In in Hr. apply Hr. }
  split; [apply (sort_by_sorted _ date_before_asym date_before_negtrans)|].
  split; [exact Hp|].
  split.
  - apply Forall_forall. intros r Hr.
    apply (complete_row df r Hd (Hrow r Hr)).
  - intros Hc. apply Forall_forall. intros r Hr.
    apply (complete_row df r Hd (Hrow r Hr)). exact Hc.
Qed.

(** ** The table behind the correlation charts *)

Module ChartFacts.

Import Pandas GroupBy Props MoreProps GroupFacts FillFacts DashboardVisualizer.








End ChartFacts.

Import ChartFacts.


(** ** Validation *)

Module ValidationFacts.

Import Pandas Props MoreProps Validation.

Lemma filter_nil_iff {A} (f : A -> bool) (l : list A) :
  filter f l = [] <-> forall x, In x l -> f x = false.
Proof.
  induction l as [|x l IH]; simpl.
  - split; [intros _ y []|reflexivity].
  - destruct (f x) eqn:E.
    + split; [discriminate|]. intros H.
      rewrite (H x (or_introl eq_refl)) in E. discriminate.
    + rewrite IH. split.
      * intros H y [<-|Hy]; [exact E|apply H, Hy].
      * intros H y Hy. apply H. right. exact Hy.
Qed.

Lemma missing_from_nil (cols required : list string) :
  missing_from cols required = [] <->
  forall c, In c required -> existsb (String.eqb c) cols = true.
Proof.
  unfold missing_from. rewrite filter_nil_iff. split; intros H c Hc.
  - apply negb_false_iff, H, Hc.
  - apply negb_false_iff, H, Hc.
Qed.

Lemma fold_min_bounds (r : list Z) (x : Z) :
  (forall y, In y (x :: r) -> (fold_left Z.min r x <= y)%Z)
  /\ In (fold_left Z.min r x) (x :: r).
Proof.
  revert x. induction r as [|z r IH]; intros x; simpl.
  - split; [intros y [<-|[]]; lia|left; reflexivity].
  - destruct (IH (Z.min x z)) as [Hlow Hin]. split.
    + intros y [<-|[<-|Hy]].
      * specialize (Hlow _ (or_introl eq_refl)). lia.
      * specialize (Hlow _ (or_introl eq_refl)). lia.
      * apply Hlow. right. exact Hy.
    + destruct Hin as [Hin|Hin]; [|right; right; exact Hin].
      destruct (Z.min_spec x z) as [[_ Hm]|[_ Hm]]; [left|right; left];
        (transitivity (Z.min x z); [lia|exact Hin]).
Qed.

Lemma fold_max_bounds (r : list Z) (x : Z) :
  (forall y, In y (x :: r) -> (y <= fold_left Z.max r x)%Z)
  /\ In (fold_left Z.max r x) (x :: r).
Proof.
  revert x. induction r as [|z r IH]; intros x; simpl.
  - split; [intros y [<-|[]]; lia|left; reflexivity].
  - destruct (IH (Z.max x z)) as [Hup Hin]. split.
    + intros y [<-|[<-|Hy]].
      * specialize (Hup _ (or_introl eq_refl)). lia.
      * specialize (Hup _ (or_introl eq_refl)). lia.
      * apply Hup. right. exact Hy.
    + destruct Hin as [Hin|Hin]; [|right; right; exact Hin].
      destruct (Z.max_spec x z) as [[_ Hm]|[_ Hm]]; [right; left|left];
        (transitivity (Z.max x z); [lia|exact Hin]).
Qed.

Lemma in_dropna {A} (x : A) (s : list (option A)) :
  In x (dropna s) <-> In (Some x) s.
Proof.
  induction s as [|[y|] s IH]; simpl.
  - reflexivity.
  - rewrite IH. split; intros [H|H]; auto; left; congruence.
  - rewrite IH. split; [auto|]. intros [H|H]; [discriminate|exact H].
Qed.

Lemma in_range_spec (values : list (option Z)) :
  in_range values = true <->
  dropna values <> [] /\ forall v, In (Some v) values -> (0 <= v <= 100)%Z.
Proof.
  unfold in_range, zmin_list, zmax_list.
  destruct (dropna values) as [|x r] eqn:E.
  - split; [discriminate|intros [H _]; congruence].
  - destruct (fold_min_bounds r x) as [Hlow Hmin].
    destruct (fold_max_bounds r x) as [Hup Hmax].
    rewrite !andb_true_iff, !Z.leb_le. split.
    + intros [[H0 _] H100]. split; [discriminate|].
      intros v Hv. apply in_dropna in Hv. rewrite E in Hv.
      specialize (Hlow v Hv). specialize (Hup v Hv). lia.
    + intros [_ Hall].
      assert (Hel : forall v, In v (x :: r) -> (0 <= v <= 100)%Z).
      { intros v Hv. apply Hall, in_dropna. rewrite E. exact Hv. }
      pose proof (Hel _ Hmin). pose proof (Hel _ Hmax).
      pose proof (Hlow _ Hmax). lia.
Qed.

Lemma fear_greed_issues_nil (fg : FearGreed.Frame) :
  fear_greed_issues fg = [] <-> fear_greed_valid fg.
Proof.
  unfold fear_greed_issues, fear_greed_valid.
  pose proof (missing_from_nil (FearGreed.columns fg)
                ["date"; "value"; "classification"]) as Hm.
  split.
  - intros H. apply app_eq_nil in H. destruct H as [H1 H2].
    assert (Hcols : forall c, In c ["date"; "value"; "classification"] ->
                      FearGreed.has_column c fg = true).
    { apply Hm.
      destruct (missing_from (FearGreed.columns fg)
                  ["date"; "value"; "classification"]);
        [reflexivity|discriminate]. }
    split; [exact Hcols|].
    rewrite (Hcols "value") in H2 by (simpl; auto).
    apply in_range_spec.
    destruct (in_range (map FearGreed.value (FearGreed.rows fg)));
      [reflexivity|discriminate].
  - intros [Hcols [Hne Hall]].
    rewrite (proj2 Hm Hcols).
    rewrite (Hcols "value") by (simpl; auto).
    rewrite (proj2 (in_range_spec _) (conj Hne Hall)). reflexivity.
Qed.

Lemma trading_issues_nil (td : Trade.Frame) :
  trading_issues td = [] <-> trading_valid td.
Proof.
  unfold trading_issues, trading_valid.
  pose proof (missing_from_nil (Trade.columns td)
                ["Account"; "Side"; "Execution Price"; "Size USD"]) as Hm.
  split.
  - intros H. apply Hm.
    destruct (missing_from (Trade.columns td)
                ["Account"; "Side"; "Execution Price"; "Size USD"]);
      [reflexivity|discriminate].
  - intros H. rewrite (proj2 Hm H). reflexivity.
Qed.

Lemma fear_greed_issues_length (fg : FearGreed.Frame) :
  (List.length (fear_greed_issues fg) <= 2)%nat.
Proof.
  unfold fear_greed_issues. rewrite length_app.
  destruct (missing_from _ _);
    destruct (FearGreed.has_column "value" fg);
    try destruct (in_range _); simpl; lia.
Qed.

Lemma trading_issues_length (td : Trade.Frame) :
  (List.length (trading_issues td) <= 1)%nat.
Proof.
  unfold trading_issues. destruct (missing_from _ _); simpl; lia.
Qed.

End ValidationFacts.

Import ValidationFacts.

(** X12: [validate_data] raises nothing and reports at most three
    issues.  It reports none exactly when each table that is loaded is in
    order: the Fear and Greed table has its three columns and at least
    one value, all its values between 0 and 100; the trade table has its
    four columns.  A Fear and Greed table without any value is reported
    as out of range. *)
Theorem validate_data_reports
  (fear_greed_data : option FearGreed.Frame)
  (trading_data : option Trade.Frame) :
  (Validation.validate_data fear_greed_data trading_data = [] <->
   match fear_greed_data with
   | Some fg => fear_greed_valid fg
   | None => True
   end
   /\ match trading_data with
      | Some td => trading_valid td
      | None => True
      end)
  /\ (List.length (Validation.validate_data fear_greed_data trading_data)
      <= 3)%nat.
Proof.
  unfold Validation.validate_data. split.
  - split.
    + intros H. apply app_eq_nil in H. destruct H as [H1 H2]. split.
      * destruct fear_greed_data; [apply fear_greed_issues_nil, H1|exact I].
      * destruct trading_data; [apply trading_issues_nil, H2|exact I].
    + intros [H1 H2].
      destruct fear_greed_data as [fg|], trading_data as [td|];
        try apply fear_greed_issues_nil in H1;
        try apply trading_issues_nil in H2;
        rewrite ?H1, ?H2; reflexivity.
  - rewrite length_app.
    destruct fear_greed_data as [fg|], trading_data as [td|]; simpl length;
      try pose proof (fear_greed_issues_length fg);
      try pose proof (trading_issues_length td); lia.
Qed.

(** ** The structure check of [utils.py] *)

Lemma forallb_id_empty (mask : list bool) :
  List.length mask = 0%nat -> forallb (fun b => b) mask = true.
Proof. destruct mask; [reflexivity|discriminate]. Qed.

Lemma forallb_id_false (mask : list bool) :
  forallb (fun b => b) mask = false <-> exists b, In b mask /\ b = false.
Proof.
  induction mask as [|b mask IH]; simpl.
  - split; [discriminate|intros [b [[] _]]].
  - destruct b; simpl.
    + rewrite IH. split.
      * intros [b [Hb He]]. exists b. auto.
      * intros [b [[<-|Hb] He]]; [discriminate|]. exists b. auto.
    + split; [|reflexivity]. intros _. exists false. auto.
Qed.

(** X13: [validate_csv_structure] reports at most three issues, and none
    exactly when every required column is there, the table has a row and
    every column has a cell that is not null.  A table without rows is
    never in order: it is reported as empty and, every column of it
    counting as all NaN, all its columns are listed as such. *)
Theorem validate_csv_structure_reports (repr : list string -> string)
  (df : MoreUtils.AnyFrame) (required_columns : list string)
  (dataset_name : string) :
  let issues :=
    MoreUtils.validate_csv_structure repr df required_columns dataset_name in
  (issues = [] <->
   (forall c, In c required_columns -> In c (MoreUtils.column_names df))
   /\ MoreUtils.nrows df <> 0%nat
   /\ Forall has_a_value (MoreUtils.columns df))
  /\ (List.length issues <= 3)%nat
  /\ (well_formed df -> MoreUtils.nrows df = 0%nat ->
      MoreUtils.columns df <> [] ->
      In (dataset_name ++ " is empty")%string issues
      /\ In ("Columns with all NaN values in " ++ dataset_name ++ ": "
             ++ repr (MoreUtils.column_names df))%string issues).
Proof.
  intros issues. subst issues. unfold MoreUtils.validate_csv_structure.
  set (missing := filter _ required_columns).
  set (nans := filter (fun c => forallb (fun b => b) (snd c))
                 (MoreUtils.columns df)).
  assert (Hmiss : missing = [] <->
            forall c, In c required_columns ->
                      In c (MoreUtils.column_names df)).
  { unfold missing. rewrite filter_nil_iff. split; intros H c Hc.
    - specialize (H c Hc). apply negb_false_iff, existsb_exists in H.
      destruct H as [c' [Hc' He]]. apply String.eqb_eq in He. subst c'.
      exact Hc'.
    - apply negb_false_iff, existsb_exists. exists c.
      split; [apply H, Hc|apply String.eqb_refl]. }
  assert (Hnans : nans = [] <-> Forall has_a_value (MoreUtils.columns df)).
  { unfold nans. rewrite filter_nil_iff, Forall_forall.
    split; intros H c Hc; apply forallb_id_false, H, Hc. }
  split; [|split].
  - split.
    + intros H. apply app_eq_nil in H. destruct H as [H1 H].
      apply app_eq_nil in H. destruct H as [H2 H3].
      split; [|split].
      * apply Hmiss. destruct missing; [reflexivity|discriminate].
      * destruct (MoreUtils.nrows df); [discriminate|lia].
      * apply Hnans. destruct nans; [reflexivity|discriminate].
    + intros [H1 [H2 H3]].
      rewrite (proj2 Hmiss H1), (proj2 Hnans H3).
      destruct (MoreUtils.nrows df); [congruence|reflexivity].
  - rewrite !length_app.
    destruct missing, (MoreUtils.nrows df), (map fst nans); simpl; lia.
  - intros Hwf Hn Hcols. rewrite Hn.
    assert (Hall : nans = MoreUtils.columns df).
    { unfold nans. apply filter_all. intros c Hc.
      apply forallb_id_empty. unfold well_formed in Hwf.
      rewrite Forall_forall in Hwf. rewrite (Hwf c Hc). exact Hn. }
    rewrite Hall. fold (MoreUtils.column_names df).
    assert (Hnames : MoreUtils.column_names df <> []).
    { unfold MoreUtils.column_names.
      destruct (MoreUtils.columns df); [congruence|discriminate]. }
    split.
    + apply in_or_app. right. apply in_or_app. left. left. reflexivity.
    + apply in_or_app. right. apply in_or_app. right.
      destruct (MoreUtils.column_names df); [congruence|].
      left. reflexivity.
Qed.

Lemma validate_csv_structure_reports_witness :
  let df := MoreUtils.mkAnyFrame 0 [("date", []); ("value", [])] in
  well_formed df /\ MoreUtils.nrows df = 0%nat /\ MoreUtils.columns df <> []
  /\ In ("sentiment is empty")%string
       (MoreUtils.validate_csv_structure (String.concat ",") df
          ["date"] "sentiment").
Proof.
  intros df.
  assert (H1 : well_formed df) by (repeat constructor).
  assert (H2 : MoreUtils.nrows df = 0%nat) by reflexivity.
  assert (H3 : MoreUtils.columns df <> []) by discriminate.
  split; [exact H1|]. split; [exact H2|]. split; [exact H3|].
  exact (proj1 (proj2 (proj2 (validate_csv_structure_reports
           (String.concat ",") df ["date"] "sentiment")) H1 H2 H3)).
Defined.

(** ** The drawdown in percent *)

Module PercentFacts.

Import Pandas Props MoreProps DrawdownFacts MoreUtils.

Lemma nth_percent_cells (a b : list Q) (i : nat) :
  List.length a = List.length b -> (i < List.length a)%nat ->
  nth i (percent_cells (map Some a) (map Some b)) None
  = percent_of (Some (nth i a 0)) (Some (nth i b 0)).
Proof.
  revert b i. induction a as [|u a IH]; intros [|v b] i H Hi; simpl in *;
    try lia; try discriminate.
  destruct i as [|i]; [reflexivity|]. apply IH; lia.
Qed.

Lemma fold_max_base (base : Q) (l : list Q) :
  base <= fold_right Qmax base l.
Proof.
  induction l as [|x l IH]; simpl; [apply Qle_refl|].
  apply Qle_trans with (fold_right Qmax base l); [exact IH|].
  apply Q.le_max_r.
Qed.

(** No cell is above the running maximum. *)
Lemma below_running_max (c : list Q) (i : nat) :
  nth i c 0 <= running_max_at c i.
Proof. apply fold_max_base. Qed.

Lemma calculate_drawdown_cell (x : Q) (r : list Q) (i : nat) :
  (i < List.length (x :: r))%nat ->
  exists m, m == running_max_at (x :: r) i
            /\ nth i (calculate_drawdown (map Some (x :: r))) None
               = percent_of (Some (nth i (x :: r) 0 - m)) (Some m).
Proof.
  intros Hi. exists (nth i (x :: run_from x r) 0).
  split; [apply nth_running_max; exact Hi|].
  unfold calculate_drawdown.
  rewrite expanding_max_some, sub_some.
  assert (Hlen : List.length (x :: r) = List.length (x :: run_from x r))
    by (simpl; rewrite length_run_from; reflexivity).
  rewrite nth_percent_cells.
  - rewrite nth_zipminus by assumption. reflexivity.
  - rewrite length_zipminus by exact Hlen. exact Hlen.
  - rewrite length_zipminus by exact Hlen. exact Hi.
Qed.

End PercentFacts.

Import PercentFacts.

(** X15: the percentage that [calculate_drawdown] gives for a cell of a
    series without NaN depends on the sign of the running maximum there.
    Over a positive running maximum it is a number that is never
    positive; over a negative one it is a number that is never negative,
    so that a series that has never been above zero shows its losses as
    positive percentages; and where the running maximum is 0 the cell is
    not a finite number. *)
Theorem drawdown_percentage_sign (x : Q) (r : list Q) (i : nat) :
  let c := x :: r in
  let cell := nth i (MoreUtils.calculate_drawdown (map Some c)) None in
  (i < List.length c)%nat ->
  (0 < running_max_at c i -> exists q, cell = Some q /\ q <= 0)
  /\ (running_max_at c i < 0 -> exists q, cell = Some q /\ 0 <= q)
  /\ (running_max_at c i == 0 -> cell = None).
Proof.
  intros c cell Hi. subst cell c.
  destruct (calculate_drawdown_cell x r i Hi) as [m [Hm ->]].
  pose proof (below_running_max (x :: r) i) as Hb.
  unfold MoreUtils.percent_of.
  split; [|split]; intros Hs.
  - destruct (Qeq_bool m 0) eqn:E; [apply Qeq_bool_iff in E; lra|].
    eexists. split; [reflexivity|].
    assert (Hq : (nth i (x :: r) 0 - m) / m <= 0).
    { apply Qle_shift_div_r; lra. }
    lra.
  - destruct (Qeq_bool m 0) eqn:E; [apply Qeq_bool_iff in E; lra|].
    eexists. split; [reflexivity|].
    assert (He : (nth i (x :: r) 0 - m) / m
                 == (m - nth i (x :: r) 0) / (- m)) by (field; lra).
    assert (Hq : 0 <= (m - nth i (x :: r) 0) / (- m)).
    { apply Qle_shift_div_l; lra. }
    lra.
  - rewrite <- Hm in Hs. apply Qeq_bool_iff in Hs. rewrite Hs. reflexivity.
Qed.

Lemma drawdown_percentage_sign_witness :
  (1 < List.length MoreSamples.losses)%nat
  /\ exists q,
       nth 1 (MoreUtils.calculate_drawdown (map Some MoreSamples.losses)) None
       = Some q /\ 0 <= q.
Proof.
  assert (H : (1 < List.length MoreSamples.losses)%nat) by (simpl; lia).
  split; [exact H|].
  apply (proj1 (proj2 (drawdown_percentage_sign (-10) [-30; -20] 1 H))).
  reflexivity.
Defined.

(** ** The first cells of a rolling correlation *)

Module RollingFacts.

Import Pandas Props MoreProps Utils.

Lemma windows_from_short {A} (w : nat) (s seen win : list A) (i : nat) :
  nth_error (windows_from w seen s) i = Some win ->
  (List.length win <= List.length seen + S i)%nat.
Proof.
  revert seen i. induction s as [|x s IH]; intros seen i H.
  - destruct i; discriminate.
  - destruct i as [|i]; simpl in H.
    + injection H as <-. rewrite length_skipn, length_app. simpl. lia.
    + apply IH in H. rewrite length_app in H. simpl in H. lia.
Qed.

Lemma valid_pairs_short (a b : list (option Q)) :
  (List.length (valid_pairs a b) <= List.length a)%nat.
Proof.
  revert b. induction a as [|x a IH]; intros [|y b]; simpl; try lia.
  specialize (IH b). destruct x, y; simpl; lia.
Qed.

Lemma nth_error_repeat {A} (x : A) (n i : nat) :
  (i < n)%nat -> nth_error (repeat x n) i = Some x.
Proof.
  revert i. induction n as [|n IH]; intros i Hi; [lia|].
  destruct i; simpl; [reflexivity|apply IH; lia].
Qed.

End RollingFacts.

Import RollingFacts.

(** X16: [rolling_correlation] reports nothing before a full window.
    Whenever it returns, every cell of the series it returns that comes
    before the cell [window - 1] is NaN: all of them when the input is
    shorter than the window.  This holds however pandas pairs the cells
    of the two series. *)
Theorem rolling_correlation_warm_up
  (align : Utils.Series -> Utils.Series
           -> list (Z * (option Q * option Q)))
  (series1 series2 : Utils.Series) (window : Z)
  (out : list (Z * pyval)) :
  Utils.rolling_correlation align series1 series2 window = inr out ->
  forall i, (i < List.length out)%nat -> (Z.of_nat i < window - 1)%Z ->
            nth_error (map snd out) i = Some VNaN.
Proof.
  unfold Utils.rolling_correlation, Utils.rolling_corr.
  destruct (Nat.eqb_spec (List.length series1) (List.length series2))
    as [Hlen|]; [|discriminate].
  simpl negb. cbv iota.
  destruct (Z.ltb_spec (Z.of_nat (List.length series1)) window) as [Hs|Hs].
  - intros H. injection H as <-. rewrite length_map. intros i Hi _.
    rewrite map_map. cbn [snd].
    rewrite nth_error_map.
    destruct (nth_error series1 i) eqn:E; [reflexivity|].
    apply nth_error_None in E. lia.
  - destruct (Z.ltb_spec window 0) as [|Hw]; [discriminate|].
    intros H. injection H as <-.
    set (aligned := align series1 series2).
    set (f := fun win : list (option Q * option Q) =>
                if (List.length (valid_pairs (map fst win) (map snd win))
                    <? Z.to_nat window)%nat
                then VNaN
                else of_option_real (corr (map fst win) (map snd win))).
    assert (Hl : List.length (map fst aligned)
                 = List.length
                     (map f (Utils.windows_from (Z.to_nat window) []
                               (map snd aligned))))
      by (rewrite !length_map, length_windows_from, length_map;
          reflexivity).
    rewrite (ColumnFacts.map_snd_combine _ _ Hl).
    rewrite length_combine, <- Hl, Nat.min_id.
    intros i Hi Hearly. rewrite nth_error_map.
    destruct (nth_error (Utils.windows_from (Z.to_nat window) []
                           (map snd aligned)) i) as [win|] eqn:E.
    + apply windows_from_short in E. simpl in E.
      pose proof (valid_pairs_short (map fst win) (map snd win)) as Hv.
      rewrite length_map in Hv. unfold f. cbn [option_map].
      destruct (Nat.ltb_spec
                  (List.length (valid_pairs (map fst win) (map snd win)))
                  (Z.to_nat window)); [reflexivity|lia].
    + apply nth_error_None in E.
      rewrite length_windows_from in E. rewrite !length_map in *. lia.
Qed.

Lemma rolling_correlation_warm_up_witness :
  Utils.rolling_correlation Utils.paired Samples.rising Samples.falling 30
  = inr [(0%Z, VNaN); (1%Z, VNaN)]
  /\ nth_error (map snd [(0%Z, VNaN); (1%Z, VNaN)]) 1 = Some VNaN.
Proof.
  assert (H : Utils.rolling_correlation Utils.paired Samples.rising
                Samples.falling 30
              = inr [(0%Z, VNaN); (1%Z, VNaN)]) by reflexivity.
  split; [exact H|].
  apply (rolling_correlation_warm_up _ _ _ _ _ H 1%nat); simpl; lia.
Defined.

(** ** The trading metrics *)

Module MetricsFacts.

Import Pandas Props MoreProps DrawdownFacts.

Lemma length_filter_le {A} (f : A -> bool) (l : list A) :
  (List.length (filter f l) <= List.length l)%nat.
Proof.
  induction l as [|x l IH]; simpl; [lia|]. destruct (f x); simpl; lia.
Qed.




End MetricsFacts.

Import MetricsFacts.



(** ** The statistical tests by category *)

Module TestFacts.

Import Pandas Props MoreProps MoreAnalysis.

Lemma existsb_eqb_in (x : string) (l : list string) :
  existsb (String.eqb x) l = true <-> In x l.
Proof.
  rewrite existsb_exists. split.
  - intros [y [Hy He]]. apply String.eqb_eq in He. subst. exact Hy.
  - intros H. exists x. split; [exact H|apply String.eqb_refl].
Qed.

Lemma unique_in (l seen : list string) (x : string) :
  In x (unique seen l) <-> In x l /\ ~ In x seen.
Proof.
  revert seen. induction l as [|y l IH]; intros seen; simpl.
  - tauto.
  - destruct (existsb (String.eqb y) seen) eqn:E.
    + apply existsb_eqb_in in E. rewrite IH. split.
      * tauto.
      * intros [[->|H] Hn]; [contradiction|tauto].
    + assert (Hy : ~ In y seen).
      { intros H. apply existsb_eqb_in in H. congruence. }
      simpl. rewrite IH. simpl. split.
      * intros [->|[H Hn]]; [tauto|]. split; [tauto|]. tauto.
      * intros [[->|H] Hn]; [tauto|].
        destruct (string_dec y x) as [->|Hne]; [tauto|]. right.
        split; [exact H|]. intros [?|?]; tauto.
Qed.

Lemma unique_nodup (l seen : list string) : NoDup (unique seen l).
Proof.
  revert seen. induction l as [|y l IH]; intros seen; simpl.
  - constructor.
  - destruct (existsb (String.eqb y) seen); [apply IH|].
    constructor; [|apply IH]. rewrite unique_in. simpl. tauto.
Qed.

Lemma filter_filter {A} (f g : A -> bool) (l : list A) :
  filter f (filter g l) = filter (fun x => g x && f x) l.
Proof.
  induction l as [|x l IH]; simpl; [reflexivity|].
  destruct (g x); simpl; [destruct (f x); rewrite IH; reflexivity|exact IH].
Qed.

Lemma category_days (c : string) (daily : list Daily.Row) :
  filter (has_category c) (days_with_category daily) = days_of c daily.
Proof.
  unfold days_with_category, days_of. rewrite filter_filter.
  apply filter_ext. intros r. unfold has_category.
  destruct (Daily.sentiment_category r); reflexivity.
Qed.

Lemma other_days (c : string) (daily : list Daily.Row) :
  filter (fun r => negb (has_category c r)) (days_with_category daily)
  = days_of_others c daily.
Proof.
  unfold days_with_category, days_of_others. apply filter_filter.
Qed.

Lemma days_split (c : string) (daily : list Daily.Row) :
  (List.length (days_of c daily) + List.length (days_of_others c daily)
   = List.length (days_with_category daily))%nat.
Proof.
  unfold days_of, days_of_others, days_with_category, has_category.
  induction daily as [|r l IH]; simpl; [reflexivity|].
  destruct (Daily.sentiment_category r) as [c'|]; simpl; [|exact IH].
  destruct (String.eqb c' c); simpl; lia.
Qed.

Lemma category_of_day (c : string) (daily : list Daily.Row) :
  days_of c daily <> [] ->
  In c (dropna (map Daily.sentiment_category (days_with_category daily))).
Proof.
  unfold days_of, days_with_category, has_category.
  induction daily as [|r l IH]; simpl; [congruence|].
  destruct (Daily.sentiment_category r) as [c'|] eqn:E; simpl.
  - rewrite E. simpl. destruct (String.eqb_spec c' c) as [->|].
    + intros _. left. reflexivity.
    + intros H. right. apply IH, H.
  - exact IH.
Qed.

Section Keys.

Variable A : Type.
Variable f : string -> list (string * A).
Hypothesis key : forall c p, In p (f c) -> fst p = c.
Hypothesis once : forall c, (List.length (f c) <= 1)%nat.

Lemma flat_map_keys (cats : list string) (c : string) :
  In c (map fst (flat_map f cats)) -> In c cats.
Proof.
  rewrite in_map_iff. intros [p [<- Hp]]. apply in_flat_map in Hp.
  destruct Hp as [c' [Hc' Hp]]. rewrite (key _ _ Hp). exact Hc'.
Qed.

Lemma flat_map_keys_nodup (cats : list string) :
  NoDup cats -> NoDup (map fst (flat_map f cats)).
Proof.
  induction 1 as [|c cats Hn Hnd IH]; simpl; [constructor|].
  rewrite map_app. pose proof (once c) as Ho. pose proof (key c) as Hk.
  destruct (f c) as [|p [|q l]]; simpl in *; [exact IH| |lia].
  constructor; [|exact IH]. rewrite (Hk p) by tauto.
  intros Hin. apply Hn, flat_map_keys, Hin.
Qed.

End Keys.

End TestFacts.

Import TestFacts.

(** X19: the statistical tests of an analyzer that holds a daily frame.
    A category is reported exactly when at least two days have it and at
    least two days have another category, and it is reported once; its
    sample size is the number of its days, and its statistic and p-value
    are those of the t-test of the daily totals of its days against
    those of the days of the other categories.  So nothing is reported
    from fewer than four days that have a category. *)
Theorem statistical_tests_report
  (ttest_ind : list Q -> list Q -> pyval * pyval)
  (self : TradingAnalyzer.t) (daily : list Daily.Row) :
  TradingAnalyzer.daily_data self = Some daily ->
  let results := MoreAnalysis.perform_statistical_tests ttest_ind self in
  NoDup (map fst results)
  /\ (forall c, In c (map fst results)
                <-> (2 <= List.length (days_of c daily))%nat
                    /\ (2 <= List.length (days_of_others c daily))%nat)
  /\ (forall c res, In (c, res) results ->
        MoreAnalysis.sample_size res
        = Z.of_nat (List.length (days_of c daily))
        /\ (MoreAnalysis.t_statistic res, MoreAnalysis.p_value res)
           = ttest_ind (map Daily.total_pnl (days_of c daily))
               (map Daily.total_pnl (days_of_others c daily)))
  /\ (results <> [] ->
      (4 <= List.length (days_with_category daily))%nat).
Proof.
  intros Hd results. subst results.
  unfold MoreAnalysis.perform_statistical_tests. rewrite Hd.
  fold (days_with_category daily).
  set (clean := days_with_category daily).
  set (cats := MoreAnalysis.unique []
                 (dropna (map Daily.sentiment_category clean))).
  assert (Hin : forall c p,
            In p (MoreAnalysis.test_category ttest_ind clean c) ->
            p = (c, MoreAnalysis.mkTest
                      (mean (map Some (map Daily.total_pnl
                                         (days_of c daily))))
                      (fst (ttest_ind
                              (map Daily.total_pnl (days_of c daily))
                              (map Daily.total_pnl
                                 (days_of_others c daily))))
                      (snd (ttest_ind
                              (map Daily.total_pnl (days_of c daily))
                              (map Daily.total_pnl
                                 (days_of_others c daily))))
                      (Z.of_nat (List.length (days_of c daily))))
            /\ (2 <= List.length (days_of c daily))%nat
            /\ (2 <= List.length (days_of_others c daily))%nat).
  { intros c p. unfold MoreAnalysis.test_category, clean.
    rewrite category_days, other_days, !length_map.
    destruct (Nat.ltb_spec 1 (List.length (days_of c daily)));
      [|intros []].
    destruct (Nat.ltb_spec 1 (List.length (days_of_others c daily)));
      [|intros []].
    simpl. intros [<-|[]]. repeat split; assumption. }
  assert (Hkey : forall c p,
            In p (MoreAnalysis.test_category ttest_ind clean c) ->
            fst p = c).
  { intros c p Hp. apply Hin in Hp. destruct Hp as [-> _]. reflexivity. }
  assert (Honce : forall c,
            (List.length (MoreAnalysis.test_category ttest_ind clean c)
             <= 1)%nat).
  { intros c. unfold MoreAnalysis.test_category.
    destruct (_ && _); simpl; lia. }
  assert (Hres : forall c res,
            In (c, res)
              (flat_map (MoreAnalysis.test_category ttest_ind clean) cats)
            -> In (c, res)
                 (MoreAnalysis.test_category ttest_ind clean c)).
  { intros c res H. apply in_flat_map in H. destruct H as [c' [_ H]].
    pose proof (Hkey _ _ H) as E. simpl in E. subst c'. exact H. }
  split; [|split; [|split]].
  - apply flat_map_keys_nodup; [exact Hkey|exact Honce|].
    apply unique_nodup.
  - intros c. split.
    + rewrite in_map_iff. intros [[c' res] [<- H]]. simpl.
      apply Hres, Hin in H. tauto.
    + intros [H1 H2]. rewrite in_map_iff.
      eexists (c, _). split; [reflexivity|].
      apply in_flat_map. exists c. split.
      * unfold cats. apply unique_in. split; [|intros []].
        apply category_of_day. intros E. rewrite E in H1. simpl in H1. lia.
      * unfold MoreAnalysis.test_category, clean.
        rewrite category_days, other_days, !length_map.
        destruct (Nat.ltb_spec 1 (List.length (days_of c daily))); [|lia].
        destruct (Nat.ltb_spec 1 (List.length (days_of_others c daily)));
          [|lia].
        left. reflexivity.
  - intros c res H. apply Hres, Hin in H. destruct H as [E _].
    injection E as ->. simpl. split; [reflexivity|].
    symmetry. apply surjective_pairing.
  - intros Hne.
    assert (H : exists c res,
              In (c, res)
                (flat_map (MoreAnalysis.test_category ttest_ind clean)
                   cats)).
    { destruct (flat_map (MoreAnalysis.test_category ttest_ind clean) cats)
        as [|[c res] l]; [congruence|].
      exists c, res. left. reflexivity. }
    destruct H as [c [res H]].
    apply Hres, Hin in H. destruct H as [_ [H1 H2]].
    unfold clean. rewrite <- (days_split c daily). lia.
Qed.

Lemma statistical_tests_report_witness :
  TradingAnalyzer.daily_data
    (analyzer_of Samples.first_day_only Samples.two_days)
  = Some (daily_of Samples.first_day_only Samples.two_days)
  /\ NoDup (map fst (MoreAnalysis.perform_statistical_tests
                       (fun _ _ => (VNaN, VNaN))
                       (analyzer_of Samples.first_day_only
                          Samples.two_days))).
Proof.
  assert (H : TradingAnalyzer.daily_data
                (analyzer_of Samples.first_day_only Samples.two_days)
              = Some (daily_of Samples.first_day_only Samples.two_days))
    by reflexivity.
  split; [exact H|].
  exact (proj1 (statistical_tests_report (fun _ _ => (VNaN, VNaN)) _ _ H)).
Defined.

(** ** The sentiment statistics *)

Module StatisticsFacts.

Import Pandas Props MoreProps MoreAnalysis.

Lemma count_of_cons (name : string) (r : Sentiment.Row)
  (fg : Sentiment.Frame) :
  count_of name (r :: fg)
  = (indicator (String.eqb (Sentiment.classification r) name)
     + count_of name fg)%Z.
Proof.
  unfold count_of. cbn [filter].
  destruct (String.eqb (Sentiment.classification r) name);
    cbn [List.length indicator]; lia.
Qed.

Lemma count_of_nonneg (name : string) (fg : Sentiment.Frame) :
  (0 <= count_of name fg)%Z.
Proof. unfold count_of. lia. Qed.

Lemma one_class (r : Sentiment.Row) :
  (indicator (String.eqb (Sentiment.classification r) "Extreme Fear")
   + indicator (String.eqb (Sentiment.classification r) "Fear")
   + indicator (String.eqb (Sentiment.classification r) "Neutral")
   + indicator (String.eqb (Sentiment.classification r) "Greed")
   + indicator (String.eqb (Sentiment.classification r) "Extreme Greed")
   = indicator (known_class r))%Z.
Proof.
  unfold known_class, five_classes. cbn [existsb].
  destruct (String.eqb_spec (Sentiment.classification r) "Extreme Fear")
    as [->|]; [reflexivity|].
  destruct (String.eqb_spec (Sentiment.classification r) "Fear")
    as [->|]; [reflexivity|].
  destruct (String.eqb_spec (Sentiment.classification r) "Neutral")
    as [->|]; [reflexivity|].
  destruct (String.eqb_spec (Sentiment.classification r) "Greed")
    as [->|]; [reflexivity|].
  destruct (String.eqb_spec (Sentiment.classification r) "Extreme Greed");
    reflexivity.
Qed.

Lemma counts_sum (fg : Sentiment.Frame) :
  (count_of "Extreme Fear" fg + count_of "Fear" fg + count_of "Neutral" fg
   + count_of "Greed" fg + count_of "Extreme Greed" fg
   = Z.of_nat (List.length (filter known_class fg)))%Z.
Proof.
  induction fg as [|r fg IH]; [reflexivity|].
  rewrite !count_of_cons. pose proof (one_class r) as H.
  cbn [filter]. destruct (known_class r); cbn [indicator List.length] in *;
    lia.
Qed.

Lemma length_filter_all {A} (f : A -> bool) (l : list A) :
  List.length (filter f l) = List.length l <-> forallb f l = true.
Proof.
  induction l as [|x l IH]; simpl; [tauto|].
  pose proof (MetricsFacts.length_filter_le f l) as Hle.
  destruct (f x); simpl.
  - rewrite <- IH. lia.
  - split; [lia|discriminate].
Qed.

End StatisticsFacts.

Import StatisticsFacts.

(** X20: the sentiment statistics count each record in at most one of
    the five classes.  The five day counts are not negative, they add
    up to the number of records whose classification is one of the five
    names, and so to the number of all records exactly when every record
    has one of the five names.  The average score is a number exactly
    when the table has a record, and NaN otherwise. *)
Theorem sentiment_statistics_counts (fg : Sentiment.Frame) :
  let stats := MoreAnalysis.calculate_sentiment_statistics fg in
  exists a b c d e,
    lookup "extreme_fear_days" stats = Some (VInt a)
    /\ lookup "fear_days" stats = Some (VInt b)
    /\ lookup "neutral_days" stats = Some (VInt c)
    /\ lookup "greed_days" stats = Some (VInt d)
    /\ lookup "extreme_greed_days" stats = Some (VInt e)
    /\ (0 <= a /\ 0 <= b /\ 0 <= c /\ 0 <= d /\ 0 <= e)%Z
    /\ (a + b + c + d + e
        = Z.of_nat (List.length (filter known_class fg)))%Z
    /\ ((a + b + c + d + e = Z.of_nat (List.length fg))%Z
        <-> forallb known_class fg = true)
    /\ (fg = [] <-> lookup "avg_score" stats = Some VNaN).
Proof.
  intros stats. subst stats.
  exists (MoreAnalysis.count_of "Extreme Fear" fg),
    (MoreAnalysis.count_of "Fear" fg),
    (MoreAnalysis.count_of "Neutral" fg),
    (MoreAnalysis.count_of "Greed" fg),
    (MoreAnalysis.count_of "Extreme Greed" fg).
  do 5 (split; [reflexivity|]).
  split; [repeat split; apply count_of_nonneg|].
  split; [apply counts_sum|]. split.
  - rewrite counts_sum, <- length_filter_all. lia.
  - change (lookup "avg_score"
              (MoreAnalysis.calculate_sentiment_statistics fg))
      with (Some (of_option_float
                    (mean (map (fun r => Some (inject_Z (Sentiment.value r)))
                             fg)))).
    destruct fg as [|r fg]; [split; reflexivity|].
    split; [discriminate|]. unfold mean. simpl. discriminate.
Qed.

(** ** Conservation of the counts *)

Module CountFacts.

Import Pandas GroupBy Props MoreProps GroupFacts DailyFacts.

Lemma zsum_map_zero {A} (l : list A) : zsum (map (fun _ => 0%Z) l) = 0%Z.
Proof. induction l as [|x l IH]; simpl; [reflexivity|exact IH]. Qed.

Lemma zsum_map_plus {A} (f g : A -> Z) (l : list A) :
  zsum (map (fun x => (f x + g x)%Z) l)
  = (zsum (map f l) + zsum (map g l))%Z.
Proof.
  induction l as [|x l IH]; simpl; [reflexivity|]. rewrite IH. lia.
Qed.

Lemma zsum_indicator (d0 : Date) (x : Z) (ks : list Date) :
  NoDup ks -> In d0 ks ->
  zsum (map (fun d => if date_eqb d0 d then x else 0%Z) ks) = x.
Proof.
  induction ks as [|k ks IH]; simpl; intros Hnd Hin; [contradiction|].
  inversion Hnd as [|? ? Hk Hnd']; subst.
  destruct (date_eqb d0 k) eqn:E.
  - apply CalendarFacts.date_eqb_eq in E. subst k.
    rewrite (map_ext_in _ (fun _ => 0%Z)).
    + rewrite zsum_map_zero. lia.
    + intros y Hy. destruct (date_eqb d0 y) eqn:E'; [|reflexivity].
      apply CalendarFacts.date_eqb_eq in E'. subst y. contradiction.
  - destruct Hin as [Heq|Hin].
    + subst k. rewrite CalendarFacts.date_eqb_refl in E. discriminate.
    + rewrite IH by assumption. lia.
Qed.

(** The rows that satisfy [p], counted group by group, are the rows of
    the table that have a day and satisfy [p]. *)
Lemma count_by_group (p : Merged.Row -> bool) (ks : list Date)
  (df : list Merged.Row) :
  NoDup ks ->
  (forall r d, In r df -> Merged.date r = Some d -> In d ks) ->
  zsum (map (fun d =>
               Z.of_nat (List.length (filter p (filter (in_group d) df))))
          ks)
  = dated_rows_with p df.
Proof.
  intros Hnd. unfold dated_rows_with.
  induction df as [|r df IH]; intros Hall.
  - simpl. apply zsum_map_zero.
  - assert (IH' : zsum (map (fun d =>
                          Z.of_nat (List.length
                                      (filter p (filter (in_group d) df))))
                         ks)
                  = Z.of_nat (List.length
                                (filter (fun r => dated r && p r) df)))
      by (apply IH; intros r' d Hr'; apply Hall; right; exact Hr').
    rewrite (map_ext _
      (fun d => (indicator (in_group d r && p r)
                 + Z.of_nat (List.length
                               (filter p (filter (in_group d) df))))%Z)).
    + rewrite zsum_map_plus, IH'. cbn [filter].
      unfold dated, in_group.
      destruct (Merged.date r) as [d0|] eqn:E.
      * rewrite (map_ext _
          (fun d => if date_eqb d0 d then indicator (p r) else 0%Z))
          by (intros d; destruct (date_eqb d0 d); reflexivity).
        rewrite zsum_indicator;
          [|exact Hnd|apply (Hall r d0); [left; reflexivity|exact E]].
        cbn [notna andb]. destruct (p r); cbn [indicator List.length]; lia.
      * cbn [notna andb indicator]. rewrite zsum_map_zero. lia.
    + intros d. cbn [filter].
      destruct (in_group d r); cbn [andb filter];
        [destruct (p r)|]; cbn [indicator List.length]; lia.
Qed.

Lemma count_is_priced (g : list Merged.Row) :
  count (pnl g) = Z.of_nat (List.length (filter priced g)).
Proof.
  unfold count, pnl, priced. f_equal.
  induction g as [|r g IH]; simpl; [reflexivity|].
  destruct (Trade.Closed_PnL (Merged.trade r)); simpl; rewrite IH;
    reflexivity.
Qed.

Lemma counts_of_groups (p : Merged.Row -> bool) (df : list Merged.Row) :
  zsum (map (fun g => Z.of_nat (List.length (filter p (snd g))))
          (groupby_date df))
  = dated_rows_with p df.
Proof.
  unfold groupby_date. rewrite map_map. cbn [snd].
  apply count_by_group; [apply group_keys_NoDup|].
  intros r d Hr Hd. apply group_keys_in. exists r. auto.
Qed.

Lemma daily_frame_group_column {B} (h : Date * list Merged.Row -> B)
  (f : Daily.Row -> B) (merged : list Merged.Row) :
  (forall g c s k, f (TradingAnalyzer.daily_row g c s k) = h g) ->
  map f (TradingAnalyzer.daily_frame merged) = map h (groupby_date merged).
Proof.
  intros H. unfold TradingAnalyzer.daily_frame. rewrite map_map.
  rewrite (map_ext _ (fun x => h (fst x))) by (intros x; apply H).
  apply (map_combine_fst h), length_groups_rest.
Qed.

End CountFacts.

Import CountFacts.

(** X21: daily aggregation conserves the counts, whatever the table.
    Over the rows of the daily aggregate the cells of [trade_count] add
    up to the number of rows of the table that have a day and a
    [Closed PnL] that is a number, the cells of [buy_count] to the number
    of rows that have a day and are BUY rows, and the cells of
    [win_trades] to the number of rows that have a day and a positive
    [Closed PnL]; in the analyzer's frame and in the one of
    [DataProcessor.get_daily_aggregates].  A row without a day is
    counted nowhere. *)
Theorem daily_aggregation_conserves_the_counts
  (merged_df : list Merged.Row) :
  let daily := TradingAnalyzer.daily_frame merged_df in
  let daily' := DataProcessor.get_daily_aggregates merged_df in
  zsum (map Daily.trade_count daily) = dated_rows_with priced merged_df
  /\ zsum (map Daily.buy_count daily) = dated_rows_with is_buy merged_df
  /\ zsum (map Daily.win_trades daily) = dated_rows_with is_win merged_df
  /\ zsum (map DataProcessor.trade_count daily')
     = dated_rows_with priced merged_df
  /\ zsum (map DataProcessor.buy_count daily')
     = dated_rows_with is_buy merged_df
  /\ zsum (map DataProcessor.win_trades daily')
     = dated_rows_with is_win merged_df.
Proof.
  intros daily daily'. subst daily daily'.
  unfold DataProcessor.get_daily_aggregates.
  rewrite (daily_frame_group_column (fun g => count (pnl (snd g))))
    by reflexivity.
  rewrite (daily_frame_group_column (fun g => buy_rows (snd g)))
    by reflexivity.
  rewrite (daily_frame_group_column (fun g => win_rows (snd g)))
    by reflexivity.
  rewrite !map_map.
  cbn [DataProcessor.aggregate DataProcessor.trade_count
       DataProcessor.buy_count DataProcessor.win_trades].
  assert (Hc : zsum (map (fun g => count (pnl (snd g)))
                      (groupby_date merged_df))
               = dated_rows_with priced merged_df).
  { rewrite (map_ext _
      (fun g => Z.of_nat (List.length (filter priced (snd g)))))
      by (intros g; apply count_is_priced).
    apply counts_of_groups. }
  repeat split; try exact Hc; apply counts_of_groups.
Qed.
